(** * Parameter resolution components of [function_based.py]

    A shallow embedding of the function-based pipeline components of
    [google_cloud_pipeline_components/_implementation/llm/function_based.py]
    and the properties that its design document states about them.

    Conventions of the embedding:
    - Python [str] is [string], the UTF-8 bytes of the text; [str_lower] is
      [str.lower] on it, [lower] its short way for ASCII text.
    - Python [int] is [Z]; [Optional[T]] is [option T]; truthiness is written
      out ([truthy_str], [truthy_int], ...).
    - [raise ValueError(msg)] is [Raise (ValueError msg)] in the [result]
      monad; the message is kept, since it is the only thing that tells the
      raise sites apart.
    - What a component reads besides its arguments (the clock, [os.environ],
      the iteration order of a hash set) is a field of [World]. *)

From Stdlib Require Import String Ascii List ZArith Bool Lia.
From Stdlib Require Import Permutation Sorted DecimalString.
Import ListNotations.

Local Open Scope string_scope.
Local Open Scope Z_scope.

(** ** Python values and exceptions *)

Inductive exn : Type :=
| ValueError (msg : string)
| KeyError (key : string).

Inductive result (A : Type) : Type :=
| Ok (a : A)
| Raise (e : exn).

Arguments Ok {A} a.
Arguments Raise {A} e.

Definition bind {A B : Type} (m : result A) (k : A -> result B) : result B :=
  match m with
  | Ok a => k a
  | Raise e => Raise e
  end.

Notation "x <- m ;; k" := (bind m (fun x => k))
  (at level 61, m at next level, right associativity).
Notation "m ;;; k" := (bind m (fun _ => k))
  (at level 61, right associativity).

(** [if cond: raise e] followed by the rest of the body. *)
Definition raise_if (cond : bool) (e : exn) : result unit :=
  if cond then Raise e else Ok tt.

Definition is_ok {A : Type} (r : result A) : bool :=
  match r with Ok _ => true | Raise _ => false end.

(** ** Truthiness *)

Definition truthy_str (s : string) : bool :=
  match s with EmptyString => false | String _ _ => true end.

Definition truthy_int (n : Z) : bool := negb (n =? 0).

Definition truthy_opt {A : Type} (t : A -> bool) (o : option A) : bool :=
  match o with None => false | Some a => t a end.

Definition truthy_list {A : Type} (l : list A) : bool :=
  match l with [] => false | _ :: _ => true end.

(** [any(xs)] and [all(xs)] over the truth values of the elements. *)
Definition any (l : list bool) : bool := existsb (fun b => b) l.
Definition all (l : list bool) : bool := forallb (fun b => b) l.

(** [a or b] on optional strings whose second operand is a plain string. *)
Definition or_str (a : option string) (b : string) : string :=
  match a with
  | Some s => if truthy_str s then s else b
  | None => b
  end.

(** ** Strings *)

(** [ascii_upper_or_lower]: the letters A to Z, byte by byte. *)
Definition is_upper (c : ascii) : bool :=
  let n := N_of_ascii c in ((65 <=? n) && (n <=? 90))%N.

Definition lower_char (c : ascii) : ascii :=
  if is_upper c then ascii_of_N (N_of_ascii c + 32) else c.

Fixpoint lower (s : string) : string :=
  match s with
  | EmptyString => EmptyString
  | String c t => String (lower_char c) (lower t)
  end.

(** ** [str.lower] on text outside ASCII

    A [str] is kept as its UTF-8 bytes.  [str.lower] of CPython takes the
    short way of [lower] for a string of ASCII characters and maps any other
    string code point by code point: the full lower-case mapping of the
    Unicode character database (version 14.0), with the one rule that looks
    at the neighbours, the capital sigma at the end of a word. *)

Inductive uchar : Type :=
| Scalar (cp : N)      (* a code point *)
| Stray (b : ascii).   (* a byte outside every well-formed sequence *)

(** [ord(c)] of one byte. *)
Definition ord (c : ascii) : N := N_of_ascii c.

Fixpoint is_ascii (s : string) : bool :=
  match s with
  | EmptyString => true
  | String c t => (ord c <? 0x80)%N && is_ascii t
  end.

(** The payload of the continuation byte at index [i]. *)
Definition continuation_at (i : nat) (s : string) : option N :=
  match get i s with
  | Some c =>
      if ((0x80 <=? ord c) && (ord c <=? 0xbf))%N then Some (ord c - 0x80)%N
      else None
  | None => None
  end.

(** The code point that starts at the head of [s], with the number of its
    continuation bytes; over-long forms and surrogates are not well formed. *)
Definition scalar_at (s : string) : option (N * nat) :=
  match s with
  | EmptyString => None
  | String a _ =>
      let n := ord a in
      if (n <? 0x80)%N then Some (n, 0%nat)
      else if ((0xc2 <=? n) && (n <? 0xe0))%N then
        match continuation_at 1 s with
        | Some x => Some (((n - 0xc0) * 64 + x)%N, 1%nat)
        | None => None
        end
      else if ((0xe0 <=? n) && (n <? 0xf0))%N then
        match continuation_at 1 s, continuation_at 2 s with
        | Some x, Some y =>
            let cp := (((n - 0xe0) * 64 + x) * 64 + y)%N in
            if ((0x800 <=? cp) && negb ((0xd800 <=? cp) && (cp <=? 0xdfff)))%N
            then Some (cp, 2%nat) else None
        | _, _ => None
        end
      else if ((0xf0 <=? n) && (n <? 0xf5))%N then
        match continuation_at 1 s, continuation_at 2 s, continuation_at 3 s with
        | Some x, Some y, Some z =>
            let cp := ((((n - 0xf0) * 64 + x) * 64 + y) * 64 + z)%N in
            if ((0x10000 <=? cp) && (cp <=? 0x10ffff))%N
            then Some (cp, 3%nat) else None
        | _, _, _ => None
        end
      else None
  end.

(** The characters of a string; [skip] bytes at the head belong to the
    character before. *)
Fixpoint utf8_decode_from (skip : nat) (s : string) : list uchar :=
  match s with
  | EmptyString => []
  | String a t =>
      match skip with
      | S k => utf8_decode_from k t
      | O =>
          match scalar_at s with
          | Some (cp, k) => Scalar cp :: utf8_decode_from k t
          | None => Stray a :: utf8_decode_from 0 t
          end
      end
  end.

Definition utf8_decode (s : string) : list uchar := utf8_decode_from 0 s.

Definition utf8_encode_scalar (cp : N) : string :=
  if (cp <? 0x80)%N then String (ascii_of_N cp) EmptyString
  else if (cp <? 0x800)%N then
    String (ascii_of_N (0xc0 + cp / 64))
      (String (ascii_of_N (0x80 + cp mod 64)) EmptyString)
  else if (cp <? 0x10000)%N then
    String (ascii_of_N (0xe0 + cp / 4096))
      (String (ascii_of_N (0x80 + (cp / 64) mod 64))
         (String (ascii_of_N (0x80 + cp mod 64)) EmptyString))
  else
    String (ascii_of_N (0xf0 + cp / 262144))
      (String (ascii_of_N (0x80 + (cp / 4096) mod 64))
         (String (ascii_of_N (0x80 + (cp / 64) mod 64))
            (String (ascii_of_N (0x80 + cp mod 64)) EmptyString))).

Definition utf8_encode_char (u : uchar) : string :=
  match u with
  | Scalar cp => utf8_encode_scalar cp
  | Stray b => String b EmptyString
  end.

Fixpoint utf8_encode (l : list uchar) : string :=
  match l with
  | [] => EmptyString
  | u :: t => utf8_encode_char u ++ utf8_encode t
  end.

(** The simple lower-case mapping: [(first, last, step, image)] sends
    [first + k * step], up to [last], to [image + k * step]. *)
Definition lower_ranges : list (N * N * N * N) :=
  [(0x41, 0x5a, 1, 0x61); (0xc0, 0xd6, 1, 0xe0); (0xd8, 0xde, 1, 0xf8);
   (0x100, 0x12e, 2, 0x101); (0x132, 0x136, 2, 0x133); (0x139, 0x147, 2, 0x13a);
   (0x14a, 0x176, 2, 0x14b); (0x178, 0x178, 1, 0xff); (0x179, 0x17d, 2, 0x17a);
   (0x181, 0x181, 1, 0x253); (0x182, 0x184, 2, 0x183); (0x186, 0x186, 1, 0x254);
   (0x187, 0x187, 1, 0x188); (0x189, 0x18a, 1, 0x256); (0x18b, 0x18b, 1, 0x18c);
   (0x18e, 0x18e, 1, 0x1dd); (0x18f, 0x18f, 1, 0x259); (0x190, 0x190, 1, 0x25b);
   (0x191, 0x191, 1, 0x192); (0x193, 0x193, 1, 0x260); (0x194, 0x194, 1, 0x263);
   (0x196, 0x196, 1, 0x269); (0x197, 0x197, 1, 0x268); (0x198, 0x198, 1, 0x199);
   (0x19c, 0x19c, 1, 0x26f); (0x19d, 0x19d, 1, 0x272); (0x19f, 0x19f, 1, 0x275);
   (0x1a0, 0x1a4, 2, 0x1a1); (0x1a6, 0x1a6, 1, 0x280); (0x1a7, 0x1a7, 1, 0x1a8);
   (0x1a9, 0x1a9, 1, 0x283); (0x1ac, 0x1ac, 1, 0x1ad); (0x1ae, 0x1ae, 1, 0x288);
   (0x1af, 0x1af, 1, 0x1b0); (0x1b1, 0x1b2, 1, 0x28a); (0x1b3, 0x1b5, 2, 0x1b4);
   (0x1b7, 0x1b7, 1, 0x292); (0x1b8, 0x1b8, 1, 0x1b9); (0x1bc, 0x1bc, 1, 0x1bd);
   (0x1c4, 0x1c4, 1, 0x1c6); (0x1c5, 0x1c5, 1, 0x1c6); (0x1c7, 0x1c7, 1, 0x1c9);
   (0x1c8, 0x1c8, 1, 0x1c9); (0x1ca, 0x1ca, 1, 0x1cc); (0x1cb, 0x1db, 2, 0x1cc);
   (0x1de, 0x1ee, 2, 0x1df); (0x1f1, 0x1f1, 1, 0x1f3); (0x1f2, 0x1f4, 2, 0x1f3);
   (0x1f6, 0x1f6, 1, 0x195); (0x1f7, 0x1f7, 1, 0x1bf); (0x1f8, 0x21e, 2, 0x1f9);
   (0x220, 0x220, 1, 0x19e); (0x222, 0x232, 2, 0x223); (0x23a, 0x23a, 1, 0x2c65);
   (0x23b, 0x23b, 1, 0x23c); (0x23d, 0x23d, 1, 0x19a); (0x23e, 0x23e, 1, 0x2c66);
   (0x241, 0x241, 1, 0x242); (0x243, 0x243, 1, 0x180); (0x244, 0x244, 1, 0x289);
   (0x245, 0x245, 1, 0x28c); (0x246, 0x24e, 2, 0x247); (0x370, 0x372, 2, 0x371);
   (0x376, 0x376, 1, 0x377); (0x37f, 0x37f, 1, 0x3f3); (0x386, 0x386, 1, 0x3ac);
   (0x388, 0x38a, 1, 0x3ad); (0x38c, 0x38c, 1, 0x3cc); (0x38e, 0x38f, 1, 0x3cd);
   (0x391, 0x3a1, 1, 0x3b1); (0x3a3, 0x3ab, 1, 0x3c3); (0x3cf, 0x3cf, 1, 0x3d7);
   (0x3d8, 0x3ee, 2, 0x3d9); (0x3f4, 0x3f4, 1, 0x3b8); (0x3f7, 0x3f7, 1, 0x3f8);
   (0x3f9, 0x3f9, 1, 0x3f2); (0x3fa, 0x3fa, 1, 0x3fb); (0x3fd, 0x3ff, 1, 0x37b);
   (0x400, 0x40f, 1, 0x450); (0x410, 0x42f, 1, 0x430); (0x460, 0x480, 2, 0x461);
   (0x48a, 0x4be, 2, 0x48b); (0x4c0, 0x4c0, 1, 0x4cf); (0x4c1, 0x4cd, 2, 0x4c2);
   (0x4d0, 0x52e, 2, 0x4d1); (0x531, 0x556, 1, 0x561); (0x10a0, 0x10c5, 1, 0x2d00);
   (0x10c7, 0x10c7, 1, 0x2d27); (0x10cd, 0x10cd, 1, 0x2d2d); (0x13a0, 0x13ef, 1, 0xab70);
   (0x13f0, 0x13f5, 1, 0x13f8); (0x1c90, 0x1cba, 1, 0x10d0); (0x1cbd, 0x1cbf, 1, 0x10fd);
   (0x1e00, 0x1e94, 2, 0x1e01); (0x1e9e, 0x1e9e, 1, 0xdf); (0x1ea0, 0x1efe, 2, 0x1ea1);
   (0x1f08, 0x1f0f, 1, 0x1f00); (0x1f18, 0x1f1d, 1, 0x1f10); (0x1f28, 0x1f2f, 1, 0x1f20);
   (0x1f38, 0x1f3f, 1, 0x1f30); (0x1f48, 0x1f4d, 1, 0x1f40); (0x1f59, 0x1f5f, 2, 0x1f51);
   (0x1f68, 0x1f6f, 1, 0x1f60); (0x1f88, 0x1f8f, 1, 0x1f80); (0x1f98, 0x1f9f, 1, 0x1f90);
   (0x1fa8, 0x1faf, 1, 0x1fa0); (0x1fb8, 0x1fb9, 1, 0x1fb0); (0x1fba, 0x1fbb, 1, 0x1f70);
   (0x1fbc, 0x1fbc, 1, 0x1fb3); (0x1fc8, 0x1fcb, 1, 0x1f72); (0x1fcc, 0x1fcc, 1, 0x1fc3);
   (0x1fd8, 0x1fd9, 1, 0x1fd0); (0x1fda, 0x1fdb, 1, 0x1f76); (0x1fe8, 0x1fe9, 1, 0x1fe0);
   (0x1fea, 0x1feb, 1, 0x1f7a); (0x1fec, 0x1fec, 1, 0x1fe5); (0x1ff8, 0x1ff9, 1, 0x1f78);
   (0x1ffa, 0x1ffb, 1, 0x1f7c); (0x1ffc, 0x1ffc, 1, 0x1ff3); (0x2126, 0x2126, 1, 0x3c9);
   (0x212a, 0x212a, 1, 0x6b); (0x212b, 0x212b, 1, 0xe5); (0x2132, 0x2132, 1, 0x214e);
   (0x2160, 0x216f, 1, 0x2170); (0x2183, 0x2183, 1, 0x2184); (0x24b6, 0x24cf, 1, 0x24d0);
   (0x2c00, 0x2c2f, 1, 0x2c30); (0x2c60, 0x2c60, 1, 0x2c61); (0x2c62, 0x2c62, 1, 0x26b);
   (0x2c63, 0x2c63, 1, 0x1d7d); (0x2c64, 0x2c64, 1, 0x27d); (0x2c67, 0x2c6b, 2, 0x2c68);
   (0x2c6d, 0x2c6d, 1, 0x251); (0x2c6e, 0x2c6e, 1, 0x271); (0x2c6f, 0x2c6f, 1, 0x250);
   (0x2c70, 0x2c70, 1, 0x252); (0x2c72, 0x2c72, 1, 0x2c73); (0x2c75, 0x2c75, 1, 0x2c76);
   (0x2c7e, 0x2c7f, 1, 0x23f); (0x2c80, 0x2ce2, 2, 0x2c81); (0x2ceb, 0x2ced, 2, 0x2cec);
   (0x2cf2, 0x2cf2, 1, 0x2cf3); (0xa640, 0xa66c, 2, 0xa641); (0xa680, 0xa69a, 2, 0xa681);
   (0xa722, 0xa72e, 2, 0xa723); (0xa732, 0xa76e, 2, 0xa733); (0xa779, 0xa77b, 2, 0xa77a);
   (0xa77d, 0xa77d, 1, 0x1d79); (0xa77e, 0xa786, 2, 0xa77f); (0xa78b, 0xa78b, 1, 0xa78c);
   (0xa78d, 0xa78d, 1, 0x265); (0xa790, 0xa792, 2, 0xa791); (0xa796, 0xa7a8, 2, 0xa797);
   (0xa7aa, 0xa7aa, 1, 0x266); (0xa7ab, 0xa7ab, 1, 0x25c); (0xa7ac, 0xa7ac, 1, 0x261);
   (0xa7ad, 0xa7ad, 1, 0x26c); (0xa7ae, 0xa7ae, 1, 0x26a); (0xa7b0, 0xa7b0, 1, 0x29e);
   (0xa7b1, 0xa7b1, 1, 0x287); (0xa7b2, 0xa7b2, 1, 0x29d); (0xa7b3, 0xa7b3, 1, 0xab53);
   (0xa7b4, 0xa7c2, 2, 0xa7b5); (0xa7c4, 0xa7c4, 1, 0xa794); (0xa7c5, 0xa7c5, 1, 0x282);
   (0xa7c6, 0xa7c6, 1, 0x1d8e); (0xa7c7, 0xa7c9, 2, 0xa7c8); (0xa7d0, 0xa7d0, 1, 0xa7d1);
   (0xa7d6, 0xa7d8, 2, 0xa7d7); (0xa7f5, 0xa7f5, 1, 0xa7f6); (0xff21, 0xff3a, 1, 0xff41);
   (0x10400, 0x10427, 1, 0x10428); (0x104b0, 0x104d3, 1, 0x104d8); (0x10570, 0x1057a, 1, 0x10597);
   (0x1057c, 0x1058a, 1, 0x105a3); (0x1058c, 0x10592, 1, 0x105b3); (0x10594, 0x10595, 1, 0x105bb);
   (0x10c80, 0x10cb2, 1, 0x10cc0); (0x118a0, 0x118bf, 1, 0x118c0); (0x16e40, 0x16e5f, 1, 0x16e60);
   (0x1e900, 0x1e921, 1, 0x1e922) ]%N.

(** The code points with the property Cased, in ranges [(first, last)]. *)
Definition cased_ranges : list (N * N) :=
  [(0x41, 0x5a); (0x61, 0x7a); (0xaa, 0xaa); (0xb5, 0xb5); (0xba, 0xba);
   (0xc0, 0xd6); (0xd8, 0xf6); (0xf8, 0x1ba); (0x1bc, 0x1bf); (0x1c4, 0x293);
   (0x295, 0x2b8); (0x2c0, 0x2c1); (0x2e0, 0x2e4); (0x345, 0x345); (0x370, 0x373);
   (0x376, 0x377); (0x37a, 0x37d); (0x37f, 0x37f); (0x386, 0x386); (0x388, 0x38a);
   (0x38c, 0x38c); (0x38e, 0x3a1); (0x3a3, 0x3f5); (0x3f7, 0x481); (0x48a, 0x52f);
   (0x531, 0x556); (0x560, 0x588); (0x10a0, 0x10c5); (0x10c7, 0x10c7); (0x10cd, 0x10cd);
   (0x10d0, 0x10fa); (0x10fd, 0x10ff); (0x13a0, 0x13f5); (0x13f8, 0x13fd); (0x1c80, 0x1c88);
   (0x1c90, 0x1cba); (0x1cbd, 0x1cbf); (0x1d00, 0x1dbf); (0x1e00, 0x1f15); (0x1f18, 0x1f1d);
   (0x1f20, 0x1f45); (0x1f48, 0x1f4d); (0x1f50, 0x1f57); (0x1f59, 0x1f59); (0x1f5b, 0x1f5b);
   (0x1f5d, 0x1f5d); (0x1f5f, 0x1f7d); (0x1f80, 0x1fb4); (0x1fb6, 0x1fbc); (0x1fbe, 0x1fbe);
   (0x1fc2, 0x1fc4); (0x1fc6, 0x1fcc); (0x1fd0, 0x1fd3); (0x1fd6, 0x1fdb); (0x1fe0, 0x1fec);
   (0x1ff2, 0x1ff4); (0x1ff6, 0x1ffc); (0x2071, 0x2071); (0x207f, 0x207f); (0x2090, 0x209c);
   (0x2102, 0x2102); (0x2107, 0x2107); (0x210a, 0x2113); (0x2115, 0x2115); (0x2119, 0x211d);
   (0x2124, 0x2124); (0x2126, 0x2126); (0x2128, 0x2128); (0x212a, 0x212d); (0x212f, 0x2134);
   (0x2139, 0x2139); (0x213c, 0x213f); (0x2145, 0x2149); (0x214e, 0x214e); (0x2160, 0x217f);
   (0x2183, 0x2184); (0x24b6, 0x24e9); (0x2c00, 0x2ce4); (0x2ceb, 0x2cee); (0x2cf2, 0x2cf3);
   (0x2d00, 0x2d25); (0x2d27, 0x2d27); (0x2d2d, 0x2d2d); (0xa640, 0xa66d); (0xa680, 0xa69d);
   (0xa722, 0xa787); (0xa78b, 0xa78e); (0xa790, 0xa7ca); (0xa7d0, 0xa7d1); (0xa7d3, 0xa7d3);
   (0xa7d5, 0xa7d9); (0xa7f5, 0xa7f6); (0xa7f8, 0xa7fa); (0xab30, 0xab5a); (0xab5c, 0xab68);
   (0xab70, 0xabbf); (0xfb00, 0xfb06); (0xfb13, 0xfb17); (0xff21, 0xff3a); (0xff41, 0xff5a);
   (0x10400, 0x1044f); (0x104b0, 0x104d3); (0x104d8, 0x104fb); (0x10570, 0x1057a); (0x1057c, 0x1058a);
   (0x1058c, 0x10592); (0x10594, 0x10595); (0x10597, 0x105a1); (0x105a3, 0x105b1); (0x105b3, 0x105b9);
   (0x105bb, 0x105bc); (0x10780, 0x10780); (0x10783, 0x10785); (0x10787, 0x107b0); (0x107b2, 0x107ba);
   (0x10c80, 0x10cb2); (0x10cc0, 0x10cf2); (0x118a0, 0x118df); (0x16e40, 0x16e7f); (0x1d400, 0x1d454);
   (0x1d456, 0x1d49c); (0x1d49e, 0x1d49f); (0x1d4a2, 0x1d4a2); (0x1d4a5, 0x1d4a6); (0x1d4a9, 0x1d4ac);
   (0x1d4ae, 0x1d4b9); (0x1d4bb, 0x1d4bb); (0x1d4bd, 0x1d4c3); (0x1d4c5, 0x1d505); (0x1d507, 0x1d50a);
   (0x1d50d, 0x1d514); (0x1d516, 0x1d51c); (0x1d51e, 0x1d539); (0x1d53b, 0x1d53e); (0x1d540, 0x1d544);
   (0x1d546, 0x1d546); (0x1d54a, 0x1d550); (0x1d552, 0x1d6a5); (0x1d6a8, 0x1d6c0); (0x1d6c2, 0x1d6da);
   (0x1d6dc, 0x1d6fa); (0x1d6fc, 0x1d714); (0x1d716, 0x1d734); (0x1d736, 0x1d74e); (0x1d750, 0x1d76e);
   (0x1d770, 0x1d788); (0x1d78a, 0x1d7a8); (0x1d7aa, 0x1d7c2); (0x1d7c4, 0x1d7cb); (0x1df00, 0x1df09);
   (0x1df0b, 0x1df1e); (0x1e900, 0x1e943); (0x1f130, 0x1f149); (0x1f150, 0x1f169); (0x1f170, 0x1f189) ]%N.

(** The code points with the property Case_Ignorable. *)
Definition case_ignorable_ranges : list (N * N) :=
  [(0x27, 0x27); (0x2e, 0x2e); (0x3a, 0x3a); (0x5e, 0x5e); (0x60, 0x60);
   (0xa8, 0xa8); (0xad, 0xad); (0xaf, 0xaf); (0xb4, 0xb4); (0xb7, 0xb8);
   (0x2b0, 0x36f); (0x374, 0x375); (0x37a, 0x37a); (0x384, 0x385); (0x387, 0x387);
   (0x483, 0x489); (0x559, 0x559); (0x55f, 0x55f); (0x591, 0x5bd); (0x5bf, 0x5bf);
   (0x5c1, 0x5c2); (0x5c4, 0x5c5); (0x5c7, 0x5c7); (0x5f4, 0x5f4); (0x600, 0x605);
   (0x610, 0x61a); (0x61c, 0x61c); (0x640, 0x640); (0x64b, 0x65f); (0x670, 0x670);
   (0x6d6, 0x6dd); (0x6df, 0x6e8); (0x6ea, 0x6ed); (0x70f, 0x70f); (0x711, 0x711);
   (0x730, 0x74a); (0x7a6, 0x7b0); (0x7eb, 0x7f5); (0x7fa, 0x7fa); (0x7fd, 0x7fd);
   (0x816, 0x82d); (0x859, 0x85b); (0x888, 0x888); (0x890, 0x891); (0x898, 0x89f);
   (0x8c9, 0x902); (0x93a, 0x93a); (0x93c, 0x93c); (0x941, 0x948); (0x94d, 0x94d);
   (0x951, 0x957); (0x962, 0x963); (0x971, 0x971); (0x981, 0x981); (0x9bc, 0x9bc);
   (0x9c1, 0x9c4); (0x9cd, 0x9cd); (0x9e2, 0x9e3); (0x9fe, 0x9fe); (0xa01, 0xa02);
   (0xa3c, 0xa3c); (0xa41, 0xa42); (0xa47, 0xa48); (0xa4b, 0xa4d); (0xa51, 0xa51);
   (0xa70, 0xa71); (0xa75, 0xa75); (0xa81, 0xa82); (0xabc, 0xabc); (0xac1, 0xac5);
   (0xac7, 0xac8); (0xacd, 0xacd); (0xae2, 0xae3); (0xafa, 0xaff); (0xb01, 0xb01);
   (0xb3c, 0xb3c); (0xb3f, 0xb3f); (0xb41, 0xb44); (0xb4d, 0xb4d); (0xb55, 0xb56);
   (0xb62, 0xb63); (0xb82, 0xb82); (0xbc0, 0xbc0); (0xbcd, 0xbcd); (0xc00, 0xc00);
   (0xc04, 0xc04); (0xc3c, 0xc3c); (0xc3e, 0xc40); (0xc46, 0xc48); (0xc4a, 0xc4d);
   (0xc55, 0xc56); (0xc62, 0xc63); (0xc81, 0xc81); (0xcbc, 0xcbc); (0xcbf, 0xcbf);
   (0xcc6, 0xcc6); (0xccc, 0xccd); (0xce2, 0xce3); (0xd00, 0xd01); (0xd3b, 0xd3c);
   (0xd41, 0xd44); (0xd4d, 0xd4d); (0xd62, 0xd63); (0xd81, 0xd81); (0xdca, 0xdca);
   (0xdd2, 0xdd4); (0xdd6, 0xdd6); (0xe31, 0xe31); (0xe34, 0xe3a); (0xe46, 0xe4e);
   (0xeb1, 0xeb1); (0xeb4, 0xebc); (0xec6, 0xec6); (0xec8, 0xecd); (0xf18, 0xf19);
   (0xf35, 0xf35); (0xf37, 0xf37); (0xf39, 0xf39); (0xf71, 0xf7e); (0xf80, 0xf84);
   (0xf86, 0xf87); (0xf8d, 0xf97); (0xf99, 0xfbc); (0xfc6, 0xfc6); (0x102d, 0x1030);
   (0x1032, 0x1037); (0x1039, 0x103a); (0x103d, 0x103e); (0x1058, 0x1059); (0x105e, 0x1060);
   (0x1071, 0x1074); (0x1082, 0x1082); (0x1085, 0x1086); (0x108d, 0x108d); (0x109d, 0x109d);
   (0x10fc, 0x10fc); (0x135d, 0x135f); (0x1712, 0x1714); (0x1732, 0x1733); (0x1752, 0x1753);
   (0x1772, 0x1773); (0x17b4, 0x17b5); (0x17b7, 0x17bd); (0x17c6, 0x17c6); (0x17c9, 0x17d3);
   (0x17d7, 0x17d7); (0x17dd, 0x17dd); (0x180b, 0x180f); (0x1843, 0x1843); (0x1885, 0x1886);
   (0x18a9, 0x18a9); (0x1920, 0x1922); (0x1927, 0x1928); (0x1932, 0x1932); (0x1939, 0x193b);
   (0x1a17, 0x1a18); (0x1a1b, 0x1a1b); (0x1a56, 0x1a56); (0x1a58, 0x1a5e); (0x1a60, 0x1a60);
   (0x1a62, 0x1a62); (0x1a65, 0x1a6c); (0x1a73, 0x1a7c); (0x1a7f, 0x1a7f); (0x1aa7, 0x1aa7);
   (0x1ab0, 0x1ace); (0x1b00, 0x1b03); (0x1b34, 0x1b34); (0x1b36, 0x1b3a); (0x1b3c, 0x1b3c);
   (0x1b42, 0x1b42); (0x1b6b, 0x1b73); (0x1b80, 0x1b81); (0x1ba2, 0x1ba5); (0x1ba8, 0x1ba9);
   (0x1bab, 0x1bad); (0x1be6, 0x1be6); (0x1be8, 0x1be9); (0x1bed, 0x1bed); (0x1bef, 0x1bf1);
   (0x1c2c, 0x1c33); (0x1c36, 0x1c37); (0x1c78, 0x1c7d); (0x1cd0, 0x1cd2); (0x1cd4, 0x1ce0);
   (0x1ce2, 0x1ce8); (0x1ced, 0x1ced); (0x1cf4, 0x1cf4); (0x1cf8, 0x1cf9); (0x1d2c, 0x1d6a);
   (0x1d78, 0x1d78); (0x1d9b, 0x1dff); (0x1fbd, 0x1fbd); (0x1fbf, 0x1fc1); (0x1fcd, 0x1fcf);
   (0x1fdd, 0x1fdf); (0x1fed, 0x1fef); (0x1ffd, 0x1ffe); (0x200b, 0x200f); (0x2018, 0x2019);
   (0x2024, 0x2024); (0x2027, 0x2027); (0x202a, 0x202e); (0x2060, 0x2064); (0x2066, 0x206f);
   (0x2071, 0x2071); (0x207f, 0x207f); (0x2090, 0x209c); (0x20d0, 0x20f0); (0x2c7c, 0x2c7d);
   (0x2cef, 0x2cf1); (0x2d6f, 0x2d6f); (0x2d7f, 0x2d7f); (0x2de0, 0x2dff); (0x2e2f, 0x2e2f);
   (0x3005, 0x3005); (0x302a, 0x302d); (0x3031, 0x3035); (0x303b, 0x303b); (0x3099, 0x309e);
   (0x30fc, 0x30fe); (0xa015, 0xa015); (0xa4f8, 0xa4fd); (0xa60c, 0xa60c); (0xa66f, 0xa672);
   (0xa674, 0xa67d); (0xa67f, 0xa67f); (0xa69c, 0xa69f); (0xa6f0, 0xa6f1); (0xa700, 0xa721);
   (0xa770, 0xa770); (0xa788, 0xa78a); (0xa7f2, 0xa7f4); (0xa7f8, 0xa7f9); (0xa802, 0xa802);
   (0xa806, 0xa806); (0xa80b, 0xa80b); (0xa825, 0xa826); (0xa82c, 0xa82c); (0xa8c4, 0xa8c5);
   (0xa8e0, 0xa8f1); (0xa8ff, 0xa8ff); (0xa926, 0xa92d); (0xa947, 0xa951); (0xa980, 0xa982);
   (0xa9b3, 0xa9b3); (0xa9b6, 0xa9b9); (0xa9bc, 0xa9bd); (0xa9cf, 0xa9cf); (0xa9e5, 0xa9e6);
   (0xaa29, 0xaa2e); (0xaa31, 0xaa32); (0xaa35, 0xaa36); (0xaa43, 0xaa43); (0xaa4c, 0xaa4c);
   (0xaa70, 0xaa70); (0xaa7c, 0xaa7c); (0xaab0, 0xaab0); (0xaab2, 0xaab4); (0xaab7, 0xaab8);
   (0xaabe, 0xaabf); (0xaac1, 0xaac1); (0xaadd, 0xaadd); (0xaaec, 0xaaed); (0xaaf3, 0xaaf4);
   (0xaaf6, 0xaaf6); (0xab5b, 0xab5f); (0xab69, 0xab6b); (0xabe5, 0xabe5); (0xabe8, 0xabe8);
   (0xabed, 0xabed); (0xfb1e, 0xfb1e); (0xfbb2, 0xfbc2); (0xfe00, 0xfe0f); (0xfe13, 0xfe13);
   (0xfe20, 0xfe2f); (0xfe52, 0xfe52); (0xfe55, 0xfe55); (0xfeff, 0xfeff); (0xff07, 0xff07);
   (0xff0e, 0xff0e); (0xff1a, 0xff1a); (0xff3e, 0xff3e); (0xff40, 0xff40); (0xff70, 0xff70);
   (0xff9e, 0xff9f); (0xffe3, 0xffe3); (0xfff9, 0xfffb); (0x101fd, 0x101fd); (0x102e0, 0x102e0);
   (0x10376, 0x1037a); (0x10780, 0x10785); (0x10787, 0x107b0); (0x107b2, 0x107ba); (0x10a01, 0x10a03);
   (0x10a05, 0x10a06); (0x10a0c, 0x10a0f); (0x10a38, 0x10a3a); (0x10a3f, 0x10a3f); (0x10ae5, 0x10ae6);
   (0x10d24, 0x10d27); (0x10eab, 0x10eac); (0x10f46, 0x10f50); (0x10f82, 0x10f85); (0x11001, 0x11001);
   (0x11038, 0x11046); (0x11070, 0x11070); (0x11073, 0x11074); (0x1107f, 0x11081); (0x110b3, 0x110b6);
   (0x110b9, 0x110ba); (0x110bd, 0x110bd); (0x110c2, 0x110c2); (0x110cd, 0x110cd); (0x11100, 0x11102);
   (0x11127, 0x1112b); (0x1112d, 0x11134); (0x11173, 0x11173); (0x11180, 0x11181); (0x111b6, 0x111be);
   (0x111c9, 0x111cc); (0x111cf, 0x111cf); (0x1122f, 0x11231); (0x11234, 0x11234); (0x11236, 0x11237);
   (0x1123e, 0x1123e); (0x112df, 0x112df); (0x112e3, 0x112ea); (0x11300, 0x11301); (0x1133b, 0x1133c);
   (0x11340, 0x11340); (0x11366, 0x1136c); (0x11370, 0x11374); (0x11438, 0x1143f); (0x11442, 0x11444);
   (0x11446, 0x11446); (0x1145e, 0x1145e); (0x114b3, 0x114b8); (0x114ba, 0x114ba); (0x114bf, 0x114c0);
   (0x114c2, 0x114c3); (0x115b2, 0x115b5); (0x115bc, 0x115bd); (0x115bf, 0x115c0); (0x115dc, 0x115dd);
   (0x11633, 0x1163a); (0x1163d, 0x1163d); (0x1163f, 0x11640); (0x116ab, 0x116ab); (0x116ad, 0x116ad);
   (0x116b0, 0x116b5); (0x116b7, 0x116b7); (0x1171d, 0x1171f); (0x11722, 0x11725); (0x11727, 0x1172b);
   (0x1182f, 0x11837); (0x11839, 0x1183a); (0x1193b, 0x1193c); (0x1193e, 0x1193e); (0x11943, 0x11943);
   (0x119d4, 0x119d7); (0x119da, 0x119db); (0x119e0, 0x119e0); (0x11a01, 0x11a0a); (0x11a33, 0x11a38);
   (0x11a3b, 0x11a3e); (0x11a47, 0x11a47); (0x11a51, 0x11a56); (0x11a59, 0x11a5b); (0x11a8a, 0x11a96);
   (0x11a98, 0x11a99); (0x11c30, 0x11c36); (0x11c38, 0x11c3d); (0x11c3f, 0x11c3f); (0x11c92, 0x11ca7);
   (0x11caa, 0x11cb0); (0x11cb2, 0x11cb3); (0x11cb5, 0x11cb6); (0x11d31, 0x11d36); (0x11d3a, 0x11d3a);
   (0x11d3c, 0x11d3d); (0x11d3f, 0x11d45); (0x11d47, 0x11d47); (0x11d90, 0x11d91); (0x11d95, 0x11d95);
   (0x11d97, 0x11d97); (0x11ef3, 0x11ef4); (0x13430, 0x13438); (0x16af0, 0x16af4); (0x16b30, 0x16b36);
   (0x16b40, 0x16b43); (0x16f4f, 0x16f4f); (0x16f8f, 0x16f9f); (0x16fe0, 0x16fe1); (0x16fe3, 0x16fe4);
   (0x1aff0, 0x1aff3); (0x1aff5, 0x1affb); (0x1affd, 0x1affe); (0x1bc9d, 0x1bc9e); (0x1bca0, 0x1bca3);
   (0x1cf00, 0x1cf2d); (0x1cf30, 0x1cf46); (0x1d167, 0x1d169); (0x1d173, 0x1d182); (0x1d185, 0x1d18b);
   (0x1d1aa, 0x1d1ad); (0x1d242, 0x1d244); (0x1da00, 0x1da36); (0x1da3b, 0x1da6c); (0x1da75, 0x1da75);
   (0x1da84, 0x1da84); (0x1da9b, 0x1da9f); (0x1daa1, 0x1daaf); (0x1e000, 0x1e006); (0x1e008, 0x1e018);
   (0x1e01b, 0x1e021); (0x1e023, 0x1e024); (0x1e026, 0x1e02a); (0x1e130, 0x1e13d); (0x1e2ae, 0x1e2ae);
   (0x1e2ec, 0x1e2ef); (0x1e8d0, 0x1e8d6); (0x1e944, 0x1e94b); (0x1f3fb, 0x1f3ff); (0xe0001, 0xe0001);
   (0xe0020, 0xe007f); (0xe0100, 0xe01ef) ]%N.

Definition within (ranges : list (N * N)) (cp : N) : bool :=
  existsb (fun r => (fst r <=? cp) && (cp <=? snd r))%N ranges.

Fixpoint to_lower (ranges : list (N * N * N * N)) (cp : N) : N :=
  match ranges with
  | [] => cp
  | (first, last, step, image) :: rest =>
      if ((first <=? cp) && (cp <=? last) && ((cp - first) mod step =? 0))%N
      then (image + (cp - first))%N
      else to_lower rest cp
  end.

(** [_PyUnicode_ToLowerFull]: one code point has a mapping of two. *)
Definition to_lower_full (cp : N) : list N :=
  if (cp =? 0x130)%N then [0x69; 0x307]%N else [to_lower lower_ranges cp].

Definition is_cased (u : uchar) : bool :=
  match u with Scalar cp => within cased_ranges cp | Stray _ => false end.

Definition is_case_ignorable (u : uchar) : bool :=
  match u with Scalar cp => within case_ignorable_ranges cp | Stray _ => false end.

(** The first character of [l] that is not case-ignorable is there and is
    cased. *)
Fixpoint cased_next (l : list uchar) : bool :=
  match l with
  | [] => false
  | u :: t => if is_case_ignorable u then cased_next t else is_cased u
  end.

(** [handle_capital_sigma]: the small final sigma after a cased letter and
    before none, the small sigma otherwise; [before] is the text before the
    sigma, last character first. *)
Definition handle_capital_sigma (before after : list uchar) : N :=
  if cased_next before && negb (cased_next after) then 0x3c2%N else 0x3c3%N.

Fixpoint do_lower (before l : list uchar) : list uchar :=
  match l with
  | [] => []
  | u :: after =>
      (match u with
       | Scalar cp =>
           if (cp =? 0x3a3)%N then [Scalar (handle_capital_sigma before after)]
           else map Scalar (to_lower_full cp)
       | Stray b => [Stray b]
       end ++ do_lower (u :: before) after)%list
  end.

(** [str.lower]. *)
Definition str_lower (s : string) : string :=
  if is_ascii s then lower s else utf8_encode (do_lower [] (utf8_decode s)).

(** [s.replace(old, new)] for one-character [old] and [new]. *)
Fixpoint replace (old new : ascii) (s : string) : string :=
  match s with
  | EmptyString => EmptyString
  | String c t => String (if Ascii.eqb c old then new else c) (replace old new t)
  end.

(** [needle in hay] on strings. *)
Fixpoint str_in (needle hay : string) : bool :=
  prefix needle hay ||
  match hay with
  | EmptyString => false
  | String _ t => str_in needle t
  end.

(** [x in s] for a set (or the keys of a dict) of strings. *)
Definition mem (x : string) (s : list string) : bool :=
  existsb (String.eqb x) s.

(** [delimiter.join(items)]. *)
Fixpoint join (delimiter : string) (items : list string) : string :=
  match items with
  | [] => ""
  | [x] => x
  | x :: rest => x ++ delimiter ++ join delimiter rest
  end.

(** [str(n)] for an [int]. *)
Definition str_of_int (n : Z) : string := NilZero.string_of_int (Z.to_int n).

(** [repr(s)] of a string of printable ASCII characters: single quotes,
    unless the string holds a single quote and no double quote; the quote in
    use and the backslash are escaped. *)
Definition squote : ascii := ascii_of_N 39.
Definition dquote : ascii := ascii_of_N 34.
Definition backslash : ascii := ascii_of_N 92.

Definition has_char (c : ascii) (s : string) : bool :=
  existsb (Ascii.eqb c) (list_ascii_of_string s).

Fixpoint escape (q : ascii) (s : string) : string :=
  match s with
  | EmptyString => EmptyString
  | String c t =>
      if Ascii.eqb c q || Ascii.eqb c backslash
      then String backslash (String c (escape q t))
      else String c (escape q t)
  end.

Definition repr_str (s : string) : string :=
  let q := if has_char squote s && negb (has_char dquote s)
           then dquote else squote in
  String q (escape q s ++ String q EmptyString).

(** [repr] of a list and of a non-empty set of strings, elements in the
    order given. *)
Definition repr_list (l : list string) : string :=
  "[" ++ join ", " (map repr_str l) ++ "]".

Definition repr_set (l : list string) : string :=
  match l with
  | [] => "set()"
  | _ => "{" ++ join ", " (map repr_str l) ++ "}"
  end.

(** [sorted(xs)] on strings: insertion into an ascending list. *)
Fixpoint insert_sorted (x : string) (l : list string) : list string :=
  match l with
  | [] => [x]
  | y :: t => if (x <=? y)%string then x :: y :: t else y :: insert_sorted x t
  end.

Definition sorted (l : list string) : list string :=
  fold_right insert_sorted [] l.

(** [a | b] on sets, and [d[key]] on a dict kept as an association list in
    insertion order. *)
Definition set_union (a b : list string) : list string :=
  a ++ filter (fun x => negb (mem x a)) b.

Fixpoint dict_get {V : Type} (d : list (string * V)) (key : string) : option V :=
  match d with
  | [] => None
  | (k, v) :: rest => if (key =? k)%string then Some v else dict_get rest key
  end.

Definition dict_index {V : Type} (d : list (string * V)) (key : string) : result V :=
  match dict_get d key with
  | Some v => Ok v
  | None => Raise (KeyError key)
  end.

(** ** What a component reads besides its arguments *)

Record datetime : Type := {
  year : Z; month : Z; day : Z; hour : Z; minute : Z; second : Z
}.

Definition pad2 (n : Z) : string :=
  if n <? 10 then "0" ++ str_of_int n else str_of_int n.

(** [strftime('%Y-%m-%d-%H-%M-%S')]. *)
Definition strftime (t : datetime) : string :=
  str_of_int (year t) ++ "-" ++ pad2 (month t) ++ "-" ++ pad2 (day t) ++ "-" ++
  pad2 (hour t) ++ "-" ++ pad2 (minute t) ++ "-" ++ pad2 (second t).

Record World : Type := {
  (** [datetime.datetime.now()] *)
  now : datetime;
  (** [os.environ] *)
  environ : list (string * string);
  (** the order in which a set of strings with the given elements is
      iterated; it follows the string hashes, which change from one
      interpreter process to the next *)
  set_iter : list string -> list string
}.

(** A set is iterated once over each of its elements. *)
Definition set_iter_ok (w : World) : Prop :=
  forall l, Permutation (set_iter w l) l.

(** ** resolve_machine_spec *)

(** The named tuple [MachineSpec]; [get_default_bulk_inference_machine_specs]
    declares the same three fields in another order. *)
Record MachineSpec : Type := {
  machine_type : string;
  accelerator_type : string;
  accelerator_count : Z
}.

Definition tpu_regions : list string := ["europe-west4"].
Definition gpu_regions : list string := ["us-central1"].

Definition resolve_machine_spec (w : World) (location : string)
    (use_test_spec : bool) : result MachineSpec :=
  if use_test_spec then
    Ok {| machine_type := "a2-highgpu-1g";
          accelerator_type := "NVIDIA_TESLA_A100";
          accelerator_count := 1 |}
  else if mem location tpu_regions then
    Ok {| machine_type := "cloud-tpu";
          accelerator_type := "TPU_V3";
          accelerator_count := 64 |}
  else if mem location gpu_regions then
    Ok {| machine_type := "a2-ultragpu-8g";
          accelerator_type := "NVIDIA_A100_80GB";
          accelerator_count := 8 |}
  else
    Raise (ValueError
      ("Unsupported accelerator location " ++ location ++ ". Must be one of"
       ++ " " ++ repr_set (set_iter w (set_union tpu_regions gpu_regions)) ++ ".")).

(** ** resolve_image_uri *)

Definition cpu_only_images : list string :=
  ["text_importer"; "text_comparison_importer"].

Definition backup_images : list string :=
  ["sft"; "reward_model"; "reinforcer"; "infer";
   "text_importer"; "text_comparison_importer"].

Definition accelerator_postfix (image_name accelerator_type : string)
    (accelerator_count : Z) : string :=
  if mem image_name cpu_only_images then ""
  else if (accelerator_type =? "TPU_V3")%string then "_tpu"
  else if (accelerator_type =? "NVIDIA_A100_80GB")%string && (accelerator_count =? 8)
  then "_gpu_test"
  else "_gpu".

Definition resolve_image_uri (image_name project location artifact_registry
    image_name_prefix tag accelerator_type : string) (accelerator_count : Z)
    : string :=
  let accelerator_postfix :=
    accelerator_postfix image_name accelerator_type accelerator_count in
  let accelerator_postfix :=
    if mem image_name backup_images
       && negb (accelerator_postfix =? "_gpu_test")%string
    then accelerator_postfix ++ "_backup"
    else accelerator_postfix in
  location ++ "-docker.pkg.dev/" ++ project ++ "/" ++ artifact_registry ++ "/"
  ++ image_name_prefix ++ image_name ++ accelerator_postfix ++ ":" ++ tag.

(** The values that [functools.partial] binds when the module is loaded come
    from the module [env], which is not among these files: they are a
    parameter of the component. *)
Record PrivateRegistry : Type := {
  PRIVATE_ARTIFACT_REGISTRY_PROJECT : string;
  PRIVATE_ARTIFACT_REGISTRY_LOCATION : string;
  PRIVATE_ARTIFACT_REGISTRY : string;
  PRIVATE_IMAGE_NAME_PREFIX : string;
  private_image_tag : string
}.

Definition resolve_private_image_uri (env : PrivateRegistry)
    (image_name accelerator_type : string) (accelerator_count : Z) : string :=
  resolve_image_uri image_name
    (PRIVATE_ARTIFACT_REGISTRY_PROJECT env)
    (PRIVATE_ARTIFACT_REGISTRY_LOCATION env)
    (PRIVATE_ARTIFACT_REGISTRY env)
    (PRIVATE_IMAGE_NAME_PREFIX env)
    (private_image_tag env)
    accelerator_type accelerator_count.

(** ** resolve_data_paths *)

Definition slash : ascii := ascii_of_N 47.

(** [p[:i], p[i:]] for [i = p.rfind('/') + 1]. *)
Fixpoint split_after_last_slash (p : string) : string * string :=
  match p with
  | EmptyString => (EmptyString, EmptyString)
  | String c t =>
      let (head, tail) := split_after_last_slash t in
      if truthy_str head then (String c head, tail)
      else if Ascii.eqb c slash then (String c EmptyString, t)
      else (EmptyString, String c t)
  end.

Fixpoint all_slashes (s : string) : bool :=
  match s with
  | EmptyString => true
  | String c t => Ascii.eqb c slash && all_slashes t
  end.

(** [s.rstrip('/')]. *)
Fixpoint rstrip_slash (s : string) : string :=
  match s with
  | EmptyString => EmptyString
  | String c t => if all_slashes s then EmptyString else String c (rstrip_slash t)
  end.

(** [os.path.split] of [posixpath]. *)
Definition os_path_split (p : string) : string * string :=
  let (head, tail) := split_after_last_slash p in
  if truthy_str head && negb (all_slashes head)
  then (rstrip_slash head, tail)
  else (head, tail).

Record DataPaths : Type := { tfds_data_dir : string; tfds_name : string }.

Definition resolve_data_paths (input_dataset : string) : DataPaths :=
  let (tfds_data_dir, tfds_name) := os_path_split input_dataset in
  {| tfds_data_dir := tfds_data_dir; tfds_name := tfds_name |}.

(** ** resolve_reference_model_metadata *)

Record reference_model_metadata : Type := {
  large_model_reference : string;
  reference_model_path : string;
  reward_model_reference : string;
  reward_model_path : string;
  is_supported : bool
}.

(** The named tuple [Outputs] of the component. *)
Record Outputs : Type := {
  out_large_model_reference : string;
  out_reference_model_path : string;
  out_reward_model_reference : string;
  out_reward_model_path : string
}.

Definition reference_models : list (string * reference_model_metadata) :=
  [ ("t5-small",
     {| large_model_reference := "T5_SMALL";
        reference_model_path :=
          "gs://t5-data/pretrained_models/t5x/flan_t5_small/";
        reward_model_reference := "T5_SMALL";
        reward_model_path :=
          "gs://t5-data/pretrained_models/t5x/t5_1_1_small";
        is_supported := true |});
    ("t5-large",
     {| large_model_reference := "T5_LARGE";
        reference_model_path :=
          "gs://t5-data/pretrained_models/t5x/flan_t5_large/";
        reward_model_reference := "T5_LARGE";
        reward_model_path :=
          "gs://t5-data/pretrained_models/t5x/t5_1_1_large";
        is_supported := true |});
    ("t5-xl",
     {| large_model_reference := "T5_XL";
        reference_model_path :=
          "gs://t5-data/pretrained_models/t5x/flan_t5_xl/";
        reward_model_reference := "T5_XL";
        reward_model_path :=
          "gs://t5-data/pretrained_models/t5x/t5_1_1_xl";
        is_supported := true |});
    ("t5-xxl",
     {| large_model_reference := "T5_XXL";
        reference_model_path :=
          "gs://t5-data/pretrained_models/t5x/flan_t5_xxl/";
        reward_model_reference := "T5_XL";
        reward_model_path :=
          "gs://t5-data/pretrained_models/t5x/t5_1_1_xl";
        is_supported := true |});
    ("palm-tiny",
     {| large_model_reference := "PALM_TINY";
        reference_model_path :=
          "gs://vertex-rlhf-restricted/pretrained_models/palm/t5x_palm_tiny/";
        reward_model_reference := "PALM_TINY";
        reward_model_path :=
          "gs://vertex-rlhf-restricted/pretrained_models/palm/t5x_palm_tiny/";
        is_supported := false |});
    ("gecko",
     {| large_model_reference := "GECKO";
        reference_model_path :=
          "gs://vertex-rlhf-restricted/pretrained_models/palm/t5x_gecko/";
        reward_model_reference := "GECKO";
        reward_model_path :=
          "gs://vertex-rlhf-restricted/pretrained_models/palm/t5x_gecko_pretrain/";
        is_supported := false |});
    ("otter",
     {| large_model_reference := "OTTER";
        reference_model_path :=
          "gs://vertex-rlhf-restricted/pretrained_models/palm/t5x_otter/";
        reward_model_reference := "OTTER";
        reward_model_path :=
          "gs://vertex-rlhf-restricted/pretrained_models/palm/t5x_otter_pretrain/";
        is_supported := false |});
    ("bison",
     {| large_model_reference := "BISON";
        reference_model_path :=
          "gs://vertex-rlhf-restricted/pretrained_models/palm/t5x_bison/";
        reward_model_reference := "OTTER";
        reward_model_path :=
          "gs://vertex-rlhf-restricted/pretrained_models/palm/t5x_otter_pretrain/";
        is_supported := false |});
    ("text-bison@001",
     {| large_model_reference := "BISON";
        reference_model_path :=
          "gs://vertex-rlhf-restricted/pretrained_models/palm/t5x_bison/";
        reward_model_reference := "OTTER";
        reward_model_path :=
          "gs://vertex-rlhf-restricted/pretrained_models/palm/t5x_otter_pretrain/";
        is_supported := true |});
    ("chat-bison@001",
     {| large_model_reference := "BISON";
        reference_model_path :=
          "gs://vertex-rlhf-restricted/pretrained_models/palm/t5x_bison/";
        reward_model_reference := "OTTER";
        reward_model_path :=
          "gs://vertex-rlhf-restricted/pretrained_models/palm/t5x_otter_pretrain/";
        is_supported := true |});
    ("elephant",
     {| large_model_reference := "ELEPHANT";
        reference_model_path :=
          "gs://vertex-rlhf-restricted/pretrained_models/palm/t5x_elephant/";
        reward_model_reference := "OTTER";
        reward_model_path :=
          "gs://vertex-rlhf-restricted/pretrained_models/palm/t5x_otter_pretrain/";
        is_supported := false |});
    ("llama-2-7b",
     {| large_model_reference := "LLAMA_2_7B";
        reference_model_path :=
          "gs://vertex-rlhf-restricted/pretrained_models/llama/t5x_llama_2_7b/";
        reward_model_reference := "LLAMA_2_7B";
        reward_model_path :=
          "gs://vertex-rlhf-restricted/pretrained_models/llama/t5x_llama_2_7b/";
        is_supported := true |});
    ("llama-2-13b",
     {| large_model_reference := "LLAMA_2_13B";
        reference_model_path :=
          "gs://vertex-rlhf-restricted/pretrained_models/llama/t5x_llama_2_13b/";
        reward_model_reference := "LLAMA_2_13B";
        reward_model_path :=
          "gs://vertex-rlhf-restricted/pretrained_models/llama/t5x_llama_2_13b/";
        is_supported := true |});
    ("llama-2-7b-chat",
     {| large_model_reference := "LLAMA_2_7B_CHAT";
        reference_model_path :=
          "gs://vertex-rlhf-restricted/pretrained_models/llama/t5x_llama_2_7b_chat/";
        reward_model_reference := "LLAMA_2_7B";
        reward_model_path :=
          "gs://vertex-rlhf-restricted/pretrained_models/llama/t5x_llama_2_7b/";
        is_supported := true |});
    ("llama-2-13b-chat",
     {| large_model_reference := "LLAMA_2_13B_CHAT";
        reference_model_path :=
          "gs://vertex-rlhf-restricted/pretrained_models/llama/t5x_llama_2_13b_chat/";
        reward_model_reference := "LLAMA_2_13B";
        reward_model_path :=
          "gs://vertex-rlhf-restricted/pretrained_models/llama/t5x_llama_2_13b/";
        is_supported := true |}) ].

Definition underscore : ascii := ascii_of_N 95.
Definition hyphen : ascii := ascii_of_N 45.

(** [large_model_reference.lower().replace('_', '-')]. *)
Definition reference_model_key (large_model_reference : string) : string :=
  replace underscore hyphen (str_lower large_model_reference).

(** [[k for k, v in reference_models.items() if v.is_supported]]. *)
Definition supported_models : list string :=
  map fst (filter (fun kv => is_supported (snd kv)) reference_models).

Definition resolve_reference_model_metadata (large_model_reference0 : string)
    (reference_model_path0 : option string) : result Outputs :=
  let reference_model_key := reference_model_key large_model_reference0 in
  match dict_get reference_models reference_model_key with
  | None =>
      Raise (ValueError
        ("Unknown reference model " ++ large_model_reference0 ++ "."
         ++ " large_model_reference must be one of"
         ++ " " ++ repr_list (sorted supported_models) ++ "."))
  | Some reference_model =>
      Ok {| out_large_model_reference := large_model_reference reference_model;
            out_reference_model_path :=
              or_str reference_model_path0 (reference_model_path reference_model);
            out_reward_model_reference := reward_model_reference reference_model;
            out_reward_model_path := reward_model_path reference_model |}
  end.

(** ** The scalar components *)

Definition convert_to_delimited_string (items : list string) (delimiter : string)
    : string :=
  join delimiter items.

Definition generate_default_instruction (task : string)
    (target_sequence_length : Z) (instruction_override : string) : result string :=
  if truthy_str instruction_override then Ok instruction_override
  else
    let task := str_lower task in
    if (task =? "summarization")%string then
      Ok ("Summarize in less than " ++ str_of_int target_sequence_length ++ " words.")
    else if (task =? "question_answer")%string then
      Ok ("Answer the question in less than "
          ++ str_of_int target_sequence_length ++ " words.")
    else
      Raise (ValueError
        ("Task not recognized: " ++ task ++ ". Supported tasks are: "
         ++ String dquote "summarization" ++ String dquote ","
         ++ " " ++ String dquote "question_answer" ++ String dquote "."))%string.

(** [upload_location or os.environ['CLOUD_ML_REGION']]. *)
Definition resolve_upload_location (w : World) (upload_location : option string)
    : result string :=
  match upload_location with
  | Some s => if truthy_str s then Ok s else dict_index (environ w) "CLOUD_ML_REGION"
  | None => dict_index (environ w) "CLOUD_ML_REGION"
  end.

Definition resolve_regional_endpoint (upload_location : string) : string :=
  "https://" ++ upload_location ++ "-aiplatform.googleapis.com/ui".

Definition resolve_model_display_name (w : World) (large_model_reference : string)
    (model_display_name : option string) : string :=
  let now := strftime (now w) in
  or_str model_display_name (str_lower large_model_reference ++ "-" ++ now).

Definition resolve_deploy_model (deploy_model : bool)
    (large_model_reference : string) : bool :=
  let supported_models := ["BISON"] in
  if deploy_model && mem large_model_reference supported_models then true
  else false.

Definition value_exists (value : option string) : bool :=
  if negb (truthy_opt truthy_str value) then false else true.

Definition resolve_candidate_columns (candidate_columns : option (list string))
    : list string :=
  match candidate_columns with
  | Some l => if truthy_list l then l else ["candidate_0"; "candidate_1"]
  | None => ["candidate_0"; "candidate_1"]
  end.

Definition resolve_upload_model (large_model_reference : string) : bool :=
  let supported_models := ["BISON"] in
  if mem large_model_reference supported_models then true else false.

Definition resolve_instruction (large_model_reference : string)
    (instruction : option string) : string :=
  let instruction := or_str instruction "" in
  if negb (str_in "chat" (lower large_model_reference)) then instruction else "".

Definition identity (value : string) : string := value.

(** ** get_default_bulk_inference_machine_specs *)

(** Machine types. *)
Definition cloud_tpu : string := "cloud-tpu".
Definition ultra_gpu_1g : string := "a2-ultragpu-1g".
Definition ultra_gpu_2g : string := "a2-ultragpu-2g".
Definition ultra_gpu_4g : string := "a2-ultragpu-4g".
Definition ultra_gpu_8g : string := "a2-ultragpu-8g".
Definition high_gpu_1g : string := "a2-highgpu-1g".
Definition high_gpu_2g : string := "a2-highgpu-2g".
Definition high_gpu_4g : string := "a2-highgpu-4g".
Definition high_gpu_8g : string := "a2-highgpu-8g".
Definition mega_gpu_16g : string := "a2-megagpu-16g".

(** Accelerator types. *)
Definition tpu_v2 : string := "TPU_V2".
Definition tpu_v3 : string := "TPU_V3".
Definition nvidia_a100_40g : string := "NVIDIA_TESLA_A100".
Definition nvidia_a100_80g : string := "NVIDIA_A100_80GB".
Definition tpu_accelerator_types : list string := [tpu_v2; tpu_v3].
Definition gpu_accelerator_types : list string := [nvidia_a100_40g; nvidia_a100_80g].
Definition valid_accelerator_types : list string :=
  set_union gpu_accelerator_types tpu_accelerator_types.

(** Base models. *)
Definition palm_tiny : string := "PALM_TINY".
Definition gecko : string := "GECKO".
Definition otter : string := "OTTER".
Definition bison : string := "BISON".
Definition elephant : string := "ELEPHANT".
Definition t5_small : string := "T5_SMALL".
Definition t5_large : string := "T5_LARGE".
Definition t5_xl : string := "T5_XL".
Definition t5_xxl : string := "T5_XXL".

Definition _get_machine_type (w : World) (accelerator_type : string)
    (accelerator_count : Z) : result string :=
  if accelerator_count <? 1 then
    Raise (ValueError "accelerator_count must be at least 1.")
  else if mem accelerator_type tpu_accelerator_types then Ok cloud_tpu
  else if (accelerator_type =? nvidia_a100_40g)%string then
    if accelerator_count =? 1 then Ok high_gpu_1g
    else if accelerator_count =? 2 then Ok high_gpu_2g
    else if accelerator_count <=? 4 then Ok high_gpu_4g
    else if accelerator_count <=? 8 then Ok high_gpu_8g
    else if accelerator_count <=? 16 then Ok mega_gpu_16g
    else
      Raise (ValueError
        ("Too many " ++ accelerator_type ++ " requested. Must be <= 16."))
  else if (accelerator_type =? nvidia_a100_80g)%string then
    if accelerator_count =? 1 then Ok ultra_gpu_1g
    else if accelerator_count =? 2 then Ok ultra_gpu_2g
    else if accelerator_count <=? 4 then Ok ultra_gpu_4g
    else if accelerator_count <=? 8 then Ok ultra_gpu_8g
    else
      Raise (ValueError
        ("Too many " ++ accelerator_type ++ " requested. Must be <= 8."))
  else
    Raise (ValueError
      ("accelerator_type_override must be one of"
       ++ " " ++ repr_list (sorted (set_iter w valid_accelerator_types)) ++ ".")).

Definition accepted_reference_models : list string :=
  [palm_tiny; gecko; otter; bison; elephant; t5_small; t5_large; t5_xl; t5_xxl].

Definition machine_spec (accelerator_type : string) (accelerator_count : Z)
    (machine_type : string) : MachineSpec :=
  {| machine_type := machine_type;
     accelerator_type := accelerator_type;
     accelerator_count := accelerator_count |}.

Definition reference_model_to_model_specs_gpu : list (string * MachineSpec) :=
  [ (palm_tiny, machine_spec nvidia_a100_40g 1 high_gpu_1g);
    (gecko, machine_spec nvidia_a100_40g 1 high_gpu_1g);
    (otter, machine_spec nvidia_a100_40g 2 high_gpu_2g);
    (bison, machine_spec nvidia_a100_40g 8 high_gpu_8g);
    (elephant, machine_spec nvidia_a100_40g 8 high_gpu_8g);
    (t5_small, machine_spec nvidia_a100_40g 1 high_gpu_1g);
    (t5_large, machine_spec nvidia_a100_40g 1 high_gpu_1g);
    (t5_xl, machine_spec nvidia_a100_40g 1 high_gpu_1g);
    (t5_xxl, machine_spec nvidia_a100_40g 2 high_gpu_2g) ].

(** The default spec of the component: the table entry of the model, or the
    TPU pod of the shared pool. *)
Definition default_machine_spec (large_model_reference : string)
    (use_gpu_defaults : bool) : result MachineSpec :=
  if use_gpu_defaults
  then dict_index reference_model_to_model_specs_gpu large_model_reference
  else Ok (machine_spec tpu_v3 32 cloud_tpu).

(** The accelerator in effect: the pair of overrides when one of them is
    truthy (and then both must be), the default otherwise.  [None] is not
    truthy, so an override that passed [all] is a value. *)
Definition effective_accelerator (default : MachineSpec)
    (accelerator_type_override : option string)
    (accelerator_count_override : option Z) : result (string * Z) :=
  let overrides := [truthy_opt truthy_str accelerator_type_override;
                    truthy_opt truthy_int accelerator_count_override] in
  if any overrides then
    raise_if (negb (all overrides))
      (ValueError "Accelerator type and count must both be set.") ;;;
    match accelerator_type_override, accelerator_count_override with
    | Some accelerator_type, Some accelerator_count =>
        Ok (accelerator_type, accelerator_count)
    | _, _ => Raise (ValueError "Accelerator type and count must both be set.")
    end
  else Ok (accelerator_type default, accelerator_count default).

Definition get_default_bulk_inference_machine_specs (w : World)
    (large_model_reference : string) (use_gpu_defaults : bool)
    (accelerator_type_override : option string)
    (accelerator_count_override : option Z) : result MachineSpec :=
  raise_if (negb (mem large_model_reference accepted_reference_models))
    (ValueError
      ("large_model_reference must be one of"
       ++ " " ++ repr_list (sorted (set_iter w accepted_reference_models)) ++ ".")) ;;;
  default <- default_machine_spec large_model_reference use_gpu_defaults ;;
  selection <- effective_accelerator default
                 accelerator_type_override accelerator_count_override ;;
  let (accelerator_type, accelerator_count) := selection in
  machine_type <- _get_machine_type w accelerator_type accelerator_count ;;
  Ok (machine_spec accelerator_type accelerator_count machine_type).

(** ** The components as one interface

    A pipeline invokes a component by name with its arguments; [run] is that
    dispatch, with the results in one type.  [env] is the configuration that
    [resolve_private_image_uri] was bound to when the module was loaded. *)

Inductive call : Type :=
| ResolveMachineSpec (location : string) (use_test_spec : bool)
| ResolveImageUri (image_name project location artifact_registry
    image_name_prefix tag accelerator_type : string) (accelerator_count : Z)
| ResolvePrivateImageUri (image_name accelerator_type : string)
    (accelerator_count : Z)
| ResolveDataPaths (input_dataset : string)
| ResolveReferenceModelMetadata (large_model_reference : string)
    (reference_model_path : option string)
| ConvertToDelimitedString (items : list string) (delimiter : string)
| GenerateDefaultInstruction (task : string) (target_sequence_length : Z)
    (instruction_override : string)
| ResolveUploadLocation (upload_location : option string)
| ResolveRegionalEndpoint (upload_location : string)
| ResolveModelDisplayName (large_model_reference : string)
    (model_display_name : option string)
| ResolveDeployModel (deploy_model : bool) (large_model_reference : string)
| ValueExists (value : option string)
| ResolveCandidateColumns (candidate_columns : option (list string))
| ResolveUploadModel (large_model_reference : string)
| ResolveInstruction (large_model_reference : string) (instruction : option string)
| Identity (value : string)
| GetDefaultBulkInferenceMachineSpecs (large_model_reference : string)
    (use_gpu_defaults : bool) (accelerator_type_override : option string)
    (accelerator_count_override : option Z).

Inductive value : Type :=
| VMachineSpec (m : MachineSpec)
| VOutputs (o : Outputs)
| VDataPaths (d : DataPaths)
| VStr (s : string)
| VBool (b : bool)
| VList (l : list string).

Definition fmap {A B : Type} (f : A -> B) (r : result A) : result B :=
  x <- r ;; Ok (f x).

Definition run (env : PrivateRegistry) (w : World) (c : call) : result value :=
  match c with
  | ResolveMachineSpec location use_test_spec =>
      fmap VMachineSpec (resolve_machine_spec w location use_test_spec)
  | ResolveImageUri image_name project location artifact_registry
      image_name_prefix tag accelerator_type accelerator_count =>
      Ok (VStr (resolve_image_uri image_name project location artifact_registry
                  image_name_prefix tag accelerator_type accelerator_count))
  | ResolvePrivateImageUri image_name accelerator_type accelerator_count =>
      Ok (VStr (resolve_private_image_uri env image_name accelerator_type
                  accelerator_count))
  | ResolveDataPaths input_dataset =>
      Ok (VDataPaths (resolve_data_paths input_dataset))
  | ResolveReferenceModelMetadata large_model_reference reference_model_path =>
      fmap VOutputs
        (resolve_reference_model_metadata large_model_reference reference_model_path)
  | ConvertToDelimitedString items delimiter =>
      Ok (VStr (convert_to_delimited_string items delimiter))
  | GenerateDefaultInstruction task target_sequence_length instruction_override =>
      fmap VStr
        (generate_default_instruction task target_sequence_length instruction_override)
  | ResolveUploadLocation upload_location =>
      fmap VStr (resolve_upload_location w upload_location)
  | ResolveRegionalEndpoint upload_location =>
      Ok (VStr (resolve_regional_endpoint upload_location))
  | ResolveModelDisplayName large_model_reference model_display_name =>
      Ok (VStr (resolve_model_display_name w large_model_reference model_display_name))
  | ResolveDeployModel deploy_model large_model_reference =>
      Ok (VBool (resolve_deploy_model deploy_model large_model_reference))
  | ValueExists value => Ok (VBool (value_exists value))
  | ResolveCandidateColumns candidate_columns =>
      Ok (VList (resolve_candidate_columns candidate_columns))
  | ResolveUploadModel large_model_reference =>
      Ok (VBool (resolve_upload_model large_model_reference))
  | ResolveInstruction large_model_reference instruction =>
      Ok (VStr (resolve_instruction large_model_reference instruction))
  | Identity value => Ok (VStr (identity value))
  | GetDefaultBulkInferenceMachineSpecs large_model_reference use_gpu_defaults
      accelerator_type_override accelerator_count_override =>
      fmap VMachineSpec
        (get_default_bulk_inference_machine_specs w large_model_reference
           use_gpu_defaults accelerator_type_override accelerator_count_override)
  end.

(** ** The design document's names for the raise sites

    Every failure of a component is a [ValueError]; the design document names
    the raise sites, which the messages tell apart.  A listing that the code
    sorts is written out here in its sorted order. *)

Definition UnsupportedLocationError (location : string) (regions : list string)
    : exn :=
  ValueError ("Unsupported accelerator location " ++ location
              ++ ". Must be one of " ++ repr_set regions ++ ".").

Definition InvalidAcceleratorCountError : exn :=
  ValueError "accelerator_count must be at least 1.".

Definition TooManyAcceleratorsError (accelerator_type : string) (limit : Z) : exn :=
  ValueError ("Too many " ++ accelerator_type ++ " requested. Must be <= "
              ++ str_of_int limit ++ ".").

Definition sorted_accelerator_types : list string :=
  ["NVIDIA_A100_80GB"; "NVIDIA_TESLA_A100"; "TPU_V2"; "TPU_V3"].

Definition UnknownAcceleratorTypeError : exn :=
  ValueError ("accelerator_type_override must be one of "
              ++ repr_list sorted_accelerator_types ++ ".").

Definition InvalidOverrideError : exn :=
  ValueError "Accelerator type and count must both be set.".

Definition sorted_accepted_models : list string :=
  ["BISON"; "ELEPHANT"; "GECKO"; "OTTER"; "PALM_TINY";
   "T5_LARGE"; "T5_SMALL"; "T5_XL"; "T5_XXL"].

Definition UnknownModelError : exn :=
  ValueError ("large_model_reference must be one of "
              ++ repr_list sorted_accepted_models ++ ".").

Definition sorted_supported_keys : list string :=
  ["chat-bison@001"; "llama-2-13b"; "llama-2-13b-chat"; "llama-2-7b";
   "llama-2-7b-chat"; "t5-large"; "t5-small"; "t5-xl"; "t5-xxl";
   "text-bison@001"].

Definition UnknownReferenceModelError (large_model_reference : string) : exn :=
  ValueError ("Unknown reference model " ++ large_model_reference
              ++ ". large_model_reference must be one of "
              ++ repr_list sorted_supported_keys ++ ".").

(** ** Notions the properties are stated with *)

(** [hay] holds [needle] (given in lower case) up to the case of letters. *)
Definition contains_ignoring_case (needle hay : string) : Prop :=
  exists pre mid post, hay = (pre ++ mid ++ post)%string /\ lower mid = needle.

(** What the key normalisation does to one character. *)
Definition normalise_char (c : ascii) : ascii :=
  if is_upper c then ascii_of_N (N_of_ascii c + 32)
  else if Ascii.eqb c underscore then hyphen
  else c.

(** Characters outside ASCII that the properties are tried on: the Kelvin
    sign, whose lower case is the letter k; the capital I with a dot above,
    whose lower case is the letter i and a combining dot; the capital E with
    an acute accent; the capital sigma. *)
Definition kelvin_sign : string := utf8_encode_scalar 0x212a.
Definition capital_i_with_dot : string := utf8_encode_scalar 0x130.
Definition capital_e_acute : string := utf8_encode_scalar 0xc9.
Definition small_e_acute : string := utf8_encode_scalar 0xe9.
Definition capital_sigma : string := utf8_encode_scalar 0x3a3.
Definition small_sigma : string := utf8_encode_scalar 0x3c3.
Definition small_final_sigma : string := utf8_encode_scalar 0x3c2.

(** A list of strings in ascending order. *)
Definition ascending : list string -> Prop :=
  StronglySorted (fun x y => (x <=? y)%string = true).

(** An override that is passed and truthy. *)
Definition supplied_str (o : option string) : Prop :=
  exists s, o = Some s /\ s <> EmptyString.
Definition supplied_int (o : option Z) : Prop :=
  exists n, o = Some n /\ n <> 0.

(** An override that is left out, or passed with a falsy value. *)
Definition absent_str (o : option string) : Prop :=
  o = None \/ o = Some EmptyString.
Definition absent_int (o : option Z) : Prop :=
  o = None \/ o = Some 0.

(** The calls whose result is read off the clock or the environment: the
    display name when none is given, the upload location when none is
    given. *)
Definition reads_clock (c : call) : bool :=
  match c with
  | ResolveModelDisplayName _ model_display_name =>
      negb (truthy_opt truthy_str model_display_name)
  | _ => false
  end.

Definition reads_environ (c : call) : bool :=
  match c with
  | ResolveUploadLocation upload_location =>
      negb (truthy_opt truthy_str upload_location)
  | _ => false
  end.

(** The call that formats the set of regions: a location outside of them. *)
Definition formats_region_set (c : call) : bool :=
  match c with
  | ResolveMachineSpec location use_test_spec =>
      negb use_test_spec && negb (mem location tpu_regions)
      && negb (mem location gpu_regions)
  | _ => false
  end.

(** A configuration of the module [env], for the examples. *)
Definition sample_registry : PrivateRegistry :=
  {| PRIVATE_ARTIFACT_REGISTRY_PROJECT := "vertex-ai-restricted";
     PRIVATE_ARTIFACT_REGISTRY_LOCATION := "us";
     PRIVATE_ARTIFACT_REGISTRY := "rlhf";
     PRIVATE_IMAGE_NAME_PREFIX := "rlhf_";
     private_image_tag := "20240101_0000_RC00" |}.

(** Two processes: they differ in the clock, in [CLOUD_ML_REGION] and in the
    order their string hashes give to a set. *)
Definition world_a : World :=
  {| now := {| year := 2024; month := 1; day := 2;
               hour := 3; minute := 4; second := 5 |};
     environ := [("CLOUD_ML_REGION", "us-central1")];
     set_iter := fun l => l |}.

Definition world_b : World :=
  {| now := {| year := 2025; month := 11; day := 30;
               hour := 23; minute := 59; second := 58 |};
     environ := [("CLOUD_ML_REGION", "europe-west4")];
     set_iter := @rev string |}.

(** ** write_file and read_file: the path they open *)

(** [re.sub('^gs://', '/gcs/', path)]: the pattern is anchored at the start
    of the path, so at most one occurrence is replaced. *)
Definition gcs_path (path : string) : string :=
  match path with
  | String "g" (String "s" (String ":" (String "/" (String "/" rest)))) =>
      "/gcs/" ++ rest
  | _ => path
  end.

(** ** remote_runner.get_model

    The component talks to four collaborators that are not part of these
    files: the model service client, [artifact_utils], the protobuf JSON
    printer and the file system.  Each of them is a field of [Externals] and
    may raise; [get_model] returns the calls it made, in order, and the
    exception that ended it, if any.  (The two [logging.info] calls are left
    out.) *)

Module remote_runner.

Inductive exn : Type :=
| TypeError (msg : string)
| ValueError (msg : string)
| External (e : string).

(** The two fields that [get_model] reads of the response. *)
Record Model : Type := { name : string; version_id : string }.

(** [artifact_types.VertexModel.create(name, uri, model_resource_name)]. *)
Record VertexModel : Type := {
  artifact_name : string;
  uri : string;
  model_resource_name : string
}.

(** One entry of [GcpResources.resources]. *)
Record GcpResource : Type := { resource_type : string; resource_uri : string }.

Record Externals : Type := {
  (** [aip_v1.ModelServiceClient(client_options={'api_endpoint': ...})]:
      the exception it raises, if any *)
  ModelServiceClient : string -> option string;
  (** [client.get_model(request)] for the client of an endpoint and the
      name of the request *)
  client_get_model : string -> string -> string + Model;
  (** [artifact_utils.update_output_artifacts(executor_input, artifacts)] *)
  update_output_artifacts : string -> list VertexModel -> option string;
  (** [json_format.MessageToJson(resources)] *)
  MessageToJson : list GcpResource -> string;
  (** [open(path, 'w')] and [f.write(content)] *)
  write : string -> string -> option string
}.

Inductive event : Type :=
| CreateClient (api_endpoint : string)
| GetModelRequest (name : string)
| UpdateOutputArtifacts (executor_input : string) (artifacts : list VertexModel)
| WriteFile (path content : string).

Definition RESOURCE_TYPE : string := "Model".

Definition at_sign : ascii := ascii_of_N 64.

(** [s.split('@', 1)[0]]. *)
Fixpoint before_at (s : string) : string :=
  match s with
  | EmptyString => EmptyString
  | String c t => if Ascii.eqb c at_sign then EmptyString else String c (before_at t)
  end.

(** [str(x)] inside an f-string for an optional string. *)
Definition format_opt (x : option string) : string :=
  match x with Some s => s | None => "None" end.

Definition get_model (ext : Externals)
    (executor_input gcp_resources model_name : string)
    (project location : option string) : list event * option exn :=
  match location with
  | None =>
      ([], Some (TypeError
                   "unsupported operand type(s) for +: 'NoneType' and 'str'"))
  | Some location =>
      let api_endpoint := location ++ "-aiplatform.googleapis.com" in
      let vertex_uri_prefix := "https://" ++ api_endpoint ++ "/v1/" in
      let model_resource_name :=
        "projects/" ++ format_opt project ++ "/locations/" ++ location
        ++ "/models/" ++ model_name in
      if negb (truthy_str location) || negb (truthy_opt truthy_str project) then
        ([], Some (ValueError
                     ("Model resource name must be in the format"
                      ++ " projects/{project}/locations/{location}/models/{model} or"
                      ++ " projects/{project}/locations/{location}/models/{model}@{model_version}")))
      else
        match ModelServiceClient ext api_endpoint with
        | Some e => ([CreateClient api_endpoint], Some (External e))
        | None =>
            match client_get_model ext api_endpoint model_resource_name with
            | inl e =>
                ([CreateClient api_endpoint; GetModelRequest model_resource_name],
                 Some (External e))
            | inr get_model_response =>
                let resp_model_name_without_version :=
                  before_at (name get_model_response) in
                let model_resource_name' :=
                  resp_model_name_without_version ++ "@"
                  ++ version_id get_model_response in
                let vertex_model :=
                  {| artifact_name := "model";
                     uri := vertex_uri_prefix ++ model_resource_name';
                     model_resource_name := model_resource_name' |} in
                let resources :=
                  [{| resource_type := RESOURCE_TYPE;
                      resource_uri := vertex_uri_prefix ++ model_resource_name' |}] in
                let calls :=
                  [CreateClient api_endpoint;
                   GetModelRequest model_resource_name;
                   UpdateOutputArtifacts executor_input [vertex_model]] in
                match update_output_artifacts ext executor_input [vertex_model] with
                | Some e => (calls, Some (External e))
                | None =>
                    let content := MessageToJson ext resources in
                    ((calls ++ [WriteFile gcp_resources content])%list,
                     match write ext gcp_resources content with
                     | Some e => Some (External e)
                     | None => None
                     end)
                end
            end
        end
  end.

(** What the collaborator behind a call of the trace does with it: the
    exception that it raises, if any.  [api_endpoint] is the endpoint that
    the client was made for. *)
Definition raised (ext : Externals) (api_endpoint : string) (call : event)
    : option string :=
  match call with
  | CreateClient api_endpoint => ModelServiceClient ext api_endpoint
  | GetModelRequest name =>
      match client_get_model ext api_endpoint name with
      | inl e => Some e
      | inr _ => None
      end
  | UpdateOutputArtifacts executor_input artifacts =>
      update_output_artifacts ext executor_input artifacts
  | WriteFile path content => write ext path content
  end.

End remote_runner.

(** ** Further notions the properties are stated with *)

Definition no_slash (s : string) : Prop := has_char slash s = false.

Definition ends_with_slash (s : string) : Prop :=
  exists r, s = (r ++ "/")%string.

(** A date of the years written with four digits. *)
Definition four_digit_year (t : datetime) : Prop :=
  1000 <= year t <= 9999 /\ 1 <= month t <= 12 /\ 1 <= day t <= 31 /\
  0 <= hour t <= 23 /\ 0 <= minute t <= 59 /\ 0 <= second t <= 59.

(** The machine types that the tiering hands out. *)
Definition machine_types : list string :=
  [cloud_tpu; ultra_gpu_1g; ultra_gpu_2g; ultra_gpu_4g; ultra_gpu_8g;
   high_gpu_1g; high_gpu_2g; high_gpu_4g; high_gpu_8g; mega_gpu_16g].

(** The error of [generate_default_instruction] for a task it does not know;
    the message holds the two task names in double quotes. *)
Definition UnsupportedTaskError (task : string) : exn :=
  ValueError ("Task not recognized: " ++ task ++ ". Supported tasks are: "
              ++ String dquote ("summarization" ++ String dquote (", "
              ++ String dquote ("question_answer" ++ String dquote ".")))).

Definition is_digit (c : ascii) : bool :=
  let n := N_of_ascii c in ((48 <=? n) && (n <=? 57))%N.

Fixpoint all_digits (s : string) : bool :=
  match s with
  | EmptyString => true
  | String c t => is_digit c && all_digits t
  end.

(** A string of [n] decimal digits. *)
Definition digits (n : nat) (s : string) : bool :=
  (String.length s =? n)%nat && all_digits s.

(** * Properties *)

(** ** The result monad *)

Lemma bind_Ok {A B : Type} (a : A) (k : A -> result B) : bind (Ok a) k = k a.
Proof. reflexivity. Qed.

Lemma raise_if_false (e : exn) {B : Type} (k : result B) :
  (raise_if false e ;;; k) = k.
Proof. reflexivity. Qed.

(** ** Sets and dicts *)

Lemma mem_In (x : string) (s : list string) : mem x s = true <-> In x s.
Proof.
  unfold mem. rewrite existsb_exists. split.
  - intros (y & Hy & Heq). apply String.eqb_eq in Heq. now subst.
  - intros H. exists x. split; [assumption | apply String.eqb_refl].
Qed.

Lemma mem_not_In (x : string) (s : list string) : mem x s = false <-> ~ In x s.
Proof.
  rewrite <- mem_In. destruct (mem x s); split; intros H; congruence.
Qed.

Lemma dict_get_In {V : Type} (d : list (string * V)) (k : string) (v : V) :
  NoDup (map fst d) -> In (k, v) d -> dict_get d k = Some v.
Proof.
  induction d as [|[k' v'] d IH]; simpl; intros Hnd Hin; [contradiction|].
  inversion Hnd as [|? ? Hnotin Hnd']; subst.
  destruct Hin as [Heq | Hin].
  - inversion Heq; subst. now rewrite String.eqb_refl.
  - destruct (String.eqb_spec k k') as [->|Hne].
    + exfalso. apply Hnotin. change k' with (fst (k', v)). now apply in_map.
    + now apply IH.
Qed.

Lemma dict_get_Some_In {V : Type} (d : list (string * V)) (k : string) (v : V) :
  dict_get d k = Some v -> In (k, v) d.
Proof.
  induction d as [|[k' v'] d IH]; simpl; [discriminate|].
  destruct (String.eqb_spec k k') as [->|Hne]; intros H.
  - inversion H; subst. now left.
  - right. now apply IH.
Qed.

(** ** The order of strings and [sorted] *)

Section StringOrder.

Lemma leb_trans (s1 s2 s3 : string) :
  (s1 <=? s2)%string = true -> (s2 <=? s3)%string = true ->
  (s1 <=? s3)%string = true.
Proof.
  unfold String.leb. revert s2 s3.
  induction s1 as [|a s1 IH]; intros [|b s2] [|c s3]; simpl; try congruence.
  unfold Ascii.compare.
  destruct (N.compare_spec (N_of_ascii a) (N_of_ascii b)) as [Hab|Hab|Hab];
    destruct (N.compare_spec (N_of_ascii b) (N_of_ascii c)) as [Hbc|Hbc|Hbc];
    destruct (N.compare_spec (N_of_ascii a) (N_of_ascii c)) as [Hac|Hac|Hac];
    try congruence; try lia; intros H1 H2; eauto.
Qed.

Lemma leb_false_flip (x y : string) :
  (x <=? y)%string = false -> (y <=? x)%string = true.
Proof.
  intros H. destruct (String.leb_total x y) as [H'|H']; congruence.
Qed.

Ltac order_absurd :=
  match goal with
  | H1 : (?x <=? ?y)%string = true, H2 : (?y <=? ?x)%string = true |- _ =>
      rewrite (String.leb_antisym _ _ H1 H2) in *; congruence
  | H1 : (?x <=? ?y)%string = false, H2 : (?y <=? ?x)%string = false |- _ =>
      apply leb_false_flip in H1; congruence
  | H1 : (?x <=? ?y)%string = true, H2 : (?y <=? ?z)%string = true,
    H3 : (?x <=? ?z)%string = false |- _ =>
      rewrite (leb_trans _ _ _ H1 H2) in H3; discriminate
  end.

(** Two insertions commute, whatever the list. *)
Lemma insert_sorted_comm (x y : string) (l : list string) :
  insert_sorted x (insert_sorted y l) = insert_sorted y (insert_sorted x l).
Proof.
  induction l as [|z l IH]; simpl.
  - destruct (x <=? y)%string eqn:Hxy, (y <=? x)%string eqn:Hyx; try reflexivity.
    + now rewrite (String.leb_antisym _ _ Hxy Hyx).
    + apply leb_false_flip in Hxy. congruence.
  - destruct (y <=? z)%string eqn:Hyz, (x <=? z)%string eqn:Hxz; simpl;
      destruct (x <=? y)%string eqn:Hxy, (y <=? x)%string eqn:Hyx;
      rewrite ?Hyz, ?Hxz, ?IH; try reflexivity; order_absurd.
Qed.

(** [sorted] does not see the order in which a set hands out its
    elements. *)
Lemma sorted_Permutation_eq (l l' : list string) :
  Permutation l l' -> sorted l = sorted l'.
Proof.
  induction 1 as [|x l l' _ IH|x y l|l l' l'' _ IH1 _ IH2]; simpl.
  - reflexivity.
  - unfold sorted in *. simpl. now rewrite IH.
  - unfold sorted. simpl. apply insert_sorted_comm.
  - congruence.
Qed.

Lemma insert_sorted_Permutation (x : string) (l : list string) :
  Permutation (insert_sorted x l) (x :: l).
Proof.
  induction l as [|y l IH]; simpl; [reflexivity|].
  destruct (x <=? y)%string; [reflexivity|].
  rewrite IH. apply perm_swap.
Qed.

Lemma sorted_Permutation (l : list string) : Permutation (sorted l) l.
Proof.
  induction l as [|x l IH]; simpl; [reflexivity|].
  unfold sorted in *. simpl. rewrite insert_sorted_Permutation. now constructor.
Qed.

Lemma insert_sorted_ascending (x : string) (l : list string) :
  ascending l -> ascending (insert_sorted x l).
Proof.
  unfold ascending. induction 1 as [|y l Hl IH Hy]; simpl.
  - repeat constructor.
  - destruct (x <=? y)%string eqn:Hxy.
    + constructor; [now constructor|].
      constructor; [assumption|].
      eapply Forall_impl; [|exact Hy]. intros z Hz. eapply leb_trans; eauto.
    + constructor; [assumption|].
      eapply Permutation_Forall;
        [symmetry; apply insert_sorted_Permutation|].
      constructor; [now apply leb_false_flip | assumption].
Qed.

Lemma sorted_ascending (l : list string) : ascending (sorted l).
Proof.
  induction l as [|x l IH]; [constructor|].
  unfold sorted in *. simpl. now apply insert_sorted_ascending.
Qed.

End StringOrder.

(** ** Strings: [lower], [replace], [in] *)

Section Strings.

Lemma append_empty_r (s : string) : (s ++ EmptyString)%string = s.
Proof. induction s as [|c s IH]; simpl; [reflexivity | now rewrite IH]. Qed.

Lemma lower_app (a b : string) :
  lower (a ++ b) = (lower a ++ lower b)%string.
Proof. induction a as [|c a IH]; simpl; [reflexivity | now rewrite IH]. Qed.

(** A split of [lower s] comes from a split of [s]. *)
Lemma lower_split (s a b : string) :
  lower s = (a ++ b)%string ->
  exists s1 s2, s = (s1 ++ s2)%string /\ lower s1 = a /\ lower s2 = b.
Proof.
  revert s. induction a as [|c a IH]; intros s H; simpl in H.
  - exists EmptyString, s. auto.
  - destruct s as [|d s]; simpl in H; [discriminate|].
    inversion H as [[Hc Hs]]. destruct (IH _ Hs) as (s1 & s2 & -> & H1 & H2).
    exists (String d s1), s2. simpl. rewrite H1. auto.
Qed.

Lemma prefix_app (a s : string) :
  prefix a s = true <-> exists r, s = (a ++ r)%string.
Proof.
  revert s. induction a as [|c a IH]; intros [|d s]; simpl.
  - split; [intros _; now exists EmptyString | reflexivity].
  - split; [intros _; now exists (String d s) | reflexivity].
  - split; [discriminate | intros (r & Hr); discriminate].
  - destruct (ascii_dec c d) as [->|Hne].
    + rewrite IH. split; intros (r & Hr); exists r.
      * now rewrite Hr.
      * now inversion Hr.
    + split; [discriminate|]. intros (r & Hr). inversion Hr. congruence.
Qed.

Lemma str_in_app (needle hay : string) :
  str_in needle hay = true <->
  exists pre post, hay = (pre ++ needle ++ post)%string.
Proof.
  induction hay as [|c hay IH]; cbn [str_in].
  - rewrite orb_false_r, prefix_app. split.
    + intros (r & Hr). now exists EmptyString, r.
    + intros ([|d pre] & post & H); [now exists post | discriminate].
  - rewrite orb_true_iff, prefix_app, IH. split.
    + intros [(r & Hr) | (pre & post & H)].
      * now exists EmptyString, r.
      * exists (String c pre), post. simpl. now rewrite H.
    + intros ([|d pre] & post & H).
      * left. now exists post.
      * right. exists pre, post. simpl in H. now inversion H.
Qed.

(** The membership test of [resolve_instruction], without [lower]. *)
Lemma str_in_lower (needle hay : string) :
  str_in needle (lower hay) = true <-> contains_ignoring_case needle hay.
Proof.
  rewrite str_in_app. unfold contains_ignoring_case. split.
  - intros (pre & post & H).
    apply lower_split in H. destruct H as (s1 & s2 & -> & H1 & H2).
    apply lower_split in H2. destruct H2 as (s3 & s4 & -> & H3 & H4).
    now exists s1, s3, s4.
  - intros (pre & mid & post & -> & Hmid).
    exists (lower pre), (lower post). now rewrite !lower_app, Hmid.
Qed.

Lemma get_lower (s : string) (i : nat) :
  get i (lower s) = option_map lower_char (get i s).
Proof.
  revert i. induction s as [|c s IH]; intros [|i]; simpl; auto.
Qed.

Lemma get_replace (old new : ascii) (s : string) (i : nat) :
  get i (replace old new s)
  = option_map (fun c => if Ascii.eqb c old then new else c) (get i s).
Proof.
  revert i. induction s as [|c s IH]; intros [|i]; simpl; auto.
Qed.

Lemma lower_char_not_underscore (c : ascii) :
  is_upper c = true -> Ascii.eqb (lower_char c) underscore = false.
Proof.
  intros H. unfold lower_char. rewrite H. unfold is_upper in H.
  apply andb_true_iff in H. destruct H as [H1 H2].
  apply N.leb_le in H1, H2. apply Ascii.eqb_neq. intros Heq.
  apply (f_equal N_of_ascii) in Heq.
  rewrite N_ascii_embedding in Heq by lia.
  unfold underscore in Heq. rewrite N_ascii_embedding in Heq by lia. lia.
Qed.

(** A string of ASCII characters is lower-cased byte by byte. *)
Lemma str_lower_ascii (s : string) :
  is_ascii s = true -> str_lower s = lower s.
Proof. intros H. unfold str_lower. now rewrite H. Qed.

Lemma is_ascii_app (a b : string) :
  is_ascii (a ++ b) = is_ascii a && is_ascii b.
Proof.
  induction a as [|c a IH]; simpl; [reflexivity|].
  now rewrite IH, andb_assoc.
Qed.

Lemma lower_char_ascii (c : ascii) :
  (ord c <? 128)%N = true -> (ord (lower_char c) <? 128)%N = true.
Proof.
  intros H. unfold lower_char. destruct (is_upper c) eqn:Hc; [|exact H].
  unfold is_upper in Hc. apply andb_true_iff in Hc. destruct Hc as [H1 H2].
  apply N.leb_le in H1, H2. unfold ord.
  rewrite N_ascii_embedding by lia. apply N.ltb_lt. lia.
Qed.

Lemma is_ascii_lower (s : string) :
  is_ascii s = true -> is_ascii (lower s) = true.
Proof.
  induction s as [|c s IH]; simpl; [reflexivity|].
  intros H. apply andb_true_iff in H. destruct H as [Hc Hs].
  now rewrite (lower_char_ascii c Hc), IH.
Qed.

Lemma is_ascii_replace (old new : ascii) (s : string) :
  (ord new <? 128)%N = true ->
  is_ascii s = true -> is_ascii (replace old new s) = true.
Proof.
  intros Hnew. induction s as [|c s IH]; simpl; [reflexivity|].
  intros H. apply andb_true_iff in H. destruct H as [Hc Hs].
  rewrite (IH Hs), andb_true_r. now destruct (Ascii.eqb c old).
Qed.

(** Nothing is left of the character that [replace] replaces. *)
Lemma has_char_replace (old new : ascii) (s : string) :
  Ascii.eqb old new = false -> has_char old (replace old new s) = false.
Proof.
  intros Hne. unfold has_char.
  induction s as [|c s IH]; simpl; [reflexivity|]. rewrite IH, orb_false_r.
  destruct (Ascii.eqb c old) eqn:Hc; [exact Hne|].
  now rewrite Ascii.eqb_sym.
Qed.

(** The key of a reference of ASCII characters is the reference with every
    character normalised. *)
Lemma get_reference_model_key (s : string) (i : nat) :
  is_ascii s = true ->
  get i (reference_model_key s) = option_map normalise_char (get i s).
Proof.
  intros Hs. unfold reference_model_key.
  rewrite (str_lower_ascii s Hs), get_replace, get_lower.
  destruct (get i s) as [c|]; simpl; [|reflexivity]. f_equal.
  unfold normalise_char. destruct (is_upper c) eqn:Hc.
  - rewrite (lower_char_not_underscore c Hc). unfold lower_char. now rewrite Hc.
  - unfold lower_char. now rewrite Hc.
Qed.

End Strings.

(** ** The two sample processes *)

Lemma world_a_ok : set_iter_ok world_a.
Proof. intros l. apply Permutation_refl. Defined.

Lemma world_b_ok : set_iter_ok world_b.
Proof. intros l. apply Permutation_sym, Permutation_rev. Defined.

(** ** resolve_machine_spec *)

Section MachineSpec.

Variable w : World.

Lemma resolve_machine_spec_unsupported (location : string) :
  ~ In location tpu_regions -> ~ In location gpu_regions ->
  resolve_machine_spec w location false
  = Raise (UnsupportedLocationError location
             (set_iter w ["europe-west4"; "us-central1"])).
Proof.
  intros Ht Hg. apply mem_not_In in Ht, Hg.
  unfold resolve_machine_spec. now rewrite Ht, Hg.
Qed.

End MachineSpec.

(** C2. With [use_test_spec] the fixed test spec is returned whatever the
    location; without it a location of the TPU region set (europe-west4)
    gives (cloud-tpu, TPU_V3, 64), one of the GPU region set (us-central1)
    gives (a2-ultragpu-8g, NVIDIA_A100_80GB, 8), and any other location
    fails with the unsupported-location error.  The test flag is looked at
    before the region. *)
Theorem resolve_machine_spec_cases (w : World) (location : string) :
  tpu_regions = ["europe-west4"] /\ gpu_regions = ["us-central1"] /\
  resolve_machine_spec w location true
  = Ok {| machine_type := "a2-highgpu-1g";
          accelerator_type := "NVIDIA_TESLA_A100";
          accelerator_count := 1 |} /\
  (In location tpu_regions ->
   resolve_machine_spec w location false
   = Ok {| machine_type := "cloud-tpu";
           accelerator_type := "TPU_V3";
           accelerator_count := 64 |}) /\
  (~ In location tpu_regions -> In location gpu_regions ->
   resolve_machine_spec w location false
   = Ok {| machine_type := "a2-ultragpu-8g";
           accelerator_type := "NVIDIA_A100_80GB";
           accelerator_count := 8 |}) /\
  (~ In location tpu_regions -> ~ In location gpu_regions ->
   resolve_machine_spec w location false
   = Raise (UnsupportedLocationError location
              (set_iter w ["europe-west4"; "us-central1"]))).
Proof.
  repeat split.
  - intros Ht. apply mem_In in Ht. unfold resolve_machine_spec. now rewrite Ht.
  - intros Ht Hg. apply mem_not_In in Ht. apply mem_In in Hg.
    unfold resolve_machine_spec. now rewrite Ht, Hg.
  - apply resolve_machine_spec_unsupported.
Qed.

Lemma resolve_machine_spec_cases_witness :
  resolve_machine_spec world_a "europe-west4" true
  = Ok {| machine_type := "a2-highgpu-1g";
          accelerator_type := "NVIDIA_TESLA_A100";
          accelerator_count := 1 |} /\
  resolve_machine_spec world_a "europe-west4" false
  = Ok {| machine_type := "cloud-tpu";
          accelerator_type := "TPU_V3";
          accelerator_count := 64 |} /\
  resolve_machine_spec world_a "us-central1" false
  = Ok {| machine_type := "a2-ultragpu-8g";
          accelerator_type := "NVIDIA_A100_80GB";
          accelerator_count := 8 |} /\
  resolve_machine_spec world_a "asia-east1" false
  = Raise (UnsupportedLocationError "asia-east1"
             ["europe-west4"; "us-central1"]).
Proof.
  split; [|split; [|split]].
  - apply (resolve_machine_spec_cases world_a "europe-west4").
  - apply (resolve_machine_spec_cases world_a "europe-west4").
    simpl. now left.
  - apply (resolve_machine_spec_cases world_a "us-central1").
    + simpl. intros [H|[]]. discriminate.
    + simpl. now left.
  - apply (resolve_machine_spec_cases world_a "asia-east1").
    + simpl. intros [H|[]]. discriminate.
    + simpl. intros [H|[]]. discriminate.
Defined.

(** C5. The message of the unsupported-location error names the location
    and lists the regions in the order in which the set hands them out: in
    one process the listing is ascending, in another it is not, and the two
    messages differ. *)
Theorem unsupported_location_listing_follows_set_order :
  set_iter_ok world_a /\ set_iter_ok world_b /\
  resolve_machine_spec world_a "asia-east1" false
  = Raise (ValueError
      "Unsupported accelerator location asia-east1. Must be one of {'europe-west4', 'us-central1'}.") /\
  resolve_machine_spec world_b "asia-east1" false
  = Raise (ValueError
      "Unsupported accelerator location asia-east1. Must be one of {'us-central1', 'europe-west4'}.") /\
  ~ ascending (set_iter world_b (set_union tpu_regions gpu_regions)) /\
  resolve_machine_spec world_a "asia-east1" false
  <> resolve_machine_spec world_b "asia-east1" false.
Proof.
  split; [exact world_a_ok|]. split; [exact world_b_ok|].
  split; [reflexivity|]. split; [reflexivity|]. split.
  - intros H. inversion H as [|x l _ Hx]; subst.
    inversion Hx as [|y l' Hy _]; subst. vm_compute in Hy. discriminate.
  - vm_compute. discriminate.
Qed.

(** ** resolve_image_uri *)

Section ImageUri.

Variables image_name accelerator_type : string.
Variable accelerator_count : Z.

Lemma accelerator_postfix_cpu_only :
  In image_name cpu_only_images ->
  accelerator_postfix image_name accelerator_type accelerator_count = "".
Proof.
  intros H. apply mem_In in H. unfold accelerator_postfix. now rewrite H.
Qed.

Lemma accelerator_postfix_tpu :
  ~ In image_name cpu_only_images -> accelerator_type = "TPU_V3" ->
  accelerator_postfix image_name accelerator_type accelerator_count = "_tpu".
Proof.
  intros H ->. apply mem_not_In in H. unfold accelerator_postfix. now rewrite H.
Qed.

Lemma accelerator_postfix_gpu_test :
  ~ In image_name cpu_only_images ->
  accelerator_type = "NVIDIA_A100_80GB" -> accelerator_count = 8 ->
  accelerator_postfix image_name accelerator_type accelerator_count = "_gpu_test".
Proof.
  intros H -> ->. apply mem_not_In in H. unfold accelerator_postfix.
  now rewrite H.
Qed.

Lemma accelerator_postfix_gpu :
  ~ In image_name cpu_only_images -> accelerator_type <> "TPU_V3" ->
  ~ (accelerator_type = "NVIDIA_A100_80GB" /\ accelerator_count = 8) ->
  accelerator_postfix image_name accelerator_type accelerator_count = "_gpu".
Proof.
  intros H Ht Hg. apply mem_not_In in H. apply String.eqb_neq in Ht.
  unfold accelerator_postfix. rewrite H, Ht.
  destruct (String.eqb_spec accelerator_type "NVIDIA_A100_80GB") as [He|He];
    [|reflexivity].
  destruct (Z.eqb_spec accelerator_count 8) as [Hc|Hc]; [|reflexivity].
  exfalso. now apply Hg.
Qed.

End ImageUri.

(** C4. The accelerator suffix is chosen in priority order: empty for a
    CPU-only image; else [_tpu] for accelerator type TPU_V3; else [_gpu_test]
    for NVIDIA_A100_80GB with count 8; else [_gpu].  [_backup] is appended
    exactly when the image is backup-eligible and the suffix is not
    [_gpu_test].  The result is
    location-docker.pkg.dev/project/registry/prefix+image+suffix:tag, for
    all values of the other parameters. *)
Theorem resolve_image_uri_composition
    (image_name project location artifact_registry image_name_prefix tag
     accelerator_type : string) (accelerator_count : Z) :
  exists suffix backup : string,
    (In image_name cpu_only_images -> suffix = "") /\
    (~ In image_name cpu_only_images -> accelerator_type = "TPU_V3" ->
     suffix = "_tpu") /\
    (~ In image_name cpu_only_images -> accelerator_type <> "TPU_V3" ->
     accelerator_type = "NVIDIA_A100_80GB" /\ accelerator_count = 8 ->
     suffix = "_gpu_test") /\
    (~ In image_name cpu_only_images -> accelerator_type <> "TPU_V3" ->
     ~ (accelerator_type = "NVIDIA_A100_80GB" /\ accelerator_count = 8) ->
     suffix = "_gpu") /\
    (In image_name backup_images /\ suffix <> "_gpu_test" -> backup = "_backup") /\
    (~ (In image_name backup_images /\ suffix <> "_gpu_test") -> backup = "") /\
    resolve_image_uri image_name project location artifact_registry
      image_name_prefix tag accelerator_type accelerator_count
    = (location ++ "-docker.pkg.dev/" ++ project ++ "/" ++ artifact_registry
       ++ "/" ++ image_name_prefix ++ image_name ++ (suffix ++ backup)
       ++ ":" ++ tag)%string.
Proof.
  exists (accelerator_postfix image_name accelerator_type accelerator_count).
  exists (if mem image_name backup_images
             && negb (accelerator_postfix image_name accelerator_type
                        accelerator_count =? "_gpu_test")%string
          then "_backup" else "").
  split; [apply accelerator_postfix_cpu_only|].
  split; [apply accelerator_postfix_tpu|].
  split; [intros H _ [Ht Hc]; now apply accelerator_postfix_gpu_test|].
  split; [apply accelerator_postfix_gpu|].
  split; [|split].
  - intros [Hb Hs]. apply mem_In in Hb. apply String.eqb_neq in Hs.
    now rewrite Hb, Hs.
  - intros Hn.
    destruct (mem image_name backup_images) eqn:Hb; [|reflexivity].
    destruct (String.eqb_spec
                (accelerator_postfix image_name accelerator_type accelerator_count)
                "_gpu_test") as [Hs|Hs]; [reflexivity|].
    exfalso. apply Hn. split; [now apply mem_In | assumption].
  - unfold resolve_image_uri.
    destruct (mem image_name backup_images
              && negb (accelerator_postfix image_name accelerator_type
                         accelerator_count =? "_gpu_test")%string).
    + reflexivity.
    + now rewrite append_empty_r.
Qed.

Lemma resolve_image_uri_composition_witness :
  resolve_image_uri "sft" "proj" "us" "registry" "private_" "v1" "TPU_V3" 0
  = "us-docker.pkg.dev/proj/registry/private_sft_tpu_backup:v1" /\
  resolve_image_uri "sft" "proj" "us" "registry" "private_" "v1"
    "NVIDIA_A100_80GB" 8
  = "us-docker.pkg.dev/proj/registry/private_sft_gpu_test:v1" /\
  resolve_image_uri "text_importer" "proj" "us" "registry" "private_" "v1"
    "NVIDIA_A100_80GB" 8
  = "us-docker.pkg.dev/proj/registry/private_text_importer_backup:v1" /\
  resolve_image_uri "bulk_inferrer" "proj" "us" "registry" "private_" "v1"
    "NVIDIA_TESLA_A100" 8
  = "us-docker.pkg.dev/proj/registry/private_bulk_inferrer_gpu:v1".
Proof.
  split; [|split; [|split]].
  - destruct (resolve_image_uri_composition "sft" "proj" "us" "registry"
                "private_" "v1" "TPU_V3" 0)
      as (suffix & backup & _ & Htpu & _ & _ & Hb & _ & ->).
    assert (Hs : suffix = "_tpu").
    { apply Htpu; [|reflexivity]. simpl. intros [H|[H|[]]]; discriminate. }
    subst suffix. rewrite Hb; [reflexivity|].
    split; [simpl; now left | discriminate].
  - destruct (resolve_image_uri_composition "sft" "proj" "us" "registry"
                "private_" "v1" "NVIDIA_A100_80GB" 8)
      as (suffix & backup & _ & _ & Htest & _ & _ & Hnb & ->).
    assert (Hs : suffix = "_gpu_test").
    { apply Htest; [| discriminate | split; reflexivity].
      simpl. intros [H|[H|[]]]; discriminate. }
    subst suffix. rewrite Hnb; [reflexivity|]. intros [_ H]. now apply H.
  - destruct (resolve_image_uri_composition "text_importer" "proj" "us"
                "registry" "private_" "v1" "NVIDIA_A100_80GB" 8)
      as (suffix & backup & Hcpu & _ & _ & _ & Hb & _ & ->).
    assert (Hs : suffix = "").
    { apply Hcpu. simpl. now left. }
    subst suffix. rewrite Hb; [reflexivity|].
    split; [simpl; tauto | discriminate].
  - destruct (resolve_image_uri_composition "bulk_inferrer" "proj" "us"
                "registry" "private_" "v1" "NVIDIA_TESLA_A100" 8)
      as (suffix & backup & _ & _ & _ & Hgpu & _ & Hnb & ->).
    assert (Hs : suffix = "_gpu").
    { apply Hgpu; [| discriminate | intros [H _]; discriminate].
      simpl. intros [H|[H|[]]]; discriminate. }
    subst suffix. rewrite Hnb; [reflexivity|].
    intros [H _]. simpl in H.
    repeat (destruct H as [H|H]; [discriminate|]). exact H.
Defined.

(** ** get_default_bulk_inference_machine_specs *)

Section BulkInference.

Variable w : World.
Hypothesis Hw : set_iter_ok w.

Lemma sorted_valid_accelerator_types :
  sorted (set_iter w valid_accelerator_types) = sorted_accelerator_types.
Proof.
  rewrite (sorted_Permutation_eq _ _ (Hw valid_accelerator_types)).
  reflexivity.
Qed.

Lemma sorted_accepted_reference_models :
  sorted (set_iter w accepted_reference_models) = sorted_accepted_models.
Proof.
  rewrite (sorted_Permutation_eq _ _ (Hw accepted_reference_models)).
  reflexivity.
Qed.

Lemma get_machine_type_count (accelerator_type : string) (n : Z) :
  n < 1 ->
  _get_machine_type w accelerator_type n = Raise InvalidAcceleratorCountError.
Proof.
  intros H. apply Z.ltb_lt in H. unfold _get_machine_type. now rewrite H.
Qed.

Lemma get_machine_type_tpu (accelerator_type : string) (n : Z) :
  1 <= n -> In accelerator_type tpu_accelerator_types ->
  _get_machine_type w accelerator_type n = Ok "cloud-tpu".
Proof.
  intros H Ht. apply Z.ltb_ge in H. apply mem_In in Ht.
  unfold _get_machine_type. now rewrite H, Ht.
Qed.

Ltac count_cases n :=
  unfold _get_machine_type; simpl;
  destruct (Z.ltb_spec n 1); [lia|];
  destruct (Z.eqb_spec n 1); [lia|];
  destruct (Z.eqb_spec n 2); [lia|];
  repeat match goal with
         | |- context [?a <=? ?b] => destruct (Z.leb_spec a b); [lia|]
         end.

Lemma get_machine_type_40g (n : Z) :
  (n = 1 -> _get_machine_type w "NVIDIA_TESLA_A100" n = Ok "a2-highgpu-1g") /\
  (n = 2 -> _get_machine_type w "NVIDIA_TESLA_A100" n = Ok "a2-highgpu-2g") /\
  (3 <= n <= 4 ->
   _get_machine_type w "NVIDIA_TESLA_A100" n = Ok "a2-highgpu-4g") /\
  (5 <= n <= 8 ->
   _get_machine_type w "NVIDIA_TESLA_A100" n = Ok "a2-highgpu-8g") /\
  (9 <= n <= 16 ->
   _get_machine_type w "NVIDIA_TESLA_A100" n = Ok "a2-megagpu-16g") /\
  (16 < n ->
   _get_machine_type w "NVIDIA_TESLA_A100" n
   = Raise (TooManyAcceleratorsError "NVIDIA_TESLA_A100" 16)).
Proof.
  repeat split; intros H.
  - now subst.
  - now subst.
  - count_cases n. destruct (Z.leb_spec n 4); [reflexivity | lia].
  - count_cases n. destruct (Z.leb_spec n 8); [reflexivity | lia].
  - count_cases n. destruct (Z.leb_spec n 16); [reflexivity | lia].
  - count_cases n. reflexivity.
Qed.

Lemma get_machine_type_80g (n : Z) :
  (n = 1 -> _get_machine_type w "NVIDIA_A100_80GB" n = Ok "a2-ultragpu-1g") /\
  (n = 2 -> _get_machine_type w "NVIDIA_A100_80GB" n = Ok "a2-ultragpu-2g") /\
  (3 <= n <= 4 ->
   _get_machine_type w "NVIDIA_A100_80GB" n = Ok "a2-ultragpu-4g") /\
  (5 <= n <= 8 ->
   _get_machine_type w "NVIDIA_A100_80GB" n = Ok "a2-ultragpu-8g") /\
  (8 < n ->
   _get_machine_type w "NVIDIA_A100_80GB" n
   = Raise (TooManyAcceleratorsError "NVIDIA_A100_80GB" 8)).
Proof.
  repeat split; intros H.
  - now subst.
  - now subst.
  - count_cases n. destruct (Z.leb_spec n 4); [reflexivity | lia].
  - count_cases n. destruct (Z.leb_spec n 8); [reflexivity | lia].
  - count_cases n. reflexivity.
Qed.

Lemma get_machine_type_unknown (accelerator_type : string) (n : Z) :
  1 <= n -> ~ In accelerator_type valid_accelerator_types ->
  _get_machine_type w accelerator_type n = Raise UnknownAcceleratorTypeError.
Proof.
  intros H Hn. apply Z.ltb_ge in H.
  assert (Ht : mem accelerator_type tpu_accelerator_types = false).
  { apply mem_not_In. intros Hin. apply Hn. simpl in *. tauto. }
  assert (H40 : (accelerator_type =? nvidia_a100_40g)%string = false).
  { apply String.eqb_neq. intros ->. apply Hn. simpl. tauto. }
  assert (H80 : (accelerator_type =? nvidia_a100_80g)%string = false).
  { apply String.eqb_neq. intros ->. apply Hn. simpl. tauto. }
  unfold _get_machine_type.
  now rewrite H, Ht, H40, H80, sorted_valid_accelerator_types.
Qed.

End BulkInference.

Section Overrides.

Variable default : MachineSpec.

Lemma effective_accelerator_default (t : option string) (c : option Z) :
  absent_str t -> absent_int c ->
  effective_accelerator default t c
  = Ok (accelerator_type default, accelerator_count default).
Proof. intros [->| ->] [->| ->]; reflexivity. Qed.

Lemma effective_accelerator_partial (t : option string) (c : option Z) :
  (supplied_str t /\ absent_int c) \/ (absent_str t /\ supplied_int c) ->
  effective_accelerator default t c = Raise InvalidOverrideError.
Proof.
  intros [[(s & -> & Hs) [->| ->]] | [[->| ->] (n & -> & Hn)]];
    unfold effective_accelerator; simpl;
    try (destruct s; [congruence|]); try reflexivity;
    apply Z.eqb_neq in Hn; unfold truthy_int; now rewrite Hn.
Qed.

Lemma effective_accelerator_both (s : string) (n : Z) :
  s <> EmptyString -> n <> 0 ->
  effective_accelerator default (Some s) (Some n) = Ok (s, n).
Proof.
  intros Hs Hn. unfold effective_accelerator. simpl.
  destruct s; [congruence|]. apply Z.eqb_neq in Hn.
  unfold truthy_int. now rewrite Hn.
Qed.

Lemma effective_accelerator_empty_type (c : option Z) :
  effective_accelerator default (Some EmptyString) c
  = effective_accelerator default None c.
Proof.
  unfold effective_accelerator. simpl.
  destruct c as [n|]; simpl; [|reflexivity].
  destruct (truthy_int n); reflexivity.
Qed.

Lemma effective_accelerator_zero_count (t : option string) :
  effective_accelerator default t (Some 0)
  = effective_accelerator default t None.
Proof.
  unfold effective_accelerator. simpl.
  destruct t as [s|]; simpl; [|reflexivity].
  destruct (truthy_str s); reflexivity.
Qed.

End Overrides.

Section BulkDefaults.

Variable w : World.

(** Every accepted model has a default under either flag, and the machine
    type that the table gives it is the one of its tier. *)
Lemma accepted_default (m : string) (g : bool) :
  In m accepted_reference_models ->
  exists d, default_machine_spec m g = Ok d /\
    _get_machine_type w (accelerator_type d) (accelerator_count d)
    = Ok (machine_type d) /\
    machine_spec (accelerator_type d) (accelerator_count d) (machine_type d) = d.
Proof.
  intros H. simpl in H.
  repeat (destruct H as [<-|H]; [destruct g; eexists; repeat split|]).
  contradiction.
Qed.

Lemma bulk_specs_selection (m : string) (g : bool) (t : option string)
    (c : option Z) (d : MachineSpec) (ty : string) (n : Z) :
  In m accepted_reference_models ->
  default_machine_spec m g = Ok d ->
  effective_accelerator d t c = Ok (ty, n) ->
  get_default_bulk_inference_machine_specs w m g t c
  = fmap (machine_spec ty n) (_get_machine_type w ty n).
Proof.
  intros Hm Hd He. apply mem_In in Hm.
  unfold get_default_bulk_inference_machine_specs.
  rewrite Hm. simpl negb. rewrite raise_if_false, Hd, bind_Ok, He, bind_Ok.
  reflexivity.
Qed.

Lemma bulk_specs_override_error (m : string) (g : bool) (t : option string)
    (c : option Z) (d : MachineSpec) (e : exn) :
  In m accepted_reference_models ->
  default_machine_spec m g = Ok d ->
  effective_accelerator d t c = Raise e ->
  get_default_bulk_inference_machine_specs w m g t c = Raise e.
Proof.
  intros Hm Hd He. apply mem_In in Hm.
  unfold get_default_bulk_inference_machine_specs.
  rewrite Hm. simpl negb. now rewrite raise_if_false, Hd, bind_Ok, He.
Qed.

Lemma bulk_specs_default (m : string) (g : bool) (t : option string)
    (c : option Z) (d : MachineSpec) :
  In m accepted_reference_models ->
  default_machine_spec m g = Ok d ->
  absent_str t -> absent_int c ->
  get_default_bulk_inference_machine_specs w m g t c = Ok d.
Proof.
  intros Hm Hd Ht Hc.
  destruct (accepted_default m g Hm) as (d' & Hd' & Hmt & Heta).
  assert (d' = d) by congruence. subst d'.
  rewrite (bulk_specs_selection m g t c d _ _ Hm Hd
             (effective_accelerator_default d t c Ht Hc)).
  rewrite Hmt. simpl. now rewrite Heta.
Qed.

End BulkDefaults.

(** C1. The machine type of the accelerator in effect, default or override,
    is the one of its tier: a count below 1 fails with the invalid-count
    error; a TPU type gives cloud-tpu; NVIDIA_TESLA_A100 gives a2-highgpu-1g
    for 1, a2-highgpu-2g for 2, a2-highgpu-4g for 3 to 4, a2-highgpu-8g for 5
    to 8, a2-megagpu-16g for 9 to 16 and the too-many error above 16;
    NVIDIA_A100_80GB gives a2-ultragpu-1g for 1, a2-ultragpu-2g for 2,
    a2-ultragpu-4g for 3 to 4, a2-ultragpu-8g for 5 to 8 and the too-many
    error above 8; any other type fails with the unknown-type error, which
    lists the valid types in ascending order. *)
Theorem machine_type_tiering (w : World) (ty : string) (n : Z) :
  set_iter_ok w ->
  (forall m g t c d,
     In m accepted_reference_models ->
     default_machine_spec m g = Ok d ->
     effective_accelerator d t c = Ok (ty, n) ->
     get_default_bulk_inference_machine_specs w m g t c
     = fmap (machine_spec ty n) (_get_machine_type w ty n)) /\
  (n < 1 -> _get_machine_type w ty n = Raise InvalidAcceleratorCountError) /\
  (1 <= n -> In ty ["TPU_V2"; "TPU_V3"] ->
   _get_machine_type w ty n = Ok "cloud-tpu") /\
  (ty = "NVIDIA_TESLA_A100" ->
   (n = 1 -> _get_machine_type w ty n = Ok "a2-highgpu-1g") /\
   (n = 2 -> _get_machine_type w ty n = Ok "a2-highgpu-2g") /\
   (3 <= n <= 4 -> _get_machine_type w ty n = Ok "a2-highgpu-4g") /\
   (5 <= n <= 8 -> _get_machine_type w ty n = Ok "a2-highgpu-8g") /\
   (9 <= n <= 16 -> _get_machine_type w ty n = Ok "a2-megagpu-16g") /\
   (16 < n ->
    _get_machine_type w ty n = Raise (TooManyAcceleratorsError ty 16))) /\
  (ty = "NVIDIA_A100_80GB" ->
   (n = 1 -> _get_machine_type w ty n = Ok "a2-ultragpu-1g") /\
   (n = 2 -> _get_machine_type w ty n = Ok "a2-ultragpu-2g") /\
   (3 <= n <= 4 -> _get_machine_type w ty n = Ok "a2-ultragpu-4g") /\
   (5 <= n <= 8 -> _get_machine_type w ty n = Ok "a2-ultragpu-8g") /\
   (8 < n ->
    _get_machine_type w ty n = Raise (TooManyAcceleratorsError ty 8))) /\
  (1 <= n ->
   ~ In ty ["TPU_V2"; "TPU_V3"; "NVIDIA_TESLA_A100"; "NVIDIA_A100_80GB"] ->
   _get_machine_type w ty n = Raise UnknownAcceleratorTypeError) /\
  ascending sorted_accelerator_types /\
  (forall t, In t sorted_accelerator_types <-> In t valid_accelerator_types).
Proof.
  intros Hw.
  split; [intros m g t c d; apply bulk_specs_selection|].
  split; [apply get_machine_type_count|].
  split; [apply get_machine_type_tpu|].
  split; [intros ->; apply get_machine_type_40g|].
  split; [intros ->; apply get_machine_type_80g|].
  split; [|split].
  - intros Hn Hty. apply get_machine_type_unknown; [assumption..|].
    intros H. apply Hty. simpl in *. tauto.
  - rewrite <- (sorted_valid_accelerator_types w Hw). apply sorted_ascending.
  - intros t. simpl. tauto.
Qed.

Lemma machine_type_tiering_witness :
  _get_machine_type world_b "NVIDIA_TESLA_A100" 4 = Ok "a2-highgpu-4g" /\
  _get_machine_type world_b "NVIDIA_TESLA_A100" 5 = Ok "a2-highgpu-8g" /\
  _get_machine_type world_b "NVIDIA_TESLA_A100" 17
  = Raise (ValueError "Too many NVIDIA_TESLA_A100 requested. Must be <= 16.") /\
  _get_machine_type world_b "NVIDIA_A100_80GB" 9
  = Raise (ValueError "Too many NVIDIA_A100_80GB requested. Must be <= 8.") /\
  _get_machine_type world_b "TPU_V2" 1000 = Ok "cloud-tpu" /\
  _get_machine_type world_b "TPU_V3" 0
  = Raise (ValueError "accelerator_count must be at least 1.") /\
  _get_machine_type world_b "NVIDIA_TESLA_V100" 1
  = Raise (ValueError
      "accelerator_type_override must be one of ['NVIDIA_A100_80GB', 'NVIDIA_TESLA_A100', 'TPU_V2', 'TPU_V3'].") /\
  get_default_bulk_inference_machine_specs world_b "BISON" true None None
  = Ok (machine_spec "NVIDIA_TESLA_A100" 8 "a2-highgpu-8g").
Proof.
  split; [|split; [|split; [|split; [|split; [|split; [|split]]]]]].
  - apply (machine_type_tiering world_b "NVIDIA_TESLA_A100" 4 world_b_ok);
      [reflexivity | lia].
  - apply (machine_type_tiering world_b "NVIDIA_TESLA_A100" 5 world_b_ok);
      [reflexivity | lia].
  - apply (machine_type_tiering world_b "NVIDIA_TESLA_A100" 17 world_b_ok);
      [reflexivity | lia].
  - apply (machine_type_tiering world_b "NVIDIA_A100_80GB" 9 world_b_ok);
      [reflexivity | lia].
  - apply (machine_type_tiering world_b "TPU_V2" 1000 world_b_ok);
      [lia | simpl; tauto].
  - apply (machine_type_tiering world_b "TPU_V3" 0 world_b_ok). lia.
  - apply (machine_type_tiering world_b "NVIDIA_TESLA_V100" 1 world_b_ok);
      [lia|]. simpl. intros [H|[H|[H|[H|[]]]]]; discriminate.
  - destruct (machine_type_tiering world_b "NVIDIA_TESLA_A100" 8 world_b_ok)
      as (Heff & _ & _ & H40 & _).
    rewrite (Heff "BISON" true None None
               (machine_spec "NVIDIA_TESLA_A100" 8 "a2-highgpu-8g"));
      [| simpl; tauto | reflexivity | reflexivity].
    destruct (H40 eq_refl) as (_ & _ & _ & H8 & _).
    rewrite H8; [reflexivity | lia].
Defined.

(** C3, as the design document states it, fails: a count override of 0 passed
    alone, or an empty type override passed alone, is not an error and the
    defaults are returned; and a type override passed together with a count
    override of 0 is refused instead of replacing the default. *)
Lemma override_passed_alone_is_not_refused :
  In "BISON" accepted_reference_models /\
  get_default_bulk_inference_machine_specs world_a "BISON" false None (Some 0)
  = Ok (machine_spec "TPU_V3" 32 "cloud-tpu") /\
  get_default_bulk_inference_machine_specs world_a "BISON" false (Some "") None
  = Ok (machine_spec "TPU_V3" 32 "cloud-tpu") /\
  get_default_bulk_inference_machine_specs world_a "BISON" false
    (Some "NVIDIA_A100_80GB") (Some 0)
  = Raise InvalidOverrideError.
Proof.
  split; [simpl; tauto|]. split; [reflexivity|]. split; reflexivity.
Qed.

(** C3, amended. For every accepted model the overrides are all or nothing
    by their truth value: a non-empty type override without a non-zero count
    override, or a non-zero count override without a non-empty type override,
    fails with the invalid-override error; a non-empty type together with a
    non-zero count replaces the default type and count, and the outcome is
    the tier of the pair, the same for every accepted model and either
    default flag. *)
Theorem override_all_or_nothing (w : World) (m : string) (g : bool)
    (t : option string) (c : option Z) :
  In m accepted_reference_models ->
  ((supplied_str t /\ absent_int c) \/ (absent_str t /\ supplied_int c) ->
   get_default_bulk_inference_machine_specs w m g t c
   = Raise InvalidOverrideError) /\
  (forall ty n,
     t = Some ty -> ty <> EmptyString -> c = Some n -> n <> 0 ->
     get_default_bulk_inference_machine_specs w m g t c
     = fmap (machine_spec ty n) (_get_machine_type w ty n) /\
     (forall mt,
        _get_machine_type w ty n = Ok mt ->
        get_default_bulk_inference_machine_specs w m g t c
        = Ok {| machine_type := mt;
                accelerator_type := ty;
                accelerator_count := n |}) /\
     (forall m' g',
        In m' accepted_reference_models ->
        get_default_bulk_inference_machine_specs w m' g' t c
        = get_default_bulk_inference_machine_specs w m g t c)).
Proof.
  intros Hm. destruct (accepted_default w m g Hm) as (d & Hd & _).
  split.
  - intros H. eapply bulk_specs_override_error; eauto.
    now apply effective_accelerator_partial.
  - intros ty n -> Hty -> Hn.
    assert (Hsel : forall m' g', In m' accepted_reference_models ->
              get_default_bulk_inference_machine_specs w m' g' (Some ty) (Some n)
              = fmap (machine_spec ty n) (_get_machine_type w ty n)).
    { intros m' g' Hm'.
      destruct (accepted_default w m' g' Hm') as (d' & Hd' & _).
      eapply bulk_specs_selection; eauto.
      now apply effective_accelerator_both. }
    split; [now apply Hsel|]. split.
    + intros mt Hmt. rewrite (Hsel m g Hm), Hmt. reflexivity.
    + intros m' g' Hm'. now rewrite (Hsel m g Hm), (Hsel m' g' Hm').
Qed.

Lemma override_all_or_nothing_witness :
  get_default_bulk_inference_machine_specs world_a "T5_SMALL" true
    (Some "NVIDIA_A100_80GB") None
  = Raise (ValueError "Accelerator type and count must both be set.") /\
  get_default_bulk_inference_machine_specs world_a "T5_SMALL" true
    None (Some 4)
  = Raise (ValueError "Accelerator type and count must both be set.") /\
  get_default_bulk_inference_machine_specs world_a "T5_SMALL" true
    (Some "NVIDIA_A100_80GB") (Some 4)
  = Ok {| machine_type := "a2-ultragpu-4g";
          accelerator_type := "NVIDIA_A100_80GB";
          accelerator_count := 4 |}.
Proof.
  assert (Hm : In "T5_SMALL" accepted_reference_models) by (simpl; tauto).
  split; [|split].
  - apply (override_all_or_nothing world_a "T5_SMALL" true
             (Some "NVIDIA_A100_80GB") None Hm).
    left. split; [|now left].
    exists "NVIDIA_A100_80GB". split; [reflexivity | discriminate].
  - apply (override_all_or_nothing world_a "T5_SMALL" true None (Some 4) Hm).
    right. split; [now left|].
    exists 4. split; [reflexivity | lia].
  - destruct (override_all_or_nothing world_a "T5_SMALL" true
                (Some "NVIDIA_A100_80GB") (Some 4) Hm) as [_ Hboth].
    destruct (Hboth "NVIDIA_A100_80GB" 4 eq_refl) as (_ & Hok & _);
      [discriminate | reflexivity | lia |].
    apply Hok. reflexivity.
Defined.

(** C10. Whether an override is present is decided by its truth value: for
    every accepted model a count override of 0 passed alone, or an empty type
    override, counts as no override and the defaults are returned; a
    non-empty type override with a count of 0 fails with the invalid-override
    error, not with the invalid-count error. *)
Theorem override_presence_is_truthiness (w : World) (m : string) (g : bool) :
  In m accepted_reference_models ->
  exists d,
    default_machine_spec m g = Ok d /\
    get_default_bulk_inference_machine_specs w m g None None = Ok d /\
    get_default_bulk_inference_machine_specs w m g None (Some 0) = Ok d /\
    get_default_bulk_inference_machine_specs w m g (Some "") None = Ok d /\
    get_default_bulk_inference_machine_specs w m g (Some "") (Some 0) = Ok d /\
    (forall c,
       get_default_bulk_inference_machine_specs w m g (Some "") c
       = get_default_bulk_inference_machine_specs w m g None c) /\
    (forall t,
       get_default_bulk_inference_machine_specs w m g t (Some 0)
       = get_default_bulk_inference_machine_specs w m g t None) /\
    (forall ty,
       ty <> EmptyString ->
       get_default_bulk_inference_machine_specs w m g (Some ty) (Some 0)
       = Raise InvalidOverrideError) /\
    InvalidOverrideError <> InvalidAcceleratorCountError.
Proof.
  intros Hm. destruct (accepted_default w m g Hm) as (d & Hd & Hmt & Heta).
  exists d. split; [assumption|].
  assert (Hdef : forall t c, absent_str t -> absent_int c ->
            get_default_bulk_inference_machine_specs w m g t c = Ok d).
  { intros t c. now apply bulk_specs_default. }
  assert (Hunf : forall t c,
            get_default_bulk_inference_machine_specs w m g t c
            = (selection <- effective_accelerator d t c ;;
               let (ty, n) := selection in
               machine_type <- _get_machine_type w ty n ;;
               Ok (machine_spec ty n machine_type))).
  { intros t c. unfold get_default_bulk_inference_machine_specs.
    apply mem_In in Hm. rewrite Hm. simpl negb.
    now rewrite raise_if_false, Hd, bind_Ok. }
  split; [apply Hdef; now left|].
  split; [apply Hdef; [now left | now right]|].
  split; [apply Hdef; [now right | now left]|].
  split; [apply Hdef; now right|].
  split; [intros c; now rewrite !Hunf, effective_accelerator_empty_type|].
  split; [intros t; now rewrite !Hunf, effective_accelerator_zero_count|].
  split; [|discriminate].
  intros ty Hty. eapply bulk_specs_override_error; eauto.
  apply effective_accelerator_partial. left. split; [|now right].
  now exists ty.
Qed.

Lemma override_presence_is_truthiness_witness :
  get_default_bulk_inference_machine_specs world_b "OTTER" true None (Some 0)
  = Ok (machine_spec "NVIDIA_TESLA_A100" 2 "a2-highgpu-2g") /\
  get_default_bulk_inference_machine_specs world_b "OTTER" true
    (Some "TPU_V3") (Some 0)
  = Raise (ValueError "Accelerator type and count must both be set.").
Proof.
  destruct (override_presence_is_truthiness world_b "OTTER" true)
    as (d & Hd & _ & Hzero & _ & _ & _ & _ & Herr & _).
  - simpl. tauto.
  - split.
    + rewrite Hzero. vm_compute in Hd. now rewrite <- Hd.
    + apply Herr. discriminate.
Defined.

(** ** resolve_reference_model_metadata *)

Section ReferenceModels.

Lemma reference_model_keys_NoDup : NoDup (map fst reference_models).
Proof.
  simpl. repeat (constructor; [simpl; intuition discriminate|]). constructor.
Qed.

Lemma sorted_supported_models : sorted supported_models = sorted_supported_keys.
Proof. reflexivity. Qed.

Lemma supported_models_In (k : string) :
  In k supported_models <->
  exists m, In (k, m) reference_models /\ is_supported m = true.
Proof.
  unfold supported_models. rewrite in_map_iff. split.
  - intros ([k' m] & <- & H). apply filter_In in H. now exists m.
  - intros (m & Hin & Hs). exists (k, m). split; [reflexivity|].
    apply filter_In. now split.
Qed.

Lemma sorted_supported_keys_In (k : string) :
  In k sorted_supported_keys <->
  exists m, In (k, m) reference_models /\ is_supported m = true.
Proof.
  rewrite <- supported_models_In, <- sorted_supported_models. split; intros H.
  - eapply Permutation_in; [apply sorted_Permutation | exact H].
  - eapply Permutation_in; [symmetry; apply sorted_Permutation | exact H].
Qed.

Lemma resolve_reference_model_hit (l : string) (p : option string)
    (m : reference_model_metadata) :
  dict_get reference_models (reference_model_key l) = Some m ->
  resolve_reference_model_metadata l p
  = Ok {| out_large_model_reference := large_model_reference m;
          out_reference_model_path := or_str p (reference_model_path m);
          out_reward_model_reference := reward_model_reference m;
          out_reward_model_path := reward_model_path m |}.
Proof. intros H. unfold resolve_reference_model_metadata. now rewrite H. Qed.

Lemma resolve_reference_model_miss (l : string) (p : option string) :
  dict_get reference_models (reference_model_key l) = None ->
  resolve_reference_model_metadata l p = Raise (UnknownReferenceModelError l).
Proof. intros H. unfold resolve_reference_model_metadata. now rewrite H. Qed.

End ReferenceModels.

(** C6. An entry of the registry is returned whenever the normalised key
    matches it, also when it is flagged unsupported (palm-tiny, bison and
    otter are); only the listing of the error raised on a miss is restricted
    to the keys flagged supported, in ascending order. *)
Theorem unsupported_entries_remain_reachable :
  (forall k m l p,
     In (k, m) reference_models -> reference_model_key l = k ->
     resolve_reference_model_metadata l p
     = Ok {| out_large_model_reference := large_model_reference m;
             out_reference_model_path := or_str p (reference_model_path m);
             out_reward_model_reference := reward_model_reference m;
             out_reward_model_path := reward_model_path m |}) /\
  (forall k, In k ["palm-tiny"; "bison"; "otter"] ->
     exists m,
       In (k, m) reference_models /\ is_supported m = false /\
       ~ In k sorted_supported_keys /\
       is_ok (resolve_reference_model_metadata k None) = true) /\
  (forall l p,
     dict_get reference_models (reference_model_key l) = None ->
     resolve_reference_model_metadata l p
     = Raise (UnknownReferenceModelError l)) /\
  ascending sorted_supported_keys /\
  (forall k,
     In k sorted_supported_keys <->
     exists m, In (k, m) reference_models /\ is_supported m = true).
Proof.
  split; [|split; [|split; [|split]]].
  - intros k m l p Hin Hk. apply resolve_reference_model_hit. rewrite Hk.
    apply dict_get_In; [apply reference_model_keys_NoDup | assumption].
  - intros k Hk. simpl in Hk.
    destruct Hk as [<-|[<-|[<-|[]]]];
      (eexists; split; [apply dict_get_Some_In; reflexivity|];
       split; [reflexivity|]; split; [|reflexivity];
       simpl; intuition discriminate).
  - apply resolve_reference_model_miss.
  - rewrite <- sorted_supported_models. apply sorted_ascending.
  - apply sorted_supported_keys_In.
Qed.

Lemma unsupported_entries_remain_reachable_witness :
  resolve_reference_model_metadata "BISON" None
  = Ok {| out_large_model_reference := "BISON";
          out_reference_model_path :=
            "gs://vertex-rlhf-restricted/pretrained_models/palm/t5x_bison/";
          out_reward_model_reference := "OTTER";
          out_reward_model_path :=
            "gs://vertex-rlhf-restricted/pretrained_models/palm/t5x_otter_pretrain/" |} /\
  resolve_reference_model_metadata "PaLM_2" None
  = Raise (ValueError
      "Unknown reference model PaLM_2. large_model_reference must be one of ['chat-bison@001', 'llama-2-13b', 'llama-2-13b-chat', 'llama-2-7b', 'llama-2-7b-chat', 't5-large', 't5-small', 't5-xl', 't5-xxl', 'text-bison@001'].") /\
  resolve_reference_model_metadata ("GEC" ++ kelvin_sign ++ "O") None
  = Ok {| out_large_model_reference := "GECKO";
          out_reference_model_path :=
            "gs://vertex-rlhf-restricted/pretrained_models/palm/t5x_gecko/";
          out_reward_model_reference := "GECKO";
          out_reward_model_path :=
            "gs://vertex-rlhf-restricted/pretrained_models/palm/t5x_gecko_pretrain/" |}.
Proof.
  destruct unsupported_entries_remain_reachable as (Hhit & _ & Hmiss & _).
  split; [|split].
  3: { apply (Hhit "gecko"
             {| large_model_reference := "GECKO";
                reference_model_path :=
                  "gs://vertex-rlhf-restricted/pretrained_models/palm/t5x_gecko/";
                reward_model_reference := "GECKO";
                reward_model_path :=
                  "gs://vertex-rlhf-restricted/pretrained_models/palm/t5x_gecko_pretrain/";
                is_supported := false |} ("GEC" ++ kelvin_sign ++ "O")%string None).
       - simpl. tauto.
       - vm_compute. reflexivity. }
  - apply (Hhit "bison"
             {| large_model_reference := "BISON";
                reference_model_path :=
                  "gs://vertex-rlhf-restricted/pretrained_models/palm/t5x_bison/";
                reward_model_reference := "OTTER";
                reward_model_path :=
                  "gs://vertex-rlhf-restricted/pretrained_models/palm/t5x_otter_pretrain/";
                is_supported := false |} "BISON" None).
    + simpl. tauto.
    + reflexivity.
  - apply (Hmiss "PaLM_2" None). reflexivity.
Defined.

(** C7. The entry is looked up under the reference in lower case with
    hyphens for underscores: the key holds no underscore, for a reference of
    ASCII characters it is the reference with each capital letter replaced by
    its small letter and each underscore by a hyphen, and outside ASCII the
    lower case is that of [str.lower] (the Kelvin sign counts as a k).  On a
    hit the metadata of the entry is returned, with the path of the
    reference model replaced by the override exactly when the override is
    non-empty; the sharing of reward models is kept: LLAMA_2_7B_CHAT comes
    with the reward model LLAMA_2_7B and the reward path of that base
    model. *)
Theorem reference_model_metadata_resolution :
  (forall l p,
     resolve_reference_model_metadata l p
     = match dict_get reference_models (replace underscore hyphen (str_lower l)) with
       | Some m =>
           Ok {| out_large_model_reference := large_model_reference m;
                 out_reference_model_path := or_str p (reference_model_path m);
                 out_reward_model_reference := reward_model_reference m;
                 out_reward_model_path := reward_model_path m |}
       | None => Raise (UnknownReferenceModelError l)
       end) /\
  (forall l, has_char underscore (reference_model_key l) = false) /\
  (forall l i,
     is_ascii l = true ->
     get i (reference_model_key l) = option_map normalise_char (get i l)) /\
  reference_model_key ("GEC" ++ kelvin_sign ++ "O") = "gecko" /\
  (forall l p m,
     dict_get reference_models (reference_model_key l) = Some m ->
     exists out,
       resolve_reference_model_metadata l p = Ok out /\
       out_large_model_reference out = large_model_reference m /\
       out_reward_model_reference out = reward_model_reference m /\
       out_reward_model_path out = reward_model_path m /\
       (forall s, p = Some s -> s <> EmptyString ->
                  out_reference_model_path out = s) /\
       (absent_str p -> out_reference_model_path out = reference_model_path m)) /\
  reference_model_key "LLAMA_2_7B_CHAT" = "llama-2-7b-chat" /\
  resolve_reference_model_metadata "LLAMA_2_7B_CHAT" None
  = Ok {| out_large_model_reference := "LLAMA_2_7B_CHAT";
          out_reference_model_path :=
            "gs://vertex-rlhf-restricted/pretrained_models/llama/t5x_llama_2_7b_chat/";
          out_reward_model_reference := "LLAMA_2_7B";
          out_reward_model_path :=
            "gs://vertex-rlhf-restricted/pretrained_models/llama/t5x_llama_2_7b/" |} /\
  (exists base chat,
     resolve_reference_model_metadata "LLAMA_2_7B" None = Ok base /\
     resolve_reference_model_metadata "LLAMA_2_7B_CHAT" None = Ok chat /\
     out_reward_model_reference chat = out_large_model_reference base /\
     out_reward_model_path chat = out_reward_model_path base).
Proof.
  split.
  { intros l p. unfold resolve_reference_model_metadata, reference_model_key.
    now destruct (dict_get reference_models _). }
  split.
  { intros l. unfold reference_model_key. now apply has_char_replace. }
  split; [intros l i Hl; now apply get_reference_model_key|].
  split; [vm_compute; reflexivity|].
  split; [|split; [reflexivity|split; [reflexivity|]]].
  - intros l p m Hm. eexists.
    split; [apply resolve_reference_model_hit; exact Hm|].
    simpl. repeat split.
    + intros s -> Hs. simpl. destruct s; [congruence | reflexivity].
    + intros [->| ->]; reflexivity.
  - eexists. eexists. repeat split.
Qed.

Lemma reference_model_metadata_resolution_witness :
  (exists out,
     resolve_reference_model_metadata "T5_Small" (Some "gs://bucket/tuned/")
     = Ok out /\
     out_reference_model_path out = "gs://bucket/tuned/") /\
  (exists out,
     resolve_reference_model_metadata "T5_Small" (Some "") = Ok out /\
     out_reference_model_path out
     = "gs://t5-data/pretrained_models/t5x/flan_t5_small/") /\
  get 2 (reference_model_key "T5_Small") = Some "-"%char.
Proof.
  destruct reference_model_metadata_resolution as (_ & _ & Hkey & _ & Hhit & _).
  split; [|split].
  - destruct (Hhit "T5_Small" (Some "gs://bucket/tuned/")
                {| large_model_reference := "T5_SMALL";
                   reference_model_path :=
                     "gs://t5-data/pretrained_models/t5x/flan_t5_small/";
                   reward_model_reference := "T5_SMALL";
                   reward_model_path :=
                     "gs://t5-data/pretrained_models/t5x/t5_1_1_small";
                   is_supported := true |} eq_refl)
      as (out & Hout & _ & _ & _ & Hover & _).
    exists out. split; [exact Hout|].
    apply Hover; [reflexivity | discriminate].
  - destruct (Hhit "T5_Small" (Some "")
                {| large_model_reference := "T5_SMALL";
                   reference_model_path :=
                     "gs://t5-data/pretrained_models/t5x/flan_t5_small/";
                   reward_model_reference := "T5_SMALL";
                   reward_model_path :=
                     "gs://t5-data/pretrained_models/t5x/t5_1_1_small";
                   is_supported := true |} eq_refl)
      as (out & Hout & _ & _ & _ & _ & Hdef).
    exists out. split; [exact Hout|].
    rewrite Hdef; [reflexivity | now right].
  - rewrite (Hkey "T5_Small" 2%nat eq_refl). reflexivity.
Defined.

(** ** resolve_instruction *)

Lemma or_str_empty (instruction : option string) :
  or_str instruction ""
  = match instruction with Some s => s | None => "" end.
Proof. destruct instruction as [[|c s]|]; reflexivity. Qed.

(** C8. The instruction is dropped when the model reference holds [chat] in
    any letter case, and is returned as given (empty when none is given)
    otherwise; (chat-bison@001, Be terse) gives the empty string and
    (BISON, Be terse) gives Be terse. *)
Theorem resolve_instruction_suppression (large_model_reference : string)
    (instruction : option string) :
  (contains_ignoring_case "chat" large_model_reference ->
   resolve_instruction large_model_reference instruction = "") /\
  (~ contains_ignoring_case "chat" large_model_reference ->
   resolve_instruction large_model_reference instruction
   = match instruction with Some s => s | None => "" end) /\
  resolve_instruction "chat-bison@001" (Some "Be terse") = "" /\
  resolve_instruction "BISON" (Some "Be terse") = "Be terse".
Proof.
  split; [|split; [|split; reflexivity]].
  - intros H. apply str_in_lower in H. unfold resolve_instruction.
    now rewrite H.
  - intros H. unfold resolve_instruction.
    destruct (str_in "chat" (lower large_model_reference)) eqn:Hin.
    + exfalso. apply H. now apply str_in_lower.
    + simpl. apply or_str_empty.
Qed.

Lemma resolve_instruction_suppression_witness :
  resolve_instruction "Llama-2-7B-Chat" (Some "Be terse") = "" /\
  resolve_instruction "text-bison@001" None = "".
Proof.
  split.
  - apply (proj1 (resolve_instruction_suppression "Llama-2-7B-Chat"
                     (Some "Be terse"))).
    exists "Llama-2-7B-", "Chat", "". split; reflexivity.
  - apply (proj1 (proj2 (resolve_instruction_suppression "text-bison@001"
                            None))).
    intros H. apply str_in_lower in H. vm_compute in H. discriminate.
Defined.

(** ** Determinism *)

Section Determinism.

Variable env : PrivateRegistry.
Variables w1 w2 : World.
Hypothesis Hw1 : set_iter_ok w1.
Hypothesis Hw2 : set_iter_ok w2.

Lemma get_machine_type_world (ty : string) (n : Z) :
  _get_machine_type w1 ty n = _get_machine_type w2 ty n.
Proof.
  unfold _get_machine_type.
  now rewrite (sorted_valid_accelerator_types w1 Hw1),
              (sorted_valid_accelerator_types w2 Hw2).
Qed.

Lemma bulk_specs_world (m : string) (g : bool) (t : option string)
    (c : option Z) :
  get_default_bulk_inference_machine_specs w1 m g t c
  = get_default_bulk_inference_machine_specs w2 m g t c.
Proof.
  unfold get_default_bulk_inference_machine_specs.
  rewrite (sorted_accepted_reference_models w1 Hw1),
          (sorted_accepted_reference_models w2 Hw2).
  destruct (raise_if _ _); simpl; [|reflexivity].
  destruct (default_machine_spec m g); simpl; [|reflexivity].
  destruct (effective_accelerator _ t c) as [[ty n]|]; simpl; [|reflexivity].
  now rewrite get_machine_type_world.
Qed.

Lemma run_deterministic (c : call) :
  reads_clock c = false -> reads_environ c = false ->
  formats_region_set c = false ->
  run env w1 c = run env w2 c.
Proof.
  destruct c; cbn [run reads_clock reads_environ formats_region_set];
    intros Hclock Henv Hset; try reflexivity.
  - unfold resolve_machine_spec.
    destruct use_test_spec; [reflexivity|].
    destruct (mem location tpu_regions); [reflexivity|].
    destruct (mem location gpu_regions); [reflexivity | discriminate].
  - destruct upload_location as [[|a s]|]; try discriminate. reflexivity.
  - destruct model_display_name as [[|a s]|]; try discriminate. reflexivity.
  - now rewrite bulk_specs_world.
Qed.

End Determinism.

(** C9, as the design document states it, fails: the display name is not the
    only result that is read off something other than the arguments.  With
    no upload location given, [resolve_upload_location] returns the
    [CLOUD_ML_REGION] of the environment, so two processes give two answers
    to one call; and the default display name starts with the model
    reference in lower case, not as it was given. *)
Lemma upload_location_follows_environment :
  reads_clock (ResolveUploadLocation None) = false /\
  run sample_registry world_a (ResolveUploadLocation None)
  = Ok (VStr "us-central1") /\
  run sample_registry world_b (ResolveUploadLocation None)
  = Ok (VStr "europe-west4") /\
  run sample_registry world_a (ResolveUploadLocation None)
  <> run sample_registry world_b (ResolveUploadLocation None) /\
  resolve_model_display_name world_a "BISON" None = "bison-2024-01-02-03-04-05" /\
  resolve_model_display_name world_a "BISON" None
  <> ("BISON" ++ "-" ++ strftime (now world_a))%string.
Proof.
  split; [reflexivity|]. split; [reflexivity|]. split; [reflexivity|].
  split; [vm_compute; discriminate|]. split; [reflexivity|].
  vm_compute. discriminate.
Qed.

(** C9, amended. A call gives the same value or the same error in every
    process, [resolve_private_image_uri] for one and the same configuration
    of the module [env] that it is bound to, with two exceptions: when no
    display name is given, [resolve_model_display_name] returns the model
    reference in lower case, a hyphen and the time stamp of the clock; when
    no upload location is given, [resolve_upload_location] returns the
    [CLOUD_ML_REGION] of the environment.  (The wording of the error for an
    unsupported location is left aside; that call fails in every process.) *)
Theorem resolvers_deterministic (env : PrivateRegistry) (w1 w2 : World)
    (c : call) :
  set_iter_ok w1 -> set_iter_ok w2 ->
  (reads_clock c = false -> reads_environ c = false ->
   formats_region_set c = false ->
   run env w1 c = run env w2 c) /\
  (formats_region_set c = true ->
   is_ok (run env w1 c) = false /\ is_ok (run env w2 c) = false) /\
  (forall large_model_reference model_display_name,
     c = ResolveModelDisplayName large_model_reference model_display_name ->
     reads_clock c = true ->
     run env w1 c
     = Ok (VStr (str_lower large_model_reference ++ "-" ++ strftime (now w1)))) /\
  (forall upload_location,
     c = ResolveUploadLocation upload_location ->
     reads_environ c = true ->
     run env w1 c = fmap VStr (dict_index (environ w1) "CLOUD_ML_REGION")) /\
  (forall image_name accelerator_type accelerator_count,
     c = ResolvePrivateImageUri image_name accelerator_type accelerator_count ->
     run env w1 c
     = run env w2
         (ResolveImageUri image_name
            (PRIVATE_ARTIFACT_REGISTRY_PROJECT env)
            (PRIVATE_ARTIFACT_REGISTRY_LOCATION env)
            (PRIVATE_ARTIFACT_REGISTRY env)
            (PRIVATE_IMAGE_NAME_PREFIX env)
            (private_image_tag env)
            accelerator_type accelerator_count)).
Proof.
  intros Hw1 Hw2.
  split; [now apply run_deterministic|]. split; [|split; [|split]].
  - destruct c; cbn [run formats_region_set]; try discriminate.
    unfold resolve_machine_spec.
    destruct use_test_spec; [discriminate|].
    destruct (mem location tpu_regions); [discriminate|].
    destruct (mem location gpu_regions); [discriminate|]. now split.
  - intros l name ->. simpl. unfold resolve_model_display_name.
    destruct name as [[|a s]|]; try discriminate; reflexivity.
  - intros loc ->. simpl.
    destruct loc as [[|a s]|]; try discriminate; reflexivity.
  - intros image_name accelerator_type accelerator_count ->. reflexivity.
Qed.

Lemma resolvers_deterministic_witness :
  run sample_registry world_a
    (GetDefaultBulkInferenceMachineSpecs "LLAMA" false None None)
  = run sample_registry world_b
      (GetDefaultBulkInferenceMachineSpecs "LLAMA" false None None) /\
  run sample_registry world_a (ResolvePrivateImageUri "reward_model" "TPU_V3" 64)
  = run sample_registry world_b (ResolvePrivateImageUri "reward_model" "TPU_V3" 64) /\
  run sample_registry world_a (ResolveModelDisplayName "BISON" None)
  = Ok (VStr "bison-2024-01-02-03-04-05") /\
  run sample_registry world_a
    (ResolveModelDisplayName ("GEC" ++ kelvin_sign ++ "O") None)
  = Ok (VStr "gecko-2024-01-02-03-04-05") /\
  run sample_registry world_b (ResolveUploadLocation (Some ""))
  = Ok (VStr "europe-west4").
Proof.
  split; [|split; [|split; [|split]]].
  - apply (resolvers_deterministic sample_registry world_a world_b
             (GetDefaultBulkInferenceMachineSpecs "LLAMA" false None None)
             world_a_ok world_b_ok); reflexivity.
  - apply (resolvers_deterministic sample_registry world_a world_b
             (ResolvePrivateImageUri "reward_model" "TPU_V3" 64)
             world_a_ok world_b_ok); reflexivity.
  - destruct (resolvers_deterministic sample_registry world_a world_b
                (ResolveModelDisplayName "BISON" None) world_a_ok world_b_ok)
      as (_ & _ & Hname & _).
    rewrite (Hname "BISON" None eq_refl eq_refl). reflexivity.
  - destruct (resolvers_deterministic sample_registry world_a world_b
                (ResolveModelDisplayName ("GEC" ++ kelvin_sign ++ "O") None)
                world_a_ok world_b_ok)
      as (_ & _ & Hname & _).
    rewrite (Hname ("GEC" ++ kelvin_sign ++ "O")%string None eq_refl eq_refl).
    vm_compute. reflexivity.
  - destruct (resolvers_deterministic sample_registry world_b world_a
                (ResolveUploadLocation (Some "")) world_b_ok world_a_ok)
      as (_ & _ & _ & Hloc & _).
    rewrite (Hloc (Some "") eq_refl eq_refl). reflexivity.
Defined.


(** * Further properties of the components *)

(** ** resolve_data_paths *)

Section DataPaths.

Lemma append_assoc (a b c : string) :
  ((a ++ b) ++ c)%string = (a ++ b ++ c)%string.
Proof. induction a as [|x a IH]; simpl; [reflexivity | now rewrite IH]. Qed.

Lemma has_char_cons (c x : ascii) (s : string) :
  has_char c (String x s) = Ascii.eqb c x || has_char c s.
Proof. reflexivity. Qed.


Lemma all_slashes_app (a b : string) :
  all_slashes (a ++ b) = all_slashes a && all_slashes b.
Proof.
  induction a as [|x a IH]; simpl; [reflexivity|]. now rewrite IH, andb_assoc.
Qed.


Lemma split_after_last_slash_no_slash (p : string) :
  has_char slash p = false -> split_after_last_slash p = (EmptyString, p).
Proof.
  induction p as [|c p IH]; [reflexivity|].
  rewrite has_char_cons. intros H. apply orb_false_iff in H. destruct H as [Hc Hp].
  simpl. rewrite (IH Hp). simpl. now rewrite Ascii.eqb_sym, Hc.
Qed.

Lemma split_after_last_slash_join (a n : string) :
  has_char slash n = false ->
  split_after_last_slash (a ++ String slash n) = ((a ++ "/")%string, n).
Proof.
  intros Hn. induction a as [|c a IH]; simpl.
  - rewrite (split_after_last_slash_no_slash n Hn). reflexivity.
  - rewrite IH. destruct a; reflexivity.
Qed.


Lemma all_slashes_rstrip_slash (s : string) :
  all_slashes (rstrip_slash s) = all_slashes s.
Proof.
  induction s as [|c s IH]; [reflexivity|].
  cbn [rstrip_slash]. destruct (all_slashes (String c s)) eqn:Hall;
    [reflexivity|].
  simpl. rewrite IH. exact Hall.
Qed.

Lemma all_slashes_ends_with_slash (s : string) :
  s <> EmptyString -> all_slashes s = true -> ends_with_slash s.
Proof.
  induction s as [|c s IH]; [congruence|]. intros _ H. simpl in H.
  apply andb_true_iff in H. destruct H as [Hc Hs]. apply Ascii.eqb_eq in Hc.
  subst c. destruct s as [|d s].
  - now exists EmptyString.
  - destruct (IH ltac:(discriminate) Hs) as (r & Hr).
    exists (String slash r). simpl. now rewrite Hr.
Qed.

Lemma ends_with_slash_cons (c : ascii) (s : string) :
  ends_with_slash s -> ends_with_slash (String c s).
Proof. intros (r & ->). now exists (String c r). Qed.

Lemma ends_with_slash_tail (c : ascii) (s : string) :
  s <> EmptyString -> ends_with_slash (String c s) -> ends_with_slash s.
Proof.
  intros Hs ([|d r] & Hr); simpl in Hr; inversion Hr; subst.
  - congruence.
  - now exists r.
Qed.

Lemma rstrip_slash_fixed (s : string) :
  ~ ends_with_slash s -> rstrip_slash s = s.
Proof.
  induction s as [|c s IH]; [reflexivity|]. intros Hn.
  cbn [rstrip_slash]. destruct (all_slashes (String c s)) eqn:Hall.
  - exfalso. apply Hn. now apply all_slashes_ends_with_slash.
  - f_equal. apply IH. intros H. apply Hn. now apply ends_with_slash_cons.
Qed.

Lemma rstrip_slash_not_ends (s : string) :
  all_slashes s = false -> ~ ends_with_slash (rstrip_slash s).
Proof.
  induction s as [|c s IH]; [discriminate|]. intros Hall.
  cbn [rstrip_slash]. rewrite Hall.
  destruct (all_slashes s) eqn:Hs.
  - assert (Hr : rstrip_slash s = EmptyString).
    { destruct s; [reflexivity|]. cbn [rstrip_slash]. now rewrite Hs. }
    rewrite Hr. intros ([|d r] & Hr'); simpl in Hr'; inversion Hr'; subst.
    + simpl in Hall. rewrite Hs in Hall. discriminate.
    + destruct r; discriminate.
  - intros H. apply (IH eq_refl). apply ends_with_slash_tail in H; [assumption|].
    intros Hr. pose proof (all_slashes_rstrip_slash s) as Hx.
    rewrite Hr, Hs in Hx. discriminate.
Qed.

Lemma rstrip_slash_app_slash (d : string) :
  rstrip_slash (d ++ "/") = rstrip_slash d.
Proof.
  induction d as [|c d IH]; [reflexivity|].
  simpl append. cbn [rstrip_slash].
  change (String c (d ++ "/")) with (String c d ++ "/")%string.
  rewrite all_slashes_app. simpl (all_slashes "/"). rewrite andb_true_r.
  destruct (all_slashes (String c d)); [reflexivity | now rewrite IH].
Qed.

End DataPaths.



(** X2. Cutting undoes joining: for a directory that is not empty and has no
    trailing slash, and a name without a slash, the path [dir/name] resolves
    to the directory and the name. *)
Theorem resolve_data_paths_join (dir name : string) :
  dir <> EmptyString -> ~ ends_with_slash dir -> no_slash name ->
  resolve_data_paths (dir ++ "/" ++ name)
  = {| tfds_data_dir := dir; tfds_name := name |}.
Proof.
  intros Hdir Hend Hname. unfold resolve_data_paths, os_path_split.
  change (dir ++ "/" ++ name)%string with (dir ++ String slash name)%string.
  rewrite (split_after_last_slash_join dir name Hname).
  assert (Hall : all_slashes dir = false).
  { destruct (all_slashes dir) eqn:H; [|reflexivity].
    exfalso. apply Hend. now apply all_slashes_ends_with_slash. }
  assert (Htruthy : truthy_str (dir ++ "/") = true).
  { destruct dir; [congruence | reflexivity]. }
  rewrite Htruthy, all_slashes_app, Hall. simpl.
  now rewrite rstrip_slash_app_slash, rstrip_slash_fixed.
Qed.

Lemma resolve_data_paths_join_witness :
  resolve_data_paths "gs://bucket/datasets/imdb_reviews"
  = {| tfds_data_dir := "gs://bucket/datasets"; tfds_name := "imdb_reviews" |}.
Proof.
  apply (resolve_data_paths_join "gs://bucket/datasets" "imdb_reviews").
  - discriminate.
  - exact (rstrip_slash_not_ends "gs://bucket/datasets" eq_refl).
  - reflexivity.
Defined.

(** ** The scalar components *)

(** X3. Joining is compositional: the join of two non-empty lists of items
    is the two joins with one delimiter between them; no delimiter is written
    for an empty list or around a single item. *)
Theorem convert_to_delimited_string_app (a b : list string) (delimiter : string) :
  convert_to_delimited_string [] delimiter = EmptyString /\
  (forall x, convert_to_delimited_string [x] delimiter = x) /\
  (a <> [] -> b <> [] ->
   convert_to_delimited_string (a ++ b) delimiter
   = (convert_to_delimited_string a delimiter ++ delimiter
      ++ convert_to_delimited_string b delimiter)%string).
Proof.
  split; [reflexivity|]. split; [reflexivity|].
  unfold convert_to_delimited_string. intros Ha Hb.
  induction a as [|x a IH]; [congruence|].
  destruct a as [|y a].
  - destruct b as [|z b]; [congruence | reflexivity].
  - change (join delimiter ((x :: y :: a) ++ b))
      with (x ++ delimiter ++ join delimiter ((y :: a) ++ b))%string.
    rewrite IH by discriminate.
    change (join delimiter (x :: y :: a))
      with (x ++ delimiter ++ join delimiter (y :: a))%string.
    now rewrite !append_assoc.
Qed.

Lemma convert_to_delimited_string_app_witness :
  convert_to_delimited_string (["a"; "b"] ++ ["c"]) ", "
  = (convert_to_delimited_string ["a"; "b"] ", " ++ ", "
     ++ convert_to_delimited_string ["c"] ", ")%string.
Proof.
  apply (convert_to_delimited_string_app ["a"; "b"] ["c"] ", "); discriminate.
Defined.

(** X4. A non-empty override is returned whatever the task, also for a task
    that is not supported.  Without one, the task is matched in lower case,
    the lower case of [str.lower]: the call succeeds exactly for the two
    tasks, and the error names the task in lower case, not as it was
    given. *)
Theorem generate_default_instruction_outcomes (task : string) (n : Z)
    (instruction_override : string) :
  (instruction_override <> EmptyString ->
   generate_default_instruction task n instruction_override
   = Ok instruction_override) /\
  (is_ok (generate_default_instruction task n instruction_override) = true <->
   instruction_override <> EmptyString \/ str_lower task = "summarization"
   \/ str_lower task = "question_answer") /\
  (instruction_override = EmptyString ->
   str_lower task <> "summarization" -> str_lower task <> "question_answer" ->
   generate_default_instruction task n instruction_override
   = Raise (UnsupportedTaskError (str_lower task))).
Proof.
  unfold generate_default_instruction.
  destruct instruction_override as [|c o]; cbn [truthy_str].
  - split; [congruence|].
    destruct (String.eqb_spec (str_lower task) "summarization") as [Hs|Hs].
    + split; [|congruence]. split; auto.
    + destruct (String.eqb_spec (str_lower task) "question_answer") as [Hq|Hq].
      * split; [|congruence]. split; auto.
      * split; [|reflexivity]. cbn [is_ok]. split; [discriminate|].
        intros [H|[H|H]]; congruence.
  - split; [reflexivity|]. split; [|discriminate].
    split; [intros _; left; discriminate | reflexivity].
Qed.

Lemma generate_default_instruction_outcomes_witness :
  generate_default_instruction "Translation" 128 "Keep it short."
  = Ok "Keep it short." /\
  generate_default_instruction "Translation" 128 ""
  = Raise (UnsupportedTaskError "translation") /\
  generate_default_instruction (capital_e_acute ++ "T" ++ capital_e_acute) 128 ""
  = Raise (UnsupportedTaskError (small_e_acute ++ "t" ++ small_e_acute)).
Proof.
  split; [|split].
  - apply (generate_default_instruction_outcomes "Translation" 128
             "Keep it short."). discriminate.
  - apply (generate_default_instruction_outcomes "Translation" 128 "");
      [reflexivity | discriminate | discriminate].
  - apply (generate_default_instruction_outcomes
             (capital_e_acute ++ "T" ++ capital_e_acute) 128 "");
      [reflexivity | vm_compute; discriminate | vm_compute; discriminate].
Defined.

(** X5. An upload location that is given and non-empty is returned without a
    look at the environment.  Otherwise the value of [CLOUD_ML_REGION] is
    returned as it is, also when it is empty, and a [KeyError] is raised when
    the variable is not set. *)
Theorem resolve_upload_location_outcomes (w : World) (upload_location : option string) :
  (forall s, upload_location = Some s -> s <> EmptyString ->
             resolve_upload_location w upload_location = Ok s) /\
  (absent_str upload_location ->
   forall v, dict_get (environ w) "CLOUD_ML_REGION" = Some v ->
             resolve_upload_location w upload_location = Ok v) /\
  (absent_str upload_location ->
   dict_get (environ w) "CLOUD_ML_REGION" = None ->
   resolve_upload_location w upload_location = Raise (KeyError "CLOUD_ML_REGION")) /\
  (is_ok (resolve_upload_location w upload_location) = true <->
   supplied_str upload_location
   \/ dict_get (environ w) "CLOUD_ML_REGION" <> None).
Proof.
  unfold resolve_upload_location, dict_index, absent_str, supplied_str.
  split; [|split; [|split]].
  - intros s -> Hs. destruct s; [congruence | reflexivity].
  - intros [->| ->] v Hv; simpl; now rewrite Hv.
  - intros [->| ->] Hv; simpl; now rewrite Hv.
  - destruct upload_location as [[|c s]|]; simpl.
    + destruct (dict_get (environ w) "CLOUD_ML_REGION"); simpl; split;
        try discriminate; auto; try (intros _; right; discriminate).
      intros [(s & Hs & Hne)|H]; congruence.
    + split; [|reflexivity]. intros _. left. exists (String c s).
      split; [reflexivity | discriminate].
    + destruct (dict_get (environ w) "CLOUD_ML_REGION"); simpl; split;
        try discriminate; auto; try (intros _; right; discriminate).
      intros [(s & Hs & Hne)|H]; congruence.
Qed.

Lemma resolve_upload_location_outcomes_witness :
  resolve_upload_location
    {| now := now world_a; environ := []; set_iter := set_iter world_a |}
    (Some "asia-east1") = Ok "asia-east1" /\
  resolve_upload_location
    {| now := now world_a; environ := []; set_iter := set_iter world_a |}
    (Some "") = Raise (KeyError "CLOUD_ML_REGION") /\
  resolve_upload_location world_b None = Ok "europe-west4".
Proof.
  split; [|split].
  - destruct (resolve_upload_location_outcomes
                {| now := now world_a; environ := [];
                   set_iter := set_iter world_a |}
                (Some "asia-east1")) as (Hgiven & _).
    apply Hgiven; [reflexivity | discriminate].
  - destruct (resolve_upload_location_outcomes
                {| now := now world_a; environ := [];
                   set_iter := set_iter world_a |}
                (Some "")) as (_ & _ & Hmissing & _).
    apply Hmissing; [now right | reflexivity].
  - destruct (resolve_upload_location_outcomes world_b None)
      as (_ & Henv & _).
    apply Henv; [now left | reflexivity].
Defined.

(** X8. The candidate columns that come back are never empty: a non-empty
    list is returned as given, and a missing or empty one is replaced by the
    two default columns; resolving the result again changes nothing. *)
Theorem resolve_candidate_columns_non_empty (candidate_columns : option (list string)) :
  resolve_candidate_columns candidate_columns <> [] /\
  (forall l, candidate_columns = Some l -> l <> [] ->
             resolve_candidate_columns candidate_columns = l) /\
  (candidate_columns = None \/ candidate_columns = Some [] ->
   resolve_candidate_columns candidate_columns = ["candidate_0"; "candidate_1"]) /\
  resolve_candidate_columns (Some (resolve_candidate_columns candidate_columns))
  = resolve_candidate_columns candidate_columns.
Proof.
  split; [|split; [|split]].
  - destruct candidate_columns as [[|x l]|]; discriminate.
  - intros l -> Hl. destruct l; [congruence | reflexivity].
  - intros [->| ->]; reflexivity.
  - destruct candidate_columns as [[|x l]|]; reflexivity.
Qed.

Lemma resolve_candidate_columns_non_empty_witness :
  resolve_candidate_columns (Some ["response_a"]) = ["response_a"] /\
  resolve_candidate_columns (Some []) = ["candidate_0"; "candidate_1"].
Proof.
  split.
  - destruct (resolve_candidate_columns_non_empty (Some ["response_a"]))
      as (_ & Hgiven & _).
    apply Hgiven; [reflexivity | discriminate].
  - destruct (resolve_candidate_columns_non_empty (Some []))
      as (_ & _ & Hdefault & _).
    apply Hdefault. now right.
Defined.

(** ** resolve_model_display_name *)

Section DisplayName.

Lemma length_lower (s : string) : String.length (lower s) = String.length s.
Proof. induction s as [|c s IH]; simpl; [reflexivity | now rewrite IH]. Qed.

Lemma length_app (a b : string) :
  String.length (a ++ b) = (String.length a + String.length b)%nat.
Proof. induction a as [|c a IH]; simpl; [reflexivity | now rewrite IH]. Qed.

Lemma in_range (lo hi : Z) (P : Z -> bool) (z : Z) :
  forallb (fun k => P (lo + Z.of_nat k)) (seq 0 (Z.to_nat (hi - lo))) = true ->
  lo <= z < hi -> P z = true.
Proof.
  intros Hall Hz. rewrite forallb_forall in Hall.
  replace z with (lo + Z.of_nat (Z.to_nat (z - lo))) by lia.
  apply Hall. apply in_seq. lia.
Qed.

Lemma year_digits (y : Z) : 1000 <= y <= 9999 -> digits 4 (str_of_int y) = true.
Proof.
  intros H. apply (in_range 1000 10000 (fun z => digits 4 (str_of_int z)));
    [vm_compute; reflexivity | lia].
Qed.

Lemma pad2_digits (n : Z) : 0 <= n <= 99 -> digits 2 (pad2 n) = true.
Proof.
  intros H. apply (in_range 0 100 (fun z => digits 2 (pad2 z)));
    [vm_compute; reflexivity | lia].
Qed.

End DisplayName.

(** X6. A display name that is given and non-empty is returned as it is, not
    in lower case.  Otherwise the name is the model reference in lower case,
    a hyphen and the time stamp; for a clock in the years 1000 to 9999 the
    time stamp is four digits followed by five groups of a hyphen and two
    digits, so the name is 20 characters longer than the reference in lower
    case.  That is as long as the reference when the reference is made of
    ASCII characters, and need not be otherwise: the lower case of the
    capital I with a dot above is two characters. *)
Theorem default_display_name_shape (w : World) (large_model_reference : string)
    (model_display_name : option string) :
  four_digit_year (now w) ->
  (forall s, model_display_name = Some s -> s <> EmptyString ->
     resolve_model_display_name w large_model_reference model_display_name = s) /\
  (absent_str model_display_name ->
   exists Y M D h m s,
     resolve_model_display_name w large_model_reference model_display_name
     = (str_lower large_model_reference ++ "-" ++ Y ++ "-" ++ M ++ "-" ++ D ++ "-"
        ++ h ++ "-" ++ m ++ "-" ++ s)%string /\
     digits 4 Y = true /\ digits 2 M = true /\ digits 2 D = true /\
     digits 2 h = true /\ digits 2 m = true /\ digits 2 s = true /\
     String.length
       (resolve_model_display_name w large_model_reference model_display_name)
     = (String.length (str_lower large_model_reference) + 20)%nat /\
     (is_ascii large_model_reference = true ->
      String.length
        (resolve_model_display_name w large_model_reference model_display_name)
      = (String.length large_model_reference + 20)%nat)) /\
  utf8_decode (str_lower capital_i_with_dot) = [Scalar 0x69; Scalar 0x307].
Proof.
  intros (Hy & Hmo & Hd & Hh & Hmi & Hs). split; [|split; [|reflexivity]].
  - intros s -> Hne. unfold resolve_model_display_name. simpl.
    destruct s; [congruence | reflexivity].
  - intros Habs.
    assert (Hname :
      resolve_model_display_name w large_model_reference model_display_name
      = (str_lower large_model_reference ++ "-" ++ strftime (now w))%string).
    { destruct Habs as [->| ->]; reflexivity. }
    pose proof (year_digits _ Hy) as HY.
    pose proof (pad2_digits (month (now w)) ltac:(lia)) as HM.
    pose proof (pad2_digits (day (now w)) ltac:(lia)) as HD.
    pose proof (pad2_digits (hour (now w)) ltac:(lia)) as Hh'.
    pose proof (pad2_digits (minute (now w)) ltac:(lia)) as Hm'.
    pose proof (pad2_digits (second (now w)) ltac:(lia)) as Hs'.
    exists (str_of_int (year (now w))), (pad2 (month (now w))),
      (pad2 (day (now w))), (pad2 (hour (now w))), (pad2 (minute (now w))),
      (pad2 (second (now w))).
    split; [exact Hname|]. repeat (split; [assumption|]).
    assert (Hlen :
      String.length
        (resolve_model_display_name w large_model_reference model_display_name)
      = (String.length (str_lower large_model_reference) + 20)%nat).
    { rewrite Hname. unfold strftime.
      unfold digits in *.
      repeat match goal with
             | H : _ && _ = true |- _ =>
                 apply andb_true_iff in H; destruct H as [H _];
                 apply Nat.eqb_eq in H
             end.
      rewrite !length_app, HY, HM, HD, Hh', Hm', Hs'. simpl. lia. }
    split; [exact Hlen|].
    intros Hascii. rewrite Hlen, (str_lower_ascii _ Hascii), length_lower.
    reflexivity.
Qed.

Lemma default_display_name_shape_witness :
  String.length (resolve_model_display_name world_b "T5_SMALL" None) = 28%nat /\
  String.length (resolve_model_display_name world_b capital_i_with_dot None)
  = (String.length capital_i_with_dot + 21)%nat /\
  resolve_model_display_name world_b "T5_SMALL" (Some "My Tuned Model")
  = "My Tuned Model".
Proof.
  assert (Hclock : four_digit_year (now world_b)) by (vm_compute; intuition discriminate).
  destruct (default_display_name_shape world_b "T5_SMALL" None Hclock)
    as (_ & Hdefault & _).
  destruct (default_display_name_shape world_b capital_i_with_dot None Hclock)
    as (_ & Hdotted & _).
  destruct (default_display_name_shape world_b "T5_SMALL"
              (Some "My Tuned Model") Hclock) as (Hgiven & _).
  split; [|split].
  - destruct (Hdefault (or_introl eq_refl))
      as (Y & M & D & h & m & s & _ & _ & _ & _ & _ & _ & _ & _ & Hlen).
    exact (Hlen eq_refl).
  - destruct (Hdotted (or_introl eq_refl))
      as (Y & M & D & h & m & s & _ & _ & _ & _ & _ & _ & _ & Hlen & _).
    rewrite Hlen. reflexivity.
  - apply Hgiven; [reflexivity | discriminate].
Defined.

(** ** get_default_bulk_inference_machine_specs, further *)

Section BulkInvariants.

Variable w : World.

Lemma get_machine_type_Ok (ty : string) (n : Z) (mt : string) :
  _get_machine_type w ty n = Ok mt ->
  1 <= n /\ In ty valid_accelerator_types /\ In mt machine_types /\
  (In ty tpu_accelerator_types -> mt = cloud_tpu) /\
  (ty = nvidia_a100_40g -> n <= 16) /\
  (ty = nvidia_a100_80g -> n <= 8).
Proof.
  unfold _get_machine_type.
  destruct (Z.ltb_spec n 1) as [Hlt|Hge]; [discriminate|].
  destruct (mem ty tpu_accelerator_types) eqn:Htpu.
  - intros Hres. inversion Hres; subst mt. apply mem_In in Htpu.
    split; [assumption|]. split; [simpl in *; tauto|].
    split; [simpl; tauto|]. split; [reflexivity|].
    split; intros ->; simpl in Htpu; intuition discriminate.
  - apply mem_not_In in Htpu.
    destruct (String.eqb_spec ty nvidia_a100_40g) as [->|H40].
    + destruct (Z.eqb_spec n 1); [|destruct (Z.eqb_spec n 2);
        [|destruct (Z.leb_spec n 4); [|destruct (Z.leb_spec n 8);
        [|destruct (Z.leb_spec n 16); [|discriminate]]]]];
        intros Hres; inversion Hres; subst mt;
        (split; [assumption|]; split; [simpl; tauto|]; split; [simpl; tauto|];
         split; [intros Hin; contradiction|]; split; [intros _; lia|];
         discriminate).
    + destruct (String.eqb_spec ty nvidia_a100_80g) as [->|H80]; [|discriminate].
      destruct (Z.eqb_spec n 1); [|destruct (Z.eqb_spec n 2);
        [|destruct (Z.leb_spec n 4); [|destruct (Z.leb_spec n 8);
        [|discriminate]]]];
        intros Hres; inversion Hres; subst mt;
        (split; [assumption|]; split; [simpl; tauto|]; split; [simpl; tauto|];
         split; [intros Hin; contradiction|]; split; [discriminate|];
         intros _; lia).
Qed.

Lemma bulk_specs_Ok (m : string) (g : bool) (t : option string) (c : option Z)
    (s : MachineSpec) :
  get_default_bulk_inference_machine_specs w m g t c = Ok s ->
  In m accepted_reference_models /\
  _get_machine_type w (accelerator_type s) (accelerator_count s)
  = Ok (machine_type s).
Proof.
  unfold get_default_bulk_inference_machine_specs.
  destruct (mem m accepted_reference_models) eqn:Hm; [|discriminate].
  simpl negb. rewrite raise_if_false.
  destruct (default_machine_spec m g) as [d|]; [|discriminate].
  rewrite bind_Ok.
  destruct (effective_accelerator d t c) as [[ty n]|]; [|discriminate].
  rewrite bind_Ok.
  destruct (_get_machine_type w ty n) as [mt|] eqn:Hmt; [|discriminate].
  rewrite bind_Ok. intros H. inversion H; subst s.
  split; [now apply mem_In | exact Hmt].
Qed.

End BulkInvariants.

(** X9. The model is checked before the overrides: for a model outside the
    accepted set the call fails with the unknown-model error, which lists
    the accepted models in ascending order, whatever the default flag and
    the overrides are; the set is matched by exact spelling. *)
Theorem unknown_model_refused_first (w : World) (m : string) (g : bool)
    (t : option string) (c : option Z) :
  set_iter_ok w ->
  ~ In m accepted_reference_models ->
  get_default_bulk_inference_machine_specs w m g t c = Raise UnknownModelError /\
  ascending sorted_accepted_models /\
  (forall x, In x sorted_accepted_models <-> In x accepted_reference_models).
Proof.
  intros Hw Hm. split; [|split].
  - apply mem_not_In in Hm.
    unfold get_default_bulk_inference_machine_specs.
    rewrite Hm, (sorted_accepted_reference_models w Hw). reflexivity.
  - rewrite <- (sorted_accepted_reference_models w Hw). apply sorted_ascending.
  - intros x. simpl. tauto.
Qed.

Lemma unknown_model_refused_first_witness :
  get_default_bulk_inference_machine_specs world_b "bison" true
    (Some "NVIDIA_TESLA_V100") None
  = Raise (ValueError
      "large_model_reference must be one of ['BISON', 'ELEPHANT', 'GECKO', 'OTTER', 'PALM_TINY', 'T5_LARGE', 'T5_SMALL', 'T5_XL', 'T5_XXL'].").
Proof.
  apply (unknown_model_refused_first world_b "bison" true
           (Some "NVIDIA_TESLA_V100") None world_b_ok).
  simpl. intuition discriminate.
Defined.

(** X10. Whatever is returned is a consistent machine spec: the model is an
    accepted one, the count is at least 1, the accelerator type is one of the
    four valid types, the machine type is the tier of the type and count and
    one of the ten machine types, a TPU comes with cloud-tpu, and a GPU count
    does not exceed 16 (NVIDIA_TESLA_A100) or 8 (NVIDIA_A100_80GB). *)
Theorem bulk_specs_result_invariant (w : World) (m : string) (g : bool)
    (t : option string) (c : option Z) (s : MachineSpec) :
  get_default_bulk_inference_machine_specs w m g t c = Ok s ->
  In m accepted_reference_models /\
  1 <= accelerator_count s /\
  In (accelerator_type s)
     ["NVIDIA_TESLA_A100"; "NVIDIA_A100_80GB"; "TPU_V2"; "TPU_V3"] /\
  _get_machine_type w (accelerator_type s) (accelerator_count s)
  = Ok (machine_type s) /\
  In (machine_type s) machine_types /\
  (In (accelerator_type s) ["TPU_V2"; "TPU_V3"] -> machine_type s = "cloud-tpu") /\
  (accelerator_type s = "NVIDIA_TESLA_A100" -> accelerator_count s <= 16) /\
  (accelerator_type s = "NVIDIA_A100_80GB" -> accelerator_count s <= 8).
Proof.
  intros H. destruct (bulk_specs_Ok w m g t c s H) as (Hm & Hmt).
  destruct (get_machine_type_Ok w _ _ _ Hmt) as (Hn & Hty & Hin & Htpu & H40 & H80).
  repeat (split; [assumption|]). assumption.
Qed.

Lemma bulk_specs_result_invariant_witness :
  1 <= 3 /\
  _get_machine_type world_a "NVIDIA_A100_80GB" 3 = Ok "a2-ultragpu-4g".
Proof.
  destruct (bulk_specs_result_invariant world_a "GECKO" false
              (Some "NVIDIA_A100_80GB") (Some 3)
              {| machine_type := "a2-ultragpu-4g";
                 accelerator_type := "NVIDIA_A100_80GB";
                 accelerator_count := 3 |} eq_refl)
    as (_ & Hcount & _ & Htier & _).
  split; [exact Hcount | exact Htier].
Defined.

(** X11. The table of GPU defaults has exactly one entry for each accepted
    model, so looking up an accepted model never raises [KeyError]; every
    entry is an NVIDIA_TESLA_A100 spec whose machine type is the tier of its
    count, and the TPU default is a valid spec too. *)
Theorem gpu_defaults_table_consistent (w : World) :
  NoDup (map fst reference_model_to_model_specs_gpu) /\
  (forall m, In m (map fst reference_model_to_model_specs_gpu)
             <-> In m accepted_reference_models) /\
  (forall m d, In (m, d) reference_model_to_model_specs_gpu ->
     accelerator_type d = "NVIDIA_TESLA_A100" /\
     _get_machine_type w (accelerator_type d) (accelerator_count d)
     = Ok (machine_type d)) /\
  (forall m g, In m accepted_reference_models ->
     exists d, default_machine_spec m g = Ok d /\
       _get_machine_type w (accelerator_type d) (accelerator_count d)
       = Ok (machine_type d)).
Proof.
  split; [|split; [|split]].
  - simpl. repeat (constructor; [simpl; intuition discriminate|]). constructor.
  - intros m. simpl. tauto.
  - intros m d H. simpl in H.
    repeat (destruct H as [H|H]; [inversion H; subst; now split|]).
    contradiction.
  - intros m g Hm. destruct (accepted_default w m g Hm) as (d & Hd & Hmt & _).
    now exists d.
Qed.

Lemma gpu_defaults_table_consistent_witness :
  exists d, default_machine_spec "ELEPHANT" true = Ok d /\
    _get_machine_type world_a (accelerator_type d) (accelerator_count d)
    = Ok (machine_type d).
Proof.
  destruct (gpu_defaults_table_consistent world_a) as (_ & _ & _ & Hdef).
  apply Hdef. simpl. tauto.
Defined.

(** ** resolve_machine_spec and resolve_image_uri together *)

(** X12. Every spec that [resolve_machine_spec] returns agrees with the
    tiering of the bulk inference component: its machine type is the tier of
    its accelerator type and count. *)
Theorem resolve_machine_spec_is_a_tier (w : World) (location : string)
    (use_test_spec : bool) (s : MachineSpec) :
  resolve_machine_spec w location use_test_spec = Ok s ->
  _get_machine_type w (accelerator_type s) (accelerator_count s)
  = Ok (machine_type s).
Proof.
  unfold resolve_machine_spec.
  destruct use_test_spec;
    [|destruct (mem location tpu_regions);
      [|destruct (mem location gpu_regions); [|discriminate]]];
    intros H; inversion H; reflexivity.
Qed.

Lemma resolve_machine_spec_is_a_tier_witness :
  _get_machine_type world_a "NVIDIA_A100_80GB" 8 = Ok "a2-ultragpu-8g".
Proof.
  apply (resolve_machine_spec_is_a_tier world_a "us-central1" false
           {| machine_type := "a2-ultragpu-8g";
              accelerator_type := "NVIDIA_A100_80GB";
              accelerator_count := 8 |}).
  reflexivity.
Defined.

(** X13. The image that goes with a resolved machine spec, for an image that
    is not CPU-only: with the test spec the suffix is [_gpu], in the TPU
    region it is [_tpu], and in the GPU region it is [_gpu_test], the one
    suffix that never gets [_backup]; in the first two cases a
    backup-eligible image gets [_backup]. *)
Theorem image_suffix_of_resolved_spec (w : World) (location image_name project
    registry_location artifact_registry image_name_prefix tag : string)
    (use_test_spec : bool) (s : MachineSpec) :
  resolve_machine_spec w location use_test_spec = Ok s ->
  ~ In image_name cpu_only_images ->
  resolve_image_uri image_name project registry_location artifact_registry
    image_name_prefix tag (accelerator_type s) (accelerator_count s)
  = (registry_location ++ "-docker.pkg.dev/" ++ project ++ "/"
     ++ artifact_registry ++ "/" ++ image_name_prefix ++ image_name
     ++ (if use_test_spec
         then if mem image_name backup_images then "_gpu_backup" else "_gpu"
         else if (location =? "europe-west4")%string
         then if mem image_name backup_images then "_tpu_backup" else "_tpu"
         else "_gpu_test")
     ++ ":" ++ tag)%string.
Proof.
  intros Hs Hcpu. apply mem_not_In in Hcpu.
  unfold resolve_machine_spec in Hs. unfold resolve_image_uri, accelerator_postfix.
  rewrite Hcpu. destruct (mem image_name backup_images).
  - destruct use_test_spec.
    + inversion Hs; subst s. reflexivity.
    + unfold tpu_regions, gpu_regions, mem in Hs. cbn [existsb] in Hs.
      rewrite !orb_false_r in Hs.
      destruct (location =? "europe-west4")%string;
        [|destruct (location =? "us-central1")%string; [|discriminate]];
        inversion Hs; subst s; reflexivity.
  - destruct use_test_spec.
    + inversion Hs; subst s. reflexivity.
    + unfold tpu_regions, gpu_regions, mem in Hs. cbn [existsb] in Hs.
      rewrite !orb_false_r in Hs.
      destruct (location =? "europe-west4")%string;
        [|destruct (location =? "us-central1")%string; [|discriminate]];
        inversion Hs; subst s; reflexivity.
Qed.

Lemma image_suffix_of_resolved_spec_witness :
  resolve_image_uri "reward_model" "proj" "us" "registry" "private_" "v1"
    "NVIDIA_A100_80GB" 8
  = "us-docker.pkg.dev/proj/registry/private_reward_model_gpu_test:v1".
Proof.
  apply (image_suffix_of_resolved_spec world_a "us-central1" "reward_model"
           "proj" "us" "registry" "private_" "v1" false
           {| machine_type := "a2-ultragpu-8g";
              accelerator_type := "NVIDIA_A100_80GB";
              accelerator_count := 8 |}).
  - reflexivity.
  - simpl. intros [H|[H|[]]]; discriminate.
Defined.

(** X14. For a CPU-only image the accelerator plays no part: whatever type
    and count are passed, the image is the one with the bare [_backup]
    suffix. *)
Theorem cpu_only_image_ignores_accelerator (image_name project location
    artifact_registry image_name_prefix tag accelerator_type : string)
    (accelerator_count : Z) :
  In image_name cpu_only_images ->
  resolve_image_uri image_name project location artifact_registry
    image_name_prefix tag accelerator_type accelerator_count
  = (location ++ "-docker.pkg.dev/" ++ project ++ "/" ++ artifact_registry
     ++ "/" ++ image_name_prefix ++ image_name ++ "_backup:" ++ tag)%string.
Proof.
  intros H. simpl in H.
  destruct H as [<-|[<-|[]]]; reflexivity.
Qed.

Lemma cpu_only_image_ignores_accelerator_witness :
  resolve_image_uri "text_importer" "proj" "us" "registry" "private_" "v1"
    "TPU_V3" 64
  = "us-docker.pkg.dev/proj/registry/private_text_importer_backup:v1".
Proof.
  apply (cpu_only_image_ignores_accelerator "text_importer" "proj" "us"
           "registry" "private_" "v1" "TPU_V3" 64).
  simpl. now left.
Defined.

(** ** The registry of reference models, further *)

Section Registry.

Lemma normalise_char_lower (c : ascii) :
  (if Ascii.eqb (lower_char c) underscore then hyphen else lower_char c)
  = normalise_char c.
Proof.
  unfold normalise_char. destruct (is_upper c) eqn:Hc.
  - rewrite (lower_char_not_underscore c Hc). unfold lower_char. now rewrite Hc.
  - unfold lower_char. now rewrite Hc.
Qed.

Lemma reference_model_key_ascii (s : string) :
  is_ascii s = true ->
  reference_model_key s = replace underscore hyphen (lower s).
Proof. intros H. unfold reference_model_key. now rewrite str_lower_ascii. Qed.

Lemma is_ascii_reference_model_key (s : string) :
  is_ascii s = true -> is_ascii (reference_model_key s) = true.
Proof.
  intros H. rewrite (reference_model_key_ascii s H).
  apply is_ascii_replace; [reflexivity|]. now apply is_ascii_lower.
Qed.

Lemma normalise_char_idempotent (c : ascii) :
  normalise_char (normalise_char c) = normalise_char c.
Proof. destruct c as [[] [] [] [] [] [] [] []]; reflexivity. Qed.

Lemma normalise_idempotent (s : string) :
  replace underscore hyphen (lower (replace underscore hyphen (lower s)))
  = replace underscore hyphen (lower s).
Proof.
  induction s as [|c s IH]; [reflexivity|].
  cbn [lower replace]. rewrite !normalise_char_lower, IH.
  f_equal. rewrite <- (normalise_char_lower (normalise_char c)).
  rewrite <- normalise_char_idempotent at 3.
  now rewrite <- (normalise_char_lower (normalise_char c)).
Qed.

Lemma reference_model_key_idempotent (s : string) :
  is_ascii s = true ->
  reference_model_key (reference_model_key s) = reference_model_key s.
Proof.
  intros H.
  rewrite (reference_model_key_ascii _ (is_ascii_reference_model_key s H)).
  rewrite (reference_model_key_ascii s H). apply normalise_idempotent.
Qed.

Lemma resolve_reference_model_key (l1 l2 : string) (p : option string) :
  reference_model_key l1 = reference_model_key l2 ->
  forall out,
    resolve_reference_model_metadata l1 p = Ok out ->
    resolve_reference_model_metadata l2 p = Ok out.
Proof.
  intros Hk out. unfold resolve_reference_model_metadata. rewrite Hk.
  destruct (dict_get reference_models (reference_model_key l2));
    [tauto | discriminate].
Qed.

Lemma resolve_reference_model_Ok (l : string) (p : option string) (out : Outputs) :
  resolve_reference_model_metadata l p = Ok out ->
  exists m,
    In (reference_model_key l, m) reference_models /\
    out = {| out_large_model_reference := large_model_reference m;
             out_reference_model_path := or_str p (reference_model_path m);
             out_reward_model_reference := reward_model_reference m;
             out_reward_model_path := reward_model_path m |}.
Proof.
  unfold resolve_reference_model_metadata.
  destruct (dict_get reference_models (reference_model_key l)) as [m|] eqn:Hm;
    [|discriminate].
  intros H. inversion H. exists m. split; [|reflexivity].
  now apply dict_get_Some_In.
Qed.

End Registry.

Ltac registry_cases H :=
  simpl in H;
  repeat (destruct H as [H|H]; [inversion H; subst; clear H|]);
  [..|contradiction].

(** X15. A reference is looked up by its normalised key alone: two
    references with the same key (they differ in letter case, or in hyphens
    against underscores) resolve to the same metadata or both fail.  A
    reference that resolves can be replaced by its key, which is a key of its
    own; so can the key of every reference of ASCII characters.  The Kelvin
    sign has the key of the letter k. *)
Theorem reference_lookup_by_key (l1 l2 : string) (p : option string) :
  (reference_model_key l1 = reference_model_key l2 ->
   is_ok (resolve_reference_model_metadata l1 p)
   = is_ok (resolve_reference_model_metadata l2 p) /\
   forall out,
     resolve_reference_model_metadata l1 p = Ok out <->
     resolve_reference_model_metadata l2 p = Ok out) /\
  (is_ok (resolve_reference_model_metadata l1 p) = true ->
   reference_model_key (reference_model_key l1) = reference_model_key l1 /\
   resolve_reference_model_metadata (reference_model_key l1) p
   = resolve_reference_model_metadata l1 p) /\
  (is_ascii l1 = true ->
   reference_model_key (reference_model_key l1) = reference_model_key l1) /\
  reference_model_key ("GEC" ++ kelvin_sign ++ "O") = reference_model_key "gecko".
Proof.
  split; [|split; [|split; [apply reference_model_key_idempotent|]]].
  - intros Hk. split.
    + unfold resolve_reference_model_metadata. rewrite Hk.
      now destruct (dict_get reference_models (reference_model_key l2)).
    + intros out. split; apply resolve_reference_model_key; congruence.
  - intros Hok.
    destruct (resolve_reference_model_metadata l1 p) as [out|e] eqn:Hout;
      [|discriminate].
    destruct (resolve_reference_model_Ok l1 p out Hout) as (m & Hin & _).
    assert (Hkey : reference_model_key (reference_model_key l1)
                   = reference_model_key l1).
    { remember (reference_model_key l1) as k eqn:Hk. clear Hk Hout.
      registry_cases Hin; reflexivity. }
    split; [exact Hkey|].
    apply (resolve_reference_model_key l1 _ p); [|exact Hout].
    now rewrite Hkey.
  - vm_compute. reflexivity.
Qed.

Lemma reference_lookup_by_key_witness :
  resolve_reference_model_metadata "LLaMA_2-7b" None
  = Ok {| out_large_model_reference := "LLAMA_2_7B";
          out_reference_model_path :=
            "gs://vertex-rlhf-restricted/pretrained_models/llama/t5x_llama_2_7b/";
          out_reward_model_reference := "LLAMA_2_7B";
          out_reward_model_path :=
            "gs://vertex-rlhf-restricted/pretrained_models/llama/t5x_llama_2_7b/" |} /\
  resolve_reference_model_metadata ("GEC" ++ kelvin_sign ++ "O") None
  = resolve_reference_model_metadata "gecko" None.
Proof.
  split.
  - destruct (reference_lookup_by_key "LLaMA_2-7b" "llama-2-7b" None)
      as (Hsame & _).
    destruct (Hsame eq_refl) as (_ & Hout).
    apply Hout. reflexivity.
  - destruct (reference_lookup_by_key ("GEC" ++ kelvin_sign ++ "O") "gecko" None)
      as (Hsame & _ & _ & Hkelvin).
    destruct (Hsame Hkelvin) as (_ & Hout).
    destruct (resolve_reference_model_metadata "gecko" None) as [out|e] eqn:Hgecko;
      [|discriminate].
    now apply Hout.
Defined.

(** X16. The model reference that the registry returns is a canonical name:
    resolving it again, with the same override, gives the same metadata. *)
Theorem returned_reference_is_canonical (l : string) (p : option string)
    (out : Outputs) :
  resolve_reference_model_metadata l p = Ok out ->
  resolve_reference_model_metadata (out_large_model_reference out) p = Ok out.
Proof.
  intros H. destruct (resolve_reference_model_Ok l p out H) as (m & Hin & ->).
  registry_cases Hin; reflexivity.
Qed.

Lemma returned_reference_is_canonical_witness :
  resolve_reference_model_metadata "BISON" None
  = resolve_reference_model_metadata "text-bison@001" None.
Proof.
  destruct (resolve_reference_model_metadata "text-bison@001" None)
    as [out|e] eqn:Hout; [|discriminate].
  pose proof (returned_reference_is_canonical "text-bison@001" None out Hout)
    as Hcanon.
  inversion Hout; subst out. exact Hcanon.
Defined.

(** X17. The reward model of every registered model is a registered model
    itself: it resolves, under its own name, as its own reward model, and
    with the very reward path of the model that named it. *)
Theorem reward_model_is_registered (l : string) (p : option string)
    (out : Outputs) :
  resolve_reference_model_metadata l p = Ok out ->
  exists base,
    resolve_reference_model_metadata (out_reward_model_reference out) None
    = Ok base /\
    out_large_model_reference base = out_reward_model_reference out /\
    out_reward_model_reference base = out_reward_model_reference out /\
    out_reward_model_path base = out_reward_model_path out.
Proof.
  intros H. destruct (resolve_reference_model_Ok l p out H) as (m & Hin & ->).
  registry_cases Hin; (eexists; split; [reflexivity|]; now repeat split).
Qed.

Lemma reward_model_is_registered_witness :
  exists base,
    resolve_reference_model_metadata "OTTER" None = Ok base /\
    out_large_model_reference base = "OTTER" /\
    out_reward_model_reference base = "OTTER" /\
    out_reward_model_path base
    = "gs://vertex-rlhf-restricted/pretrained_models/palm/t5x_otter_pretrain/".
Proof.
  apply (reward_model_is_registered "elephant" None
           {| out_large_model_reference := "ELEPHANT";
              out_reference_model_path :=
                "gs://vertex-rlhf-restricted/pretrained_models/palm/t5x_elephant/";
              out_reward_model_reference := "OTTER";
              out_reward_model_path :=
                "gs://vertex-rlhf-restricted/pretrained_models/palm/t5x_otter_pretrain/" |}).
  reflexivity.
Defined.

(** X18. Bulk inference has default machine specs for the canonical name of
    every registered model but the four Llama entries: for those the call
    fails with the unknown-model error, for all others the defaults are
    returned under either flag. *)
Theorem bulk_defaults_for_registered_models (w : World) (l : string)
    (p : option string) (out : Outputs) :
  set_iter_ok w ->
  resolve_reference_model_metadata l p = Ok out ->
  (In (reference_model_key l)
      ["llama-2-7b"; "llama-2-13b"; "llama-2-7b-chat"; "llama-2-13b-chat"] ->
   forall g t c,
     get_default_bulk_inference_machine_specs w
       (out_large_model_reference out) g t c
     = Raise UnknownModelError) /\
  (~ In (reference_model_key l)
        ["llama-2-7b"; "llama-2-13b"; "llama-2-7b-chat"; "llama-2-13b-chat"] ->
   forall g,
     exists d,
       default_machine_spec (out_large_model_reference out) g = Ok d /\
       get_default_bulk_inference_machine_specs w
         (out_large_model_reference out) g None None
       = Ok d).
Proof.
  intros Hw H. destruct (resolve_reference_model_Ok l p out H) as (m & Hin & ->).
  cbn [out_large_model_reference].
  assert (Hcase :
    In (large_model_reference m) accepted_reference_models /\
    ~ In (reference_model_key l)
         ["llama-2-7b"; "llama-2-13b"; "llama-2-7b-chat"; "llama-2-13b-chat"]
    \/
    ~ In (large_model_reference m) accepted_reference_models /\
    In (reference_model_key l)
       ["llama-2-7b"; "llama-2-13b"; "llama-2-7b-chat"; "llama-2-13b-chat"]).
  { registry_cases Hin;
      first [ left; split; [apply mem_In | apply mem_not_In]; reflexivity
            | right; split; [apply mem_not_In | apply mem_In]; reflexivity ]. }
  destruct Hcase as [[Hacc Hnot] | [Hnacc Hllama]]; split.
  - intros Hl. contradiction.
  - intros _ g. destruct (accepted_default w _ g Hacc) as (d & Hd & _).
    exists d. split; [assumption|].
    apply bulk_specs_default; [assumption | assumption | now left | now left].
  - intros _ g t c. now apply unknown_model_refused_first.
  - intros Hl. contradiction.
Qed.

Lemma bulk_defaults_for_registered_models_witness :
  get_default_bulk_inference_machine_specs world_a "LLAMA_2_13B_CHAT" true
    None None
  = Raise UnknownModelError.
Proof.
  destruct (bulk_defaults_for_registered_models world_a "llama_2_13b_chat" None
              {| out_large_model_reference := "LLAMA_2_13B_CHAT";
                 out_reference_model_path :=
                   "gs://vertex-rlhf-restricted/pretrained_models/llama/t5x_llama_2_13b_chat/";
                 out_reward_model_reference := "LLAMA_2_13B";
                 out_reward_model_path :=
                   "gs://vertex-rlhf-restricted/pretrained_models/llama/t5x_llama_2_13b/" |}
              world_a_ok eq_refl) as (Hllama & _).
  apply Hllama. simpl. tauto.
Defined.

(** X7. A tuned model is uploaded exactly when its reference is BISON, in
    this spelling, and deployed exactly when it is uploaded and deployment
    was asked for.  Seen from the registry, upload is on for the canonical
    name of the three bison entries and of no other entry. *)
Theorem upload_and_deploy_eligibility (deploy_model : bool) (m l : string)
    (p : option string) (out : Outputs) :
  (resolve_upload_model m = true <-> m = "BISON") /\
  resolve_deploy_model deploy_model m = deploy_model && resolve_upload_model m /\
  (resolve_reference_model_metadata l p = Ok out ->
   (resolve_upload_model (out_large_model_reference out) = true <->
    In (reference_model_key l) ["bison"; "text-bison@001"; "chat-bison@001"])).
Proof.
  split; [|split].
  - unfold resolve_upload_model, mem. simpl. rewrite orb_false_r.
    destruct (String.eqb_spec m "BISON"); split; congruence.
  - unfold resolve_deploy_model, resolve_upload_model.
    destruct deploy_model, (mem m ["BISON"]); reflexivity.
  - intros H. destruct (resolve_reference_model_Ok l p out H) as (e & Hin & ->).
    cbn [out_large_model_reference].
    registry_cases Hin;
      (split; [intros Hup; vm_compute in Hup; try discriminate;
                 apply mem_In; reflexivity
              | intros Hk'; apply mem_In in Hk'; vm_compute in Hk';
                try discriminate; reflexivity]).
Qed.

Lemma upload_and_deploy_eligibility_witness :
  resolve_upload_model "BISON" = true <->
  In (reference_model_key "Chat-Bison@001")
     ["bison"; "text-bison@001"; "chat-bison@001"].
Proof.
  destruct (upload_and_deploy_eligibility true "BISON" "Chat-Bison@001" None
              {| out_large_model_reference := "BISON";
                 out_reference_model_path :=
                   "gs://vertex-rlhf-restricted/pretrained_models/palm/t5x_bison/";
                 out_reward_model_reference := "OTTER";
                 out_reward_model_path :=
                   "gs://vertex-rlhf-restricted/pretrained_models/palm/t5x_otter_pretrain/" |})
    as (_ & _ & Hreg).
  apply Hreg. reflexivity.
Defined.

(** ** write_file and read_file *)

Lemma gcs_path_cases (path : string) :
  (exists rest, path = ("gs://" ++ rest)%string) \/
  (gcs_path path = path /\ prefix "gs://" path = false).
Proof.
  destruct path as [|c1 path]; [right; split; reflexivity|].
  destruct c1 as [[] [] [] [] [] [] [] []]; try (right; split; reflexivity).
  destruct path as [|c2 path]; [right; split; reflexivity|].
  destruct c2 as [[] [] [] [] [] [] [] []]; try (right; split; reflexivity).
  destruct path as [|c3 path]; [right; split; reflexivity|].
  destruct c3 as [[] [] [] [] [] [] [] []]; try (right; split; reflexivity).
  destruct path as [|c4 path]; [right; split; reflexivity|].
  destruct c4 as [[] [] [] [] [] [] [] []]; try (right; split; reflexivity).
  destruct path as [|c5 path]; [right; split; reflexivity|].
  destruct c5 as [[] [] [] [] [] [] [] []]; try (right; split; reflexivity).
  left. now exists path.
Qed.

(** X19. [write_file] and [read_file] open the same file for a [gs://]
    address and for its [/gcs/] form: a leading [gs://] is replaced by
    [/gcs/], any other path is left as it is, and doing it twice changes
    nothing more, so the path that is opened never starts with [gs://]. *)
Theorem gcs_path_rewrites_prefix (path rest : string) :
  gcs_path ("gs://" ++ rest) = ("/gcs/" ++ rest)%string /\
  gcs_path ("/gcs/" ++ rest) = ("/gcs/" ++ rest)%string /\
  (prefix "gs://" path = false -> gcs_path path = path) /\
  gcs_path (gcs_path path) = gcs_path path /\
  prefix "gs://" (gcs_path path) = false.
Proof.
  split; [reflexivity|]. split; [reflexivity|].
  destruct (gcs_path_cases path) as [(r & ->) | (Hsame & Hpre)].
  - split; [intros H; destruct r; discriminate|]. split; reflexivity.
  - split; [intros _; assumption|]. rewrite !Hsame. now split.
Qed.

Lemma gcs_path_rewrites_prefix_witness :
  gcs_path "/tmp/outputs/metrics.json" = "/tmp/outputs/metrics.json".
Proof.
  destruct (gcs_path_rewrites_prefix "/tmp/outputs/metrics.json" "")
    as (_ & _ & Hother & _).
  apply Hother. reflexivity.
Defined.

(** ** remote_runner.get_model *)

Section GetModel.

Lemma before_at_no_at (s : string) :
  has_char remote_runner.at_sign (remote_runner.before_at s) = false.
Proof.
  induction s as [|c s IH]; [reflexivity|]. simpl.
  destruct (Ascii.eqb c remote_runner.at_sign) eqn:Hc; [reflexivity|].
  now rewrite has_char_cons, Ascii.eqb_sym, Hc, IH.
Qed.

Lemma before_at_prefix (s : string) :
  exists rest,
    s = (remote_runner.before_at s ++ rest)%string /\
    (rest = EmptyString \/ exists v, rest = String remote_runner.at_sign v).
Proof.
  induction s as [|c s (rest & Heq & Hrest)].
  - exists EmptyString. split; [reflexivity | now left].
  - simpl. destruct (Ascii.eqb c remote_runner.at_sign) eqn:Hc.
    + apply Ascii.eqb_eq in Hc. subst c. exists (String remote_runner.at_sign s).
      split; [reflexivity|]. right. now exists s.
    + exists rest. split; [simpl; now rewrite Heq at 1 | assumption].
Qed.

Lemma before_at_app (b v : string) :
  has_char remote_runner.at_sign b = false ->
  remote_runner.before_at (b ++ String remote_runner.at_sign v) = b.
Proof.
  induction b as [|c b IH]; intros Hb; [reflexivity|].
  rewrite has_char_cons in Hb. apply orb_false_iff in Hb. destruct Hb as [Hc Hb].
  simpl. rewrite Ascii.eqb_sym, Hc. now rewrite IH.
Qed.

Lemma before_at_id (s : string) :
  has_char remote_runner.at_sign s = false -> remote_runner.before_at s = s.
Proof.
  induction s as [|c s IH]; intros Hs; [reflexivity|].
  rewrite has_char_cons in Hs. apply orb_false_iff in Hs. destruct Hs as [Hc Hs].
  simpl. rewrite Ascii.eqb_sym, Hc. now rewrite IH.
Qed.

End GetModel.

(** X20. [get_model] checks its arguments before it touches anything: a
    missing location ends in the [TypeError] of the string concatenation, an
    empty location or a missing or empty project in the [ValueError], and in
    these cases, and in no other, no collaborator is called at all. *)
Theorem get_model_validates_first (ext : remote_runner.Externals)
    (executor_input gcp_resources model_name : string)
    (project location : option string) :
  (location = None ->
   exists msg,
     remote_runner.get_model ext executor_input gcp_resources model_name
       project location
     = ([], Some (remote_runner.TypeError msg))) /\
  (location <> None ->
   location = Some EmptyString \/ project = None \/ project = Some EmptyString ->
   exists msg,
     remote_runner.get_model ext executor_input gcp_resources model_name
       project location
     = ([], Some (remote_runner.ValueError msg))) /\
  (fst (remote_runner.get_model ext executor_input gcp_resources model_name
          project location) = [] <->
   location = None \/ location = Some EmptyString \/
   project = None \/ project = Some EmptyString).
Proof.
  unfold remote_runner.get_model.
  destruct location as [[|c loc]|]; destruct project as [[|d proj]|];
    cbn [truthy_str truthy_opt negb orb];
    (split; [|split]);
    try (intros; eexists; reflexivity);
    try (intros H; congruence);
    try (intros _ [H|[H|H]]; discriminate);
    try (split; [intros _; tauto | reflexivity]).
  split.
  - destruct (remote_runner.ModelServiceClient ext _); [discriminate|].
    destruct (remote_runner.client_get_model ext _ _); [discriminate|].
    destruct (remote_runner.update_output_artifacts ext _ _); discriminate.
  - intros [H|[H|[H|H]]]; discriminate.
Qed.

Lemma get_model_validates_first_witness :
  fst (remote_runner.get_model
         {| remote_runner.ModelServiceClient := fun _ => None;
            remote_runner.client_get_model := fun _ _ => inl "unreachable";
            remote_runner.update_output_artifacts := fun _ _ => None;
            remote_runner.MessageToJson := fun _ => "{}";
            remote_runner.write := fun _ _ => None |}
         "{}" "/tmp/gcp_resources" "123" None (Some "us-central1")) = [] /\
  exists msg,
    remote_runner.get_model
      {| remote_runner.ModelServiceClient := fun _ => None;
         remote_runner.client_get_model := fun _ _ => inl "unreachable";
         remote_runner.update_output_artifacts := fun _ _ => None;
         remote_runner.MessageToJson := fun _ => "{}";
         remote_runner.write := fun _ _ => None |}
      "{}" "/tmp/gcp_resources" "123" (Some "proj") None
    = ([], Some (remote_runner.TypeError msg)).
Proof.
  split.
  - destruct (get_model_validates_first
                {| remote_runner.ModelServiceClient := fun _ => None;
                   remote_runner.client_get_model := fun _ _ => inl "unreachable";
                   remote_runner.update_output_artifacts := fun _ _ => None;
                   remote_runner.MessageToJson := fun _ => "{}";
                   remote_runner.write := fun _ _ => None |}
                "{}" "/tmp/gcp_resources" "123" None (Some "us-central1"))
      as (_ & _ & Hnone).
    apply Hnone. right. right. now left.
  - destruct (get_model_validates_first
                {| remote_runner.ModelServiceClient := fun _ => None;
                   remote_runner.client_get_model := fun _ _ => inl "unreachable";
                   remote_runner.update_output_artifacts := fun _ _ => None;
                   remote_runner.MessageToJson := fun _ => "{}";
                   remote_runner.write := fun _ _ => None |}
                "{}" "/tmp/gcp_resources" "123" (Some "proj") None)
      as (Htype & _).
    apply Htype. reflexivity.
Defined.

(** X21. When [get_model] returns, it has made exactly four calls, in this
    order: the client for the endpoint of the location, the request for
    projects/P/locations/L/models/M, the update of the output artifact and
    the write of the resources file.  The artifact and the resources record
    carry one and the same URI, under the [v1] prefix of that endpoint; the
    resource name in it is the name of the response up to its first [@]
    followed by [@] and the version id of the response, so a version in the
    returned name is replaced, and a name without one is extended. *)
Theorem get_model_outputs (ext : remote_runner.Externals)
    (executor_input gcp_resources model_name : string)
    (project location : option string) (calls : list remote_runner.event) :
  remote_runner.get_model ext executor_input gcp_resources model_name
    project location = (calls, None) ->
  exists loc proj response base,
    location = Some loc /\ loc <> EmptyString /\
    project = Some proj /\ proj <> EmptyString /\
    remote_runner.client_get_model ext (loc ++ "-aiplatform.googleapis.com")
      ("projects/" ++ proj ++ "/locations/" ++ loc ++ "/models/" ++ model_name)
    = inr response /\
    base = remote_runner.before_at (remote_runner.name response) /\
    has_char remote_runner.at_sign base = false /\
    (forall b v,
       remote_runner.name response = (b ++ "@" ++ v)%string ->
       has_char remote_runner.at_sign b = false -> base = b) /\
    (has_char remote_runner.at_sign (remote_runner.name response) = false ->
     base = remote_runner.name response) /\
    calls
    = [remote_runner.CreateClient (loc ++ "-aiplatform.googleapis.com");
       remote_runner.GetModelRequest
         ("projects/" ++ proj ++ "/locations/" ++ loc ++ "/models/" ++ model_name);
       remote_runner.UpdateOutputArtifacts executor_input
         [{| remote_runner.artifact_name := "model";
             remote_runner.uri :=
               "https://" ++ loc ++ "-aiplatform.googleapis.com/v1/" ++ base
               ++ "@" ++ remote_runner.version_id response;
             remote_runner.model_resource_name :=
               base ++ "@" ++ remote_runner.version_id response |}];
       remote_runner.WriteFile gcp_resources
         (remote_runner.MessageToJson ext
            [{| remote_runner.resource_type := "Model";
                remote_runner.resource_uri :=
                  "https://" ++ loc ++ "-aiplatform.googleapis.com/v1/" ++ base
                  ++ "@" ++ remote_runner.version_id response |}])].
Proof.
  unfold remote_runner.get_model.
  destruct location as [loc|]; [|discriminate].
  destruct loc as [|c loc]; [discriminate|].
  destruct project as [[|d proj]|]; cbn [truthy_str truthy_opt negb orb];
    try discriminate.
  cbn [remote_runner.format_opt].
  destruct (remote_runner.ModelServiceClient ext _); [discriminate|].
  destruct (remote_runner.client_get_model ext _ _) as [e|response] eqn:Hresp;
    [discriminate|].
  destruct (remote_runner.update_output_artifacts ext _ _); [discriminate|].
  destruct (remote_runner.write ext _ _); [discriminate|].
  intros H. inversion H as [Hcalls]. clear H.
  exists (String c loc), (String d proj), response,
    (remote_runner.before_at (remote_runner.name response)).
  split; [reflexivity|]. split; [discriminate|].
  split; [reflexivity|]. split; [discriminate|].
  split; [exact Hresp|]. split; [reflexivity|].
  split; [apply before_at_no_at|]. split; [|split].
  - intros b v Hname Hb. rewrite Hname. now apply before_at_app.
  - apply before_at_id.
  - cbn [app]. rewrite !append_assoc. reflexivity.
Qed.

Lemma get_model_outputs_witness :
  exists base,
    base = "projects/1/locations/us-central1/models/42" /\
    remote_runner.get_model
      {| remote_runner.ModelServiceClient := fun _ => None;
         remote_runner.client_get_model := fun _ request =>
           inr {| remote_runner.name := (request ++ "@default")%string;
                  remote_runner.version_id := "3" |};
         remote_runner.update_output_artifacts := fun _ _ => None;
         remote_runner.MessageToJson := fun resources =>
           join "," (map remote_runner.resource_uri resources);
         remote_runner.write := fun _ _ => None |}
      "{}" "/tmp/gcp_resources" "42" (Some "1") (Some "us-central1")
    = ([remote_runner.CreateClient "us-central1-aiplatform.googleapis.com";
        remote_runner.GetModelRequest base;
        remote_runner.UpdateOutputArtifacts "{}"
          [{| remote_runner.artifact_name := "model";
              remote_runner.uri :=
                "https://us-central1-aiplatform.googleapis.com/v1/projects/1/locations/us-central1/models/42@3";
              remote_runner.model_resource_name :=
                "projects/1/locations/us-central1/models/42@3" |}];
        remote_runner.WriteFile "/tmp/gcp_resources"
          "https://us-central1-aiplatform.googleapis.com/v1/projects/1/locations/us-central1/models/42@3"],
       None).
Proof.
  eexists. split; [reflexivity|].
  destruct (remote_runner.get_model _ "{}" "/tmp/gcp_resources" "42" (Some "1")
              (Some "us-central1")) as [calls [e|]] eqn:Hrun;
    [vm_compute in Hrun; discriminate|].
  destruct (get_model_outputs _ _ _ _ _ _ _ Hrun)
    as (loc & proj & response & base & Hloc & _ & Hproj & _ & Hresp & Hbase
        & _ & _ & _ & Hcalls).
  inversion Hloc; subst loc. inversion Hproj; subst proj.
  cbn in Hresp. inversion Hresp; subst response.
  vm_compute in Hbase. subst base. rewrite Hcalls. reflexivity.
Defined.

(** X22. [get_model] calls each collaborator at most once, in a fixed order,
    and stops at the first one that raises: the calls made are an initial
    part of client, request, artifact update, file write; a call that raised
    is the last call of the run, and its exception is the one that the run
    ends with; a run that ends with the exception of a collaborator has that
    collaborator's call as its last; a run that returns has made all four
    calls. *)
Theorem get_model_stops_at_first_failure (ext : remote_runner.Externals)
    (executor_input gcp_resources model_name location : string)
    (project : option string) :
  let run :=
    remote_runner.get_model ext executor_input gcp_resources model_name
      project (Some location) in
  let api_endpoint := (location ++ "-aiplatform.googleapis.com")%string in
  (exists request artifacts content rest,
     [remote_runner.CreateClient api_endpoint;
      remote_runner.GetModelRequest request;
      remote_runner.UpdateOutputArtifacts executor_input artifacts;
      remote_runner.WriteFile gcp_resources content]
     = (fst run ++ rest)%list) /\
  (forall before call after e,
     fst run = (before ++ call :: after)%list ->
     remote_runner.raised ext api_endpoint call = Some e ->
     after = [] /\ snd run = Some (remote_runner.External e)) /\
  (forall e,
     snd run = Some (remote_runner.External e) ->
     exists before call,
       fst run = (before ++ [call])%list /\
       remote_runner.raised ext api_endpoint call = Some e) /\
  (snd run = None -> List.length (fst run) = 4%nat).
Proof.
  cbv zeta. unfold remote_runner.get_model.
  destruct (negb (truthy_str location) || negb (truthy_opt truthy_str project)).
  { cbn [fst snd].
    split; [exists "", [], ""; eexists; reflexivity|].
    split; [intros [|c1 l1] call after e H; discriminate|].
    split; discriminate. }
  destruct (remote_runner.ModelServiceClient ext _) as [e0|] eqn:Hclient.
  { cbn [fst snd].
    split; [exists "", [], ""; eexists; reflexivity|].
    split; [|split; [|discriminate]].
    - intros [|c1 [|c2 l2]] call after e H Hr;
        cbn [app] in H; repeat (first [discriminate H | injection H as ? H]); subst.
      cbn [remote_runner.raised] in Hr. rewrite Hclient in Hr.
      inversion Hr. now split.
    - intros e He. inversion He; subst.
      exists [], (remote_runner.CreateClient
                    (location ++ "-aiplatform.googleapis.com")).
      split; [reflexivity | exact Hclient]. }
  destruct (remote_runner.client_get_model ext _ _) as [e1|response] eqn:Hresp.
  { cbn [fst snd].
    split; [eexists; exists [], ""; eexists; reflexivity|].
    split; [|split; [|discriminate]].
    - intros [|c1 [|c2 [|c3 l3]]] call after e H Hr;
        cbn [app] in H; repeat (first [discriminate H | injection H as ? H]); subst;
        cbn [remote_runner.raised] in Hr.
      + rewrite Hclient in Hr. discriminate.
      + simpl in Hr, Hresp. rewrite Hresp in Hr. inversion Hr. now split.
    - intros e He. inversion He; subst.
      eexists [_], _. split; [reflexivity|].
      cbn [remote_runner.raised]. now rewrite Hresp. }
  destruct (remote_runner.update_output_artifacts ext _ _) as [e2|] eqn:Hupdate.
  { cbn [fst snd].
    split; [do 2 eexists; exists ""; eexists; reflexivity|].
    split; [|split; [|discriminate]].
    - intros [|c1 [|c2 [|c3 [|c4 l4]]]] call after e H Hr;
        cbn [app] in H; repeat (first [discriminate H | injection H as ? H]); subst;
        cbn [remote_runner.raised] in Hr.
      + rewrite Hclient in Hr. discriminate.
      + simpl in Hr, Hresp. rewrite Hresp in Hr. discriminate.
      + simpl in Hr, Hupdate. rewrite Hupdate in Hr. inversion Hr. now split.
    - intros e He. inversion He; subst.
      eexists [_; _], _. split; [reflexivity | exact Hupdate]. }
  cbn [fst snd app].
  split; [do 3 eexists; exists []; reflexivity|].
  split; [|split; [|reflexivity]].
  - intros [|c1 [|c2 [|c3 [|c4 [|c5 l5]]]]] call after e H Hr;
        cbn [app] in H; repeat (first [discriminate H | injection H as ? H]); subst;
      cbn [remote_runner.raised] in Hr.
    + rewrite Hclient in Hr. discriminate.
    + simpl in Hr, Hresp. rewrite Hresp in Hr. discriminate.
    + simpl in Hr, Hupdate. rewrite Hupdate in Hr. discriminate.
    + simpl in Hr. simpl. rewrite Hr. now split.
  - intros e He.
    destruct (remote_runner.write ext _ _) as [e3|] eqn:Hwrite; [|discriminate].
    inversion He; subst.
    eexists [_; _; _], _. split; [reflexivity | exact Hwrite].
Qed.

Lemma get_model_stops_at_first_failure_witness :
  remote_runner.get_model
    {| remote_runner.ModelServiceClient := fun _ => None;
       remote_runner.client_get_model := fun _ _ => inl "404 not found";
       remote_runner.update_output_artifacts := fun _ _ => None;
       remote_runner.MessageToJson := fun _ => "{}";
       remote_runner.write := fun _ _ => None |}
    "{}" "/tmp/gcp_resources" "42" (Some "1") (Some "us-central1")
  = ([remote_runner.CreateClient "us-central1-aiplatform.googleapis.com";
      remote_runner.GetModelRequest "projects/1/locations/us-central1/models/42"],
     Some (remote_runner.External "404 not found")).
Proof.
  destruct (get_model_stops_at_first_failure
              {| remote_runner.ModelServiceClient := fun _ => None;
                 remote_runner.client_get_model := fun _ _ => inl "404 not found";
                 remote_runner.update_output_artifacts := fun _ _ => None;
                 remote_runner.MessageToJson := fun _ => "{}";
                 remote_runner.write := fun _ _ => None |}
              "{}" "/tmp/gcp_resources" "42" "us-central1" (Some "1"))
    as (_ & Hstop & _).
  destruct (remote_runner.get_model _ "{}" "/tmp/gcp_resources" "42" (Some "1")
              (Some "us-central1")) as [calls err] eqn:Hrun.
  cbn [fst snd] in Hstop.
  assert (Hcalls : exists after,
            calls = ([remote_runner.CreateClient
                        "us-central1-aiplatform.googleapis.com"]
                     ++ remote_runner.GetModelRequest
                          "projects/1/locations/us-central1/models/42"
                        :: after)%list).
  { vm_compute in Hrun. inversion Hrun. now exists []. }
  destruct Hcalls as (after & Hcalls).
  destruct (Hstop _ _ _ "404 not found" Hcalls eq_refl) as (Hafter & Herr).
  now rewrite Hcalls, Hafter, Herr.
Defined.
